(** * Knowledge-graph plugin: a shallow embedding and its properties

    The development follows the knowledge-graph plugin source
    ([KnowledgeGraphPlugin], one JavaScript module over an embedded SQLite
    store).  Every SQL statement of the source is read as a function on
    tables, every handler and tool as a function on the plugin state.

    Conventions of the embedding
    - a table is the list of its rows in insertion (rowid) order; a
      [SELECT] without [ORDER BY] visits the rows in that order;
    - a JavaScript or SQL string is the [string] of its bytes in UTF-8,
      the form in which the store keeps text; a nullable [TEXT] column
      is an [option string];
    - values the source draws from its environment ([uuidv4()],
      [datetime('now')], [Date.now()], [process.cwd()], [path.normalize])
      are arguments of the embedded functions;
    - a call either returns a payload or throws; both come with the
      plugin state the call leaves behind. *)

From Stdlib Require Import List String Ascii Bool Arith ZArith NArith Lia.
From Stdlib Require Import Sorting.Sorted DecimalString.
Import ListNotations.

Local Open Scope list_scope.
Local Open Scope string_scope.

Set Warnings "-register-all".

Set Implicit Arguments.

(* ===================================================================== *)
(** * JavaScript values the source manipulates                            *)
(* ===================================================================== *)

Module JS.

(** What a call can throw. *)
Inductive exn :=
| Error (message : string)          (* [throw new Error(message)] *)
| SqliteError (message : string)    (* a constraint raised by the store *)
| SyntaxError                       (* [JSON.parse] on malformed text *)
| TypeError.                        (* property access on null/undefined *)

Inductive outcome (A : Type) :=
| Returns (a : A)
| Throws (e : exn).
Arguments Throws {A} e.

Definition is_returns {A} (o : outcome A) : bool :=
  match o with Returns _ => true | Throws _ => false end.

(** What is left of an outcome when only [f] of the payload is looked
    at; a throw stays the same throw. *)
Definition map_outcome {A B} (f : A -> B) (o : outcome A) : outcome B :=
  match o with
  | Returns a => Returns (f a)
  | Throws e => Throws e
  end.

(** A JavaScript number, as far as a statement that wants an integer
    tells numbers apart. *)
Inductive js_number :=
| Integral (z : Z)      (* a number whose value is the integer [z] *)
| NonIntegral.          (* a fraction, [NaN] or an infinity *)

(** Truthiness of an optional string: [undefined], [null] and [''] are
    falsy. *)
Definition truthy (o : option string) : bool :=
  match o with
  | Some s => negb (s =? "")
  | None => false
  end.

(** [a || null] on an optional string argument. *)
Definition or_null (o : option string) : option string :=
  if truthy o then o else None.

(** [a || fallback] on an optional string. *)
Definition or_else (o : option string) (fallback : string) : string :=
  match o with
  | Some s => if s =? "" then fallback else s
  | None => fallback
  end.

(** [s.substring(0, n)], the positions counted in bytes. *)
Definition substring0 (n : nat) (s : string) : string := String.substring 0 n s.

(** [s.startsWith(p)]. *)
Definition startsWith (p s : string) : bool := String.prefix p s.

(** [s.includes(p)]. *)
Fixpoint includes (p s : string) : bool :=
  String.prefix p s ||
  match s with
  | EmptyString => false
  | String _ s' => includes p s'
  end.

(** [s.endsWith(p)]. *)
Fixpoint endsWith (p s : string) : bool :=
  (s =? p) ||
  match s with
  | EmptyString => false
  | String _ s' => endsWith p s'
  end.

Definition newline : ascii := "010"%char.

(** [l.join(sep)]. *)
Fixpoint join (sep : string) (l : list string) : string :=
  match l with
  | [] => ""
  | [x] => x
  | x :: l' => x ++ sep ++ join sep l'
  end.

(** [s.split('\n')]: never empty, [''] splits into [['']]. *)
Fixpoint split_lines (s : string) : list string :=
  match s with
  | EmptyString => [""]
  | String c s' =>
      if (c =? newline)%char then "" :: split_lines s'
      else
        match split_lines s' with
        | l :: ls => String c l :: ls
        | [] => [String c ""]
        end
  end.

(** [l.slice(a, b)] for [0 <= a]. *)
Definition slice {A} (a b : nat) (l : list A) : list A :=
  firstn (b - a) (skipn a l).

Fixpoint drop (n : nat) (s : string) : string :=
  match n, s with
  | S n', String _ s' => drop n' s'
  | _, _ => s
  end.

(** [s.replace(p, r)] with a string pattern: the first occurrence only. *)
Fixpoint replace_first (p r s : string) : string :=
  if String.prefix p s then r ++ drop (String.length p) s
  else
    match s with
    | EmptyString => ""
    | String c s' => String c (replace_first p r s')
    end.

(** The white space and line terminators [trim] removes, by the bytes
    of their UTF-8 form: U+0009 to U+000D and U+0020 in one byte, U+00A0
    in two, and in three U+1680, U+2000 to U+200A, U+2028, U+2029,
    U+202F, U+205F, U+3000 and U+FEFF. *)
Definition space1 (a : ascii) : bool :=
  let n := N_of_ascii a in
  ((n =? 32) || ((9 <=? n) && (n <=? 13)))%N.

Definition space2 (a b : ascii) : bool :=
  ((N_of_ascii a =? 194) && (N_of_ascii b =? 160))%N.

Definition space3 (a b c : ascii) : bool :=
  let x := N_of_ascii a in
  let y := N_of_ascii b in
  let z := N_of_ascii c in
  (((x =? 225) && (y =? 154) && (z =? 128))
   || ((x =? 226) && (y =? 128)
       && (((128 <=? z) && (z <=? 138)) || (z =? 168) || (z =? 169) || (z =? 175)))
   || ((x =? 226) && (y =? 129) && (z =? 159))
   || ((x =? 227) && (y =? 128) && (z =? 128))
   || ((x =? 239) && (y =? 187) && (z =? 191)))%N.

Fixpoint trim_start (s : string) : string :=
  match s with
  | String a s1 =>
      if space1 a then trim_start s1
      else
        match s1 with
        | String b s2 =>
            if space2 a b then trim_start s2
            else
              match s2 with
              | String c s3 => if space3 a b c then trim_start s3 else s
              | EmptyString => s
              end
        | EmptyString => s
        end
  | EmptyString => s
  end.

(** The text up to the point from which only white space follows. *)
Fixpoint trim_end (s : string) : string :=
  match s with
  | String c s' => if trim_start s =? "" then "" else String c (trim_end s')
  | EmptyString => s
  end.

(** [s.trim()]. *)
Definition trim (s : string) : string := trim_end (trim_start s).

(** A non-negative integer in a template literal. *)
Definition decimal (n : N) : string := NilEmpty.string_of_uint (N.to_uint n).

End JS.
Import JS.

(* ===================================================================== *)
(** * The SQL fragment of the source                                      *)
(* ===================================================================== *)

Module Sql.

(** ASCII case folding, the only folding SQLite's built-in [LIKE]
    applies. *)
Definition upper (c : ascii) : ascii :=
  let n := N_of_ascii c in
  if ((97 <=? n) && (n <=? 122))%N then ascii_of_N (n - 32) else c.

Definition eq_nocase (a b : ascii) : bool := (upper a =? upper b)%char.

(** ** The characters [LIKE] reads

    SQLite's [LIKE] takes its two operands as C strings, so it reads each
    up to its first NUL byte, and it reads them one UTF-8 character at a
    time ([sqlite3Utf8Read]): a byte below [0xC0] is a character of its
    own; a byte from [0xC0] on opens a character that takes in every
    continuation byte ([10xxxxxx]) that follows, and whose value is
    replaced by U+FFFD when it is below [0x80], a surrogate, or [0xFFFE]
    or [0xFFFF]. *)

(** [sqlite3Utf8Trans1]: the payload bits of a lead byte. *)
Definition trans1 (b : N) : N :=
  (if b <? 224 then b - 192
   else if b <? 240 then b - 224
   else if b <? 248 then b - 240
   else if b <? 252 then b - 248
   else if b <? 254 then b - 252
   else 0)%N.

Definition is_continuation (b : N) : bool := (N.land b 192 =? 128)%N.

(** One more continuation byte, in 32-bit unsigned arithmetic. *)
Definition more (c b : N) : N := ((c * 64 + N.land b 63) mod 4294967296)%N.

Definition repair (c : N) : N :=
  (if (c <? 128) || (N.land c 4294965248 =? 55296) || (N.land c 4294967294 =? 65534)
   then 65533 else c)%N.

Definition flush (pending : option N) : list N :=
  match pending with
  | Some c => [repair c]
  | None => []
  end.

(** The characters of [s] up to its first NUL byte; [pending] is the
    character a lead byte has opened. *)
Fixpoint read (pending : option N) (s : string) : list N :=
  match s with
  | EmptyString => flush pending
  | String a s' =>
      let b := N_of_ascii a in
      let next :=
        if (b =? 0)%N then []
        else if (b <? 192)%N then b :: read None s'
        else read (Some (trans1 b)) s' in
      match pending with
      | Some c =>
          if is_continuation b then read (Some (more c b)) s'
          else repair c :: next
      | None => next
      end
  end.

Definition chars (s : string) : list N := read None s.

(** ** [LIKE]

    [patternCompare] of SQLite for [LIKE] without [ESCAPE]: [%] stands
    for any run of characters, [_] for exactly one, every other character
    for itself, two characters below [0x80] being the same when they are
    the same letter in either case. *)
Inductive verdict :=
| Match
| NoMatch
| NoWildcardMatch.    (* no match, and no later start can match either *)

Definition percent : N := 37.
Definition underscore : N := 95.

(** [sqlite3Tolower] and [sqlite3Toupper]. *)
Definition tolower (c : N) : N :=
  (if (65 <=? c) && (c <=? 90) then c + 32 else c)%N.

Definition toupper (c : N) : N :=
  (if (97 <=? c) && (c <=? 122) then c - 32 else c)%N.

(** A pattern character that is no [%] against the next character of the
    subject. *)
Definition same (c c2 : N) : bool :=
  ((c =? c2)
   || ((tolower c =? tolower c2) && (c <? 128) && (c2 <? 128))
   || (c =? underscore))%N.

(** The character after a [%], looked for in the subject. *)
Definition found (c c2 : N) : bool :=
  (if c <? 128 then (c2 =? toupper c) || (c2 =? tolower c) else c2 =? c)%N.

Fixpoint pattern_compare (pattern : list N) : list N -> verdict :=
  match pattern with
  | [] => fun subject =>
      match subject with [] => Match | _ :: _ => NoMatch end
  | c :: pattern' =>
      if (c =? percent)%N then after_percent pattern'
      else fun subject =>
        match subject with
        | [] => NoMatch
        | c2 :: subject' =>
            if same c c2 then pattern_compare pattern' subject' else NoMatch
        end
  end

(** After a [%]: further [%] are skipped, each [_] takes one character
    of the subject, and the first other character is looked for from
    left to right, the rest of the pattern being tried after each
    place it is found at. *)
with after_percent (pattern : list N) : list N -> verdict :=
  match pattern with
  | [] => fun _ => Match
  | c :: pattern' =>
      if (c =? percent)%N then after_percent pattern'
      else if (c =? underscore)%N then fun subject =>
        match subject with
        | [] => NoWildcardMatch
        | _ :: subject' => after_percent pattern' subject'
        end
      else
        fix search (subject : list N) : verdict :=
          match subject with
          | [] => NoWildcardMatch
          | c2 :: subject' =>
              if found c c2 then
                match pattern_compare pattern' subject' with
                | NoMatch => search subject'
                | v => v
                end
              else search subject'
          end
  end.

(** [subject LIKE pattern] for a pattern the function accepts. *)
Definition like (pattern subject : string) : bool :=
  match pattern_compare (chars pattern) (chars subject) with
  | Match => true
  | _ => false
  end.

(** The [LIKE] function refuses a pattern of more than 50000 bytes
    ([SQLITE_MAX_LIKE_PATTERN_LENGTH]) with the error
    [LIKE or GLOB pattern too complex]. *)
Definition too_complex (pattern : string) : bool :=
  (50000 <? N.of_nat (String.length pattern))%N.

(** [column LIKE pattern] on a nullable column: [NULL LIKE _] is NULL,
    which a [WHERE] clause treats as false. *)
Definition like_opt (pattern : string) (column : option string) : bool :=
  match column with
  | Some s => like pattern s
  | None => false
  end.

(** [column = value] on a nullable column, binary collation. *)
Definition eq_opt (column : option string) (value : string) : bool :=
  match column with
  | Some s => (s =? value)
  | None => false
  end.

Section OrderBy.
Variable row : Type.
Variable key : row -> string.

(** [ORDER BY key DESC]: stable insertion into a descending list, keys
    compared byte-wise as SQLite's BINARY collation does. *)
Fixpoint insert_desc (x : row) (l : list row) : list row :=
  match l with
  | [] => [x]
  | y :: l' =>
      if String.leb (key y) (key x) then x :: y :: l'
      else y :: insert_desc x l'
  end.

Definition order_by_desc (l : list row) : list row :=
  fold_right insert_desc [] l.

(** [LIMIT n] once SQLite holds [n] as a 64-bit integer: a negative
    bound places no bound. *)
Definition limit (n : Z) (l : list row) : list row :=
  if (n <? 0)%Z then l else firstn (Z.to_nat n) l.
End OrderBy.

(** [LIMIT ?] bound to a JavaScript number.  The statement starts with
    the conversion of the bound to a 64-bit integer ([OP_MustBeInt]); it
    fails with [datatype mismatch] for a number that is not integral and
    for one that is not strictly between the least and the greatest
    64-bit integer. *)
Definition must_be_int (v : js_number) : outcome Z :=
  match v with
  | Integral z =>
      if ((-9223372036854775808 <? z) && (z <? 9223372036854775807))%Z
      then Returns z
      else Throws (SqliteError "datatype mismatch")
  | NonIntegral => Throws (SqliteError "datatype mismatch")
  end.

End Sql.

(* ===================================================================== *)
(** * JSON text: [JSON.stringify] and [JSON.parse]                        *)
(* ===================================================================== *)

Module Json.

(** A parsed JSON value.  A number keeps its lexeme; an object keeps its
    members in the order of the text, duplicates included. *)
Inductive json :=
| JNull
| JBool (b : bool)
| JNumber (lexeme : string)
| JString (s : string)
| JArray (elements : list json)
| JObject (members : list (string * json)).

Definition dquote : ascii := "034"%char.
Definition backslash : ascii := "092"%char.

Definition hex_digit (n : N) : ascii :=
  if (n <? 10)%N then ascii_of_N (48 + n) else ascii_of_N (87 + n).

Definition hex_val (c : ascii) : option N :=
  let n := N_of_ascii c in
  if ((48 <=? n) && (n <=? 57))%N then Some (n - 48)%N
  else if ((97 <=? n) && (n <=? 102))%N then Some (n - 87)%N
  else if ((65 <=? n) && (n <=? 70))%N then Some (n - 55)%N
  else None.

(** One character of a quoted JSON string, as [JSON.stringify] writes
    it: the two-character escapes, [\u00xx] for the other control
    characters, everything else verbatim. *)
Definition esc_char (c : ascii) : string :=
  let n := N_of_ascii c in
  if (c =? dquote)%char then String backslash (String dquote "")
  else if (c =? backslash)%char then String backslash (String backslash "")
  else if (n =? 8)%N then String backslash "b"
  else if (n =? 9)%N then String backslash "t"
  else if (n =? 10)%N then String backslash "n"
  else if (n =? 12)%N then String backslash "f"
  else if (n =? 13)%N then String backslash "r"
  else if (n <? 32)%N then
    String backslash
      (String "u" (String "0" (String "0"
        (String (hex_digit (n / 16)) (String (hex_digit (n mod 16)) "")))))
  else String c "".

Fixpoint esc (s : string) : string :=
  match s with
  | EmptyString => ""
  | String c s' => esc_char c ++ esc s'
  end.

Definition quote (s : string) : string :=
  String dquote (esc s ++ String dquote "").

(** [JSON.stringify(v)], no indentation. *)
Fixpoint stringify (v : json) : string :=
  match v with
  | JNull => "null"
  | JBool true => "true"
  | JBool false => "false"
  | JNumber lexeme => lexeme
  | JString s => quote s
  | JArray l => "[" ++ join "," (map stringify l) ++ "]"
  | JObject ms =>
      "{" ++ join "," (map (fun kv => quote (fst kv) ++ ":" ++ stringify (snd kv)) ms)
          ++ "}"
  end.

(** ** Parsing *)

Definition is_ws (c : ascii) : bool :=
  let n := N_of_ascii c in
  ((n =? 32) || (n =? 9) || (n =? 10) || (n =? 13))%N.

Fixpoint skip_ws (s : string) : string :=
  match s with
  | String c s' => if is_ws c then skip_ws s' else s
  | EmptyString => s
  end.

(** The bytes of a character below U+10000 in UTF-8.  A [\uXXXX]
    escape that is half of a surrogate pair and stands alone is kept in
    the same three-byte form. *)
Definition utf8 (n : N) : string :=
  if (n <? 128)%N then String (ascii_of_N n) ""
  else if (n <? 2048)%N then
    String (ascii_of_N (192 + n / 64)) (String (ascii_of_N (128 + n mod 64)) "")
  else
    String (ascii_of_N (224 + n / 4096))
      (String (ascii_of_N (128 + (n / 64) mod 64))
        (String (ascii_of_N (128 + n mod 64)) "")).

Definition is_high_surrogate (n : N) : bool := ((55296 <=? n) && (n <=? 56319))%N.
Definition is_low_surrogate (n : N) : bool := ((56320 <=? n) && (n <=? 57343))%N.

(** The four bytes of the character a surrogate pair stands for. *)
Definition utf8_pair (high low : N) : string :=
  let n := (65536 + (high - 55296) * 1024 + (low - 56320))%N in
  String (ascii_of_N (240 + n / 262144))
    (String (ascii_of_N (128 + (n / 4096) mod 64))
      (String (ascii_of_N (128 + (n / 64) mod 64))
        (String (ascii_of_N (128 + n mod 64)) ""))).

Definition simple_escape (e : ascii) : option ascii :=
  if (e =? dquote)%char then Some dquote
  else if (e =? backslash)%char then Some backslash
  else if (e =? "/")%char then Some "/"%char
  else if (e =? "b")%char then Some "008"%char
  else if (e =? "f")%char then Some "012"%char
  else if (e =? "n")%char then Some "010"%char
  else if (e =? "r")%char then Some "013"%char
  else if (e =? "t")%char then Some "009"%char
  else None.

Definition hex4 (a b c d : ascii) : option N :=
  match hex_val a, hex_val b, hex_val c, hex_val d with
  | Some x, Some y, Some z, Some w => Some (((x * 16 + y) * 16 + z) * 16 + w)%N
  | _, _, _, _ => None
  end.

Definition prepend (p : string) (r : option (string * string)) :
  option (string * string) :=
  match r with
  | Some (s, rest) => Some (p ++ s, rest)
  | None => None
  end.

(** The characters of a string after its opening quote, up to and
    including the closing quote; returns the decoded string and the
    rest of the text. *)
Fixpoint string_body (s : string) : option (string * string) :=
  match s with
  | EmptyString => None
  | String c s' =>
      if (c =? dquote)%char then Some ("", s')
      else if (c =? backslash)%char then
        match s' with
        | EmptyString => None
        | String e s'' =>
            match simple_escape e with
            | Some ch => prepend (String ch "") (string_body s'')
            | None =>
                if (e =? "u")%char then
                  match s'' with
                  | String h1 (String h2 (String h3 (String h4 rest))) =>
                      match hex4 h1 h2 h3 h4 with
                      | Some n =>
                          if is_high_surrogate n then
                            (* a low surrogate escape right behind makes
                               one character of the two *)
                            match rest with
                            | String b (String u (String l1 (String l2
                                (String l3 (String l4 rest'))))) =>
                                match hex4 l1 l2 l3 l4 with
                                | Some m =>
                                    if (b =? backslash)%char && (u =? "u")%char
                                       && is_low_surrogate m
                                    then prepend (utf8_pair n m) (string_body rest')
                                    else prepend (utf8 n) (string_body rest)
                                | None => prepend (utf8 n) (string_body rest)
                                end
                            | _ => prepend (utf8 n) (string_body rest)
                            end
                          else prepend (utf8 n) (string_body rest)
                      | None => None
                      end
                  | _ => None
                  end
                else None
            end
        end
      else if (N_of_ascii c <? 32)%N then None
      else prepend (String c "") (string_body s')
  end.

Definition is_digit (c : ascii) : bool :=
  let n := N_of_ascii c in ((48 <=? n) && (n <=? 57))%N.

(** The longest run of digits in front of [s], and what follows. *)
Fixpoint digits (s : string) : string * string :=
  match s with
  | String c s' =>
      if is_digit c then let (d, rest) := digits s' in (String c d, rest)
      else ("", s)
  | EmptyString => ("", s)
  end.

(** A JSON number: an optional minus, an integer part without leading
    zero, an optional fraction, an optional exponent. *)
Definition number (s : string) : option (string * string) :=
  let (sign, s1) :=
    match s with
    | String "-" s' => ("-", s')
    | _ => ("", s)
    end in
  let (int, s2) := digits s1 in
  let int_ok :=
    match int with
    | EmptyString => false
    | String "0" EmptyString => true
    | String "0" _ => false
    | _ => true
    end in
  if negb int_ok then None else
  let frac :=
    match s2 with
    | String "." s' =>
        let (d, rest) := digits s' in
        if d =? "" then None else Some ("." ++ d, rest)
    | _ => Some ("", s2)
    end in
  match frac with
  | None => None
  | Some (fr, s3) =>
      match s3 with
      | String e s' =>
          if ((e =? "e") || (e =? "E"))%char then
            let (esign, s4) :=
              match s' with
              | String "+" t => ("+", t)
              | String "-" t => ("-", t)
              | _ => ("", s')
              end in
            let (d, rest) := digits s4 in
            if d =? "" then None
            else Some (sign ++ int ++ fr ++ String e esign ++ d, rest)
          else Some (sign ++ int ++ fr, s3)
      | EmptyString => Some (sign ++ int ++ fr, s3)
      end
  end.

Definition literal (word : string) (v : json) (s : string) : option (json * string) :=
  if String.prefix word s
  then Some (v, String.substring (String.length word)
                  (String.length s - String.length word) s)
  else None.

(** Recursive descent; [fuel] bounds the depth of the call chain. *)
Fixpoint value (fuel : nat) (s : string) : option (json * string) :=
  match fuel with
  | O => None
  | S fuel' =>
      match skip_ws s with
      | EmptyString => None
      | String c s' =>
          if (c =? "{")%char then
            match skip_ws s' with
            | String "}" rest => Some (JObject [], rest)
            | _ =>
                match members fuel' s' with
                | Some (ms, rest) => Some (JObject ms, rest)
                | None => None
                end
            end
          else if (c =? "[")%char then
            match skip_ws s' with
            | String "]" rest => Some (JArray [], rest)
            | _ =>
                match elements fuel' s' with
                | Some (l, rest) => Some (JArray l, rest)
                | None => None
                end
            end
          else if (c =? dquote)%char then
            match string_body s' with
            | Some (str, rest) => Some (JString str, rest)
            | None => None
            end
          else if (c =? "t")%char then literal "true" (JBool true) (String c s')
          else if (c =? "f")%char then literal "false" (JBool false) (String c s')
          else if (c =? "n")%char then literal "null" JNull (String c s')
          else
            match number (String c s') with
            | Some (lexeme, rest) => Some (JNumber lexeme, rest)
            | None => None
            end
      end
  end

with elements (fuel : nat) (s : string) : option (list json * string) :=
  match fuel with
  | O => None
  | S fuel' =>
      match value fuel' s with
      | Some (v, rest) =>
          match skip_ws rest with
          | String "," rest' =>
              match elements fuel' rest' with
              | Some (l, rest'') => Some (v :: l, rest'')
              | None => None
              end
          | String "]" rest' => Some ([v], rest')
          | _ => None
          end
      | None => None
      end
  end

with members (fuel : nat) (s : string) : option (list (string * json) * string) :=
  match fuel with
  | O => None
  | S fuel' =>
      match skip_ws s with
      | String c s' =>
          if (c =? dquote)%char then
            match string_body s' with
            | Some (k, rest) =>
                match skip_ws rest with
                | String ":" rest' =>
                    match value fuel' rest' with
                    | Some (v, rest'') =>
                        match skip_ws rest'' with
                        | String "," rest3 =>
                            match members fuel' rest3 with
                            | Some (ms, rest4) => Some ((k, v) :: ms, rest4)
                            | None => None
                            end
                        | String "}" rest3 => Some ([(k, v)], rest3)
                        | _ => None
                        end
                    | None => None
                    end
                | _ => None
                end
            | None => None
            end
          else None
      | EmptyString => None
      end
  end.

(** [JSON.parse(text)]: one value, surrounded by white space only.
    [None] stands for the [SyntaxError] the built-in throws. *)
Definition parse (text : string) : option json :=
  match value (2 * String.length text + 2) text with
  | Some (v, rest) =>
      match skip_ws rest with
      | EmptyString => Some v
      | _ => None
      end
  | None => None
  end.

(** [v.key] for a key that no built-in prototype defines: the last
    member of that name in an object, [undefined] ([None]) on any other
    non-null value, a [TypeError] on [null]. *)
Fixpoint member (key : string) (ms : list (string * json)) : option json :=
  match ms with
  | [] => None
  | (k, v) :: ms' =>
      match member key ms' with
      | Some w => Some w
      | None => if k =? key then Some v else None
      end
  end.

Definition get (key : string) (v : json) : outcome (option json) :=
  match v with
  | JNull => Throws TypeError
  | JObject ms => Returns (member key ms)
  | _ => Returns None
  end.

End Json.
Import Json.

(* ===================================================================== *)
(** * The store: four tables                                              *)
(* ===================================================================== *)

Module Store.

(** A row of [entities].  [id], [type] and [name] are [NOT NULL];
    [project_path], [created_at] and [updated_at] are written by every
    [INSERT] of the source (the last two by their [datetime('now')]
    default) and are kept as plain strings. *)
Record entity := {
  e_id : string;
  e_type : string;
  e_name : string;
  e_content : option string;
  e_metadata : option string;
  e_project_path : string;
  e_created_at : string;
  e_updated_at : string
}.

Record relationship := {
  r_id : string;
  r_source_id : string;
  r_target_id : string;
  r_relationship_type : string;
  r_metadata : option string;
  r_project_path : string;
  r_created_at : string
}.

Record session := {
  s_id : string;
  s_project_path : string;
  s_start_time : string;
  s_end_time : option string;
  s_summary : option string;
  s_key_decisions : option string;
  s_files_modified : option string;
  s_context : option string
}.

Record query := {
  q_id : string;
  q_project_path : string;
  q_query_text : string;
  q_result_summary : option string;
  q_timestamp : string
}.

Record database := {
  entities : list entity;
  relationships : list relationship;
  sessions : list session;
  queries : list query
}.

Definition empty : database :=
  {| entities := []; relationships := []; sessions := []; queries := [] |}.

(** [initDatabase]: [CREATE TABLE IF NOT EXISTS] four times.  It opens the
    store file as it is, or four empty tables where there is no file. *)
Definition initDatabase (file : option database) : database :=
  match file with
  | Some d => d
  | None => empty
  end.

Definition with_entities (es : list entity) (d : database) : database :=
  {| entities := es; relationships := relationships d;
     sessions := sessions d; queries := queries d |}.

Definition with_relationships (rs : list relationship) (d : database) : database :=
  {| entities := entities d; relationships := rs;
     sessions := sessions d; queries := queries d |}.

Definition with_sessions (ss : list session) (d : database) : database :=
  {| entities := entities d; relationships := relationships d;
     sessions := ss; queries := queries d |}.

Definition with_queries (qs : list query) (d : database) : database :=
  {| entities := entities d; relationships := relationships d;
     sessions := sessions d; queries := qs |}.

Definition has_entity (id : string) (d : database) : bool :=
  existsb (fun e => e_id e =? id) (entities d).

(** [INSERT INTO entities ...]: the primary key rejects a second row
    with the same id. *)
Definition insert_entity (e : entity) (d : database) : outcome database :=
  if has_entity (e_id e) d
  then Throws (SqliteError "UNIQUE constraint failed: entities.id")
  else Returns (with_entities (entities d ++ [e])%list d).

(** [INSERT OR IGNORE INTO entities ...]. *)
Definition insert_or_ignore_entity (e : entity) (d : database) : database :=
  if has_entity (e_id e) d then d
  else with_entities (entities d ++ [e])%list d.

Definition touch (now : string) (e : entity) : entity :=
  {| e_id := e_id e; e_type := e_type e; e_name := e_name e;
     e_content := e_content e; e_metadata := e_metadata e;
     e_project_path := e_project_path e; e_created_at := e_created_at e;
     e_updated_at := now |}.

(** [UPDATE entities SET updated_at = datetime('now') WHERE id = ?]. *)
Definition touch_entity (id now : string) (d : database) : database :=
  with_entities
    (map (fun e => if e_id e =? id then touch now e else e) (entities d)) d.

(** [SELECT * FROM entities WHERE project_path = ? AND name = ?], first
    row. *)
Definition entity_by_name (project name : string) (d : database) : option entity :=
  find (fun e => (e_project_path e =? project) && (e_name e =? name)) (entities d).

(** [SELECT id FROM entities WHERE project_path = ? AND (id = ? OR name = ?)]
    bound to [(project, identifier, `%${identifier}%`)], first row. *)
Definition resolve (project identifier : string) (d : database) : option entity :=
  find (fun e => (e_project_path e =? project) &&
                 ((e_id e =? identifier) || (e_name e =? "%" ++ identifier ++ "%")))
       (entities d).

Definition has_relationship (id : string) (d : database) : bool :=
  existsb (fun r => r_id r =? id) (relationships d).

(** [INSERT INTO relationships ...]. *)
Definition insert_relationship (r : relationship) (d : database) : outcome database :=
  if has_relationship (r_id r) d
  then Throws (SqliteError "UNIQUE constraint failed: relationships.id")
  else Returns (with_relationships (relationships d ++ [r])%list d).

Definition has_session (id : string) (d : database) : bool :=
  existsb (fun s => s_id s =? id) (sessions d).

(** The [DO UPDATE SET] list of the upsert: three columns taken from the
    excluded row, the others kept. *)
Definition do_update (excluded old : session) : session :=
  {| s_id := s_id old; s_project_path := s_project_path old;
     s_start_time := s_start_time old; s_end_time := s_end_time old;
     s_summary := s_summary excluded;
     s_key_decisions := s_key_decisions excluded;
     s_files_modified := s_files_modified excluded;
     s_context := s_context old |}.

(** [INSERT INTO sessions ... ON CONFLICT(id) DO UPDATE SET ...]. *)
Definition upsert_session (row : session) (d : database) : database :=
  if has_session (s_id row) d
  then with_sessions
         (map (fun s => if s_id s =? s_id row then do_update row s else s)
              (sessions d)) d
  else with_sessions (sessions d ++ [row])%list d.

Definition stamp_end (now : string) (s : session) : session :=
  {| s_id := s_id s; s_project_path := s_project_path s;
     s_start_time := s_start_time s; s_end_time := Some now;
     s_summary := s_summary s; s_key_decisions := s_key_decisions s;
     s_files_modified := s_files_modified s; s_context := s_context s |}.

(** [UPDATE sessions SET end_time = datetime('now') WHERE id = ?]. *)
Definition end_session (id now : string) (d : database) : database :=
  with_sessions
    (map (fun s => if s_id s =? id then stamp_end now s else s) (sessions d)) d.

(** [SELECT * FROM sessions WHERE id = ?], first row. *)
Definition session_by_id (id : string) (d : database) : option session :=
  find (fun s => s_id s =? id) (sessions d).

Definition has_query (id : string) (d : database) : bool :=
  existsb (fun q => q_id q =? id) (queries d).

(** [INSERT INTO queries ...]. *)
Definition insert_query (q : query) (d : database) : outcome database :=
  if has_query (q_id q) d
  then Throws (SqliteError "UNIQUE constraint failed: queries.id")
  else Returns (with_queries (queries d ++ [q])%list d).

End Store.
Import Store.

(* ===================================================================== *)
(** * The plugin                                                          *)
(* ===================================================================== *)

Module Plugin.

(** What one statement draws from the environment: a fresh
    [uuidv4()], the [datetime('now')] of the store, [Date.now()] and
    [new Date().toISOString()]. *)
Record draw := {
  uuid : string;
  sql_now : string;
  date_now : N;
  iso_now : string
}.

(** The second argument of a tool's [execute], with [process.cwd()]. *)
Record ctx := {
  directory : option string;
  worktree : option string;
  cwd : string
}.

Definition getProjectPath (worktree directory : option string) (cwd : string) : string :=
  or_else worktree (or_else directory cwd).

Definition projPath (c : ctx) : string :=
  getProjectPath (worktree c) (directory c) (cwd c).

(** The closure of one plugin instance: the store, [projectPath] and
    [currentSessionId]. *)
Record plugin := {
  db : database;
  projectPath : string;
  currentSessionId : option string
}.

Definition with_db (d : database) (p : plugin) : plugin :=
  {| db := d; projectPath := projectPath p;
     currentSessionId := currentSessionId p |}.

Definition with_session_id (id : option string) (p : plugin) : plugin :=
  {| db := db p; projectPath := projectPath p; currentSessionId := id |}.

(** [KnowledgeGraphPlugin({directory, worktree})] over the store
    [initDatabase] opened. *)
Definition load (d : database) (c : ctx) : plugin :=
  {| db := d; projectPath := projPath c; currentSessionId := None |}.

(** ** Lifecycle handlers *)

(** ["session.created"]: a new current id; the context message it
    pushes is assembled from reads only. *)
Definition session_created (d : draw) (p : plugin) : plugin :=
  with_session_id (Some (uuid d)) p.

(** ["session.compacted"]: the strings pushed on [output.context]. *)
Definition session_compacted (p : plugin) : list string :=
  match currentSessionId p with
  | None => []
  | Some id =>
      match session_by_id id (db p) with
      | Some s =>
          [ "## Previous Session Summary" ++ String newline ""
              ++ or_else (s_summary s) "No summary available";
            "## Key Decisions" ++ String newline ""
              ++ or_else (s_key_decisions s) "No decisions recorded" ]
      | None => []
      end
  end.

(** The two properties ["session.deleted"] may assign on [output];
    [None] is [undefined]. *)
Record deleted_output := {
  out_summary : option json;
  out_decisions : option json
}.

Definition session_deleted (d : draw) (output : deleted_output) (p : plugin)
  : deleted_output * plugin :=
  match currentSessionId p with
  | Some id =>
      if truthy (currentSessionId p) then
        let db' := end_session id (sql_now d) (db p) in
        let output' :=
          match session_by_id id db' with
          | Some s =>
              match s_context s with
              | Some text =>
                  if truthy (s_context s) then
                    (* try { ... } catch (e) {} *)
                    match Json.parse text with
                    | None => output
                    | Some context =>
                        match Json.get "summary" context with
                        | Throws _ => output
                        | Returns v1 =>
                            let o1 := {| out_summary := v1;
                                         out_decisions := out_decisions output |} in
                            match Json.get "decisions" context with
                            | Throws _ => o1
                            | Returns v2 =>
                                {| out_summary := out_summary o1;
                                   out_decisions := v2 |}
                            end
                        end
                    end
                  else output
              | None => output
              end
          | None => output
          end in
        (output', with_db db' p)
      else (output, p)
  | None => (output, p)
  end.

Section Paths.

(** [path.normalize] of the host platform. *)
Variable normalize : string -> string.

(** ["file.edited"]. *)
Definition file_edited (d : draw) (filePath : string) (p : plugin) : plugin :=
  let normalizedPath := normalize filePath in
  match entity_by_name (projectPath p) normalizedPath (db p) with
  | Some existingEntity =>
      with_db (touch_entity (e_id existingEntity) (sql_now d) (db p)) p
  | None => p
  end.

(** [input] of ["tool.execute.after"]; [args = None] when [input.args]
    is missing. *)
Record tool_args := {
  filePath : option string;
  command : option string
}.

Record tool_input := {
  tool : string;
  args : option tool_args
}.

Definition file_type (filePath : string) : string :=
  if endsWith ".ts" filePath || endsWith ".tsx" filePath then "typescript"
  else if endsWith ".js" filePath || endsWith ".jsx" filePath then "javascript"
  else if endsWith ".json" filePath then "config"
  else "file".

(** The [read] branch of ["tool.execute.after"]. *)
Definition capture_read (d : draw) (input : tool_input) (result : option string)
           (p : plugin) : outcome unit * plugin :=
  match result with
  | Some text =>
      if (tool input =? "read") && truthy result then
        match match args input with Some a => filePath a | None => None end with
        | Some path =>
            if truthy (Some path) then
              let normalizedPath := normalize path in
              match entity_by_name (projectPath p) normalizedPath (db p) with
              | None =>
                  match insert_entity
                          {| e_id := uuid d; e_type := file_type path;
                             e_name := normalizedPath;
                             e_content := Some (substring0 1000 text);
                             e_metadata := None;
                             e_project_path := projectPath p;
                             e_created_at := sql_now d;
                             e_updated_at := sql_now d |} (db p) with
                  | Returns db' => (Returns tt, with_db db' p)
                  | Throws e => (Throws e, p)
                  end
              | Some existing => (Returns tt, p)
              end
            else (Returns tt, p)
        | None => (Returns tt, p)
        end
      else (Returns tt, p)
  | None => (Returns tt, p)
  end.

Definition gitCommands : list string :=
  ["git log"; "git diff"; "git status"; "git show"].

(** The decision scan of one entity: [lines.forEach((line, i) => ...)]
    from index [i] on; [k] counts the draws used so far. *)
Fixpoint capture_decisions (draws : nat -> draw) (project : string)
         (lines : list string) (rest : list string) (i : nat)
         (k : nat) (d : database) : nat * database :=
  match rest with
  | [] => (k, d)
  | line :: rest' =>
      if includes "decision:" line then
        let decisionContent :=
          join (String newline "") (slice (i - 2) (i + 3) lines) in
        let d' :=
          insert_or_ignore_entity
            {| e_id := uuid (draws k); e_type := "decision";
               e_name := "decision-" ++ decimal (date_now (draws k));
               e_content := Some decisionContent; e_metadata := None;
               e_project_path := project;
               e_created_at := sql_now (draws k);
               e_updated_at := sql_now (draws k) |} d in
        capture_decisions draws project lines rest' (S i) (S k) d'
      else capture_decisions draws project lines rest' (S i) k d
  end.

(** The section scan of one README or ARCHITECTURE entity. *)
Fixpoint capture_sections (draws : nat -> draw) (project : string)
         (lines : list string) (rest : list string) (i : nat)
         (k : nat) (d : database) : nat * database :=
  match rest with
  | [] => (k, d)
  | line :: rest' =>
      if startsWith "## " line then
        let sectionContent :=
          join (String newline "")
               (slice i (Nat.min (List.length lines) (i + 10)) lines) in
        let d' :=
          insert_or_ignore_entity
            {| e_id := uuid (draws k); e_type := "documentation";
               e_name := trim (replace_first "## " "" line);
               e_content := Some sectionContent; e_metadata := None;
               e_project_path := project;
               e_created_at := sql_now (draws k);
               e_updated_at := sql_now (draws k) |} d in
        capture_sections draws project lines rest' (S i) (S k) d'
      else capture_sections draws project lines rest' (S i) k d
  end.

(** The body of [entities.forEach(entity => ...)].  The source text of
    this loop has one closing brace too many and does not parse as it
    stands; the embedding drops the last of them, which makes the README
    block the second statement of the loop body. *)
Definition capture_entity (draws : nat -> draw) (project : string) (e : entity)
           (k : nat) (d : database) : outcome unit * (nat * database) :=
  let '(k1, d1) :=
    match e_content e with
    | Some content =>
        if truthy (e_content e) && includes "decision:" content then
          let lines := split_lines content in
          capture_decisions draws project lines lines 0 k d
        else (k, d)
    | None => (k, d)
    end in
  if endsWith "README.md" (e_name e) || endsWith "ARCHITECTURE.md" (e_name e) then
    match e_content e with
    | Some content =>
        let lines := split_lines content in
        (Returns tt, capture_sections draws project lines lines 0 k1 d1)
    | None => (Throws TypeError, (k1, d1))
    end
  else (Returns tt, (k1, d1)).

Fixpoint capture_entities (draws : nat -> draw) (project : string)
         (es : list entity) (k : nat) (d : database)
  : outcome unit * (nat * database) :=
  match es with
  | [] => (Returns tt, (k, d))
  | e :: es' =>
      match capture_entity draws project e k d with
      | (Returns _, (k', d')) => capture_entities draws project es' k' d'
      | (Throws x, kd) => (Throws x, kd)
      end
  end.

(** The [bash] branch of ["tool.execute.after"]. *)
Definition capture_bash (draws : nat -> draw) (input : tool_input)
           (result : option string) (p : plugin) : outcome unit * plugin :=
  if (tool input =? "bash") && truthy result then
    let command :=
      or_else (match args input with Some a => command a | None => None end) "" in
    if existsb (fun c => includes c command) gitCommands then
      let entities :=
        Sql.limit 5 (Sql.order_by_desc e_updated_at
          (filter (fun e => e_project_path e =? projectPath p) (entities (db p)))) in
      let '(o, (_, d')) :=
        capture_entities draws (projectPath p) entities 0 (db p) in
      (o, with_db d' p)
    else (Returns tt, p)
  else (Returns tt, p).

(** ["tool.execute.after"]: the two branches in sequence. *)
Definition tool_execute_after (draws : nat -> draw) (input : tool_input)
           (result : option string) (p : plugin) : outcome unit * plugin :=
  match capture_read (draws 0) input result p with
  | (Returns _, p1) => capture_bash (fun k => draws (S k)) input result p1
  | (Throws x, p1) => (Throws x, p1)
  end.

End Paths.

End Plugin.
Import Plugin.

(* ===================================================================== *)
(** * The tools                                                           *)
(* ===================================================================== *)

Module Tools.

(** ** [knowledge_search] *)

Record search_result := {
  sr_id : string;
  sr_type : string;
  sr_name : string;
  sr_content : option string;
  sr_updated : string
}.

Record search_payload := {
  sp_query : string;
  sp_count : nat;
  sp_results : list search_result
}.

(** The properties of one element of [results], as the object literal
    lists them; [None] is [undefined]. *)
Definition search_result_object (r : search_result) : list (string * option string) :=
  [ ("id", Some (sr_id r)); ("type", Some (sr_type r)); ("name", Some (sr_name r));
    ("content", sr_content r); ("updated", Some (sr_updated r)) ].

Definition type_filter (type : option string) (e : entity) : bool :=
  match type with
  | Some t => if truthy type then e_type e =? t else true
  | None => true
  end.

(** The [WHERE] clause [knowledge_search] assembles. *)
Definition search_where (project query : string) (type : option string)
           (e : entity) : bool :=
  (e_project_path e =? project)
  && (Sql.like ("%" ++ query ++ "%") (e_name e)
      || Sql.like_opt ("%" ++ query ++ "%") (e_content e))
  && type_filter type e.

(** [limit = 10] in the parameter list of a tool. *)
Definition or_ten (limit : option js_number) : js_number :=
  match limit with
  | Some n => n
  | None => Integral 10
  end.

(** The rows of the [SELECT] of [knowledge_search] for a limit SQLite
    took as the integer [n]. *)
Definition search_rows (query : string) (type : option string) (n : Z)
           (c : ctx) (p : plugin) : list entity :=
  Sql.limit n
    (Sql.order_by_desc e_updated_at
      (filter (search_where (projPath c) query type) (entities (db p)))).

Definition to_result (r : entity) : search_result :=
  {| sr_id := e_id r; sr_type := e_type r; sr_name := e_name r;
     sr_content := option_map (substring0 500) (e_content r);
     sr_updated := e_updated_at r |}.

(** [knowledge_search].  The statement fails on its limit before it
    visits a row, visits no row under the limit 0, and otherwise
    evaluates [name LIKE ?] on every row of the project scope (which the
    index on [project_path] selects), so that a pattern [LIKE] refuses
    fails the statement as soon as the scope has a row. *)
Definition knowledge_search (query : string) (type : option string)
           (limit : option js_number) (c : ctx) (p : plugin)
  : outcome search_payload :=
  match Sql.must_be_int (or_ten limit) with
  | Throws e => Throws e
  | Returns n =>
      if negb (n =? 0)%Z
         && Sql.too_complex ("%" ++ query ++ "%")
         && existsb (fun e => e_project_path e =? projPath c) (entities (db p))
      then Throws (SqliteError "LIKE or GLOB pattern too complex")
      else
        let results := search_rows query type n c p in
        Returns {| sp_query := query;
                   sp_count := List.length results;
                   sp_results := map to_result results |}
  end.

(** ** [knowledge_add_entity] *)

Record add_payload := {
  ap_success : bool;
  ap_entityId : string;
  ap_name : string;
  ap_type : string
}.

Definition knowledge_add_entity (d : draw) (name type : string)
           (content metadata : option string) (c : ctx) (p : plugin)
  : outcome add_payload * plugin :=
  let id := uuid d in
  match insert_entity
          {| e_id := id; e_type := type; e_name := name; e_content := content;
             e_metadata := or_null metadata; e_project_path := projPath c;
             e_created_at := sql_now d; e_updated_at := sql_now d |} (db p) with
  | Returns db' =>
      (Returns {| ap_success := true; ap_entityId := id;
                  ap_name := name; ap_type := type |}, with_db db' p)
  | Throws e => (Throws e, p)
  end.

(** ** [knowledge_connect] *)

Record connect_payload := {
  cp_success : bool;
  cp_relationshipId : string;
  cp_from : string;
  cp_to : string;
  cp_type : string
}.

Definition is_none {A} (o : option A) : bool :=
  match o with None => true | Some _ => false end.

(** The message of the [Error] thrown when a side does not resolve. *)
Definition not_found_message (source target : string) (sourceEntity targetEntity : option entity)
  : string :=
  "Could not find entities: "
    ++ (if is_none sourceEntity then source else "") ++ " "
    ++ (if is_none targetEntity then target else "").

Definition knowledge_connect (d : draw) (source target relationship : string)
           (c : ctx) (p : plugin) : outcome connect_payload * plugin :=
  let sourceEntity := resolve (projPath c) source (db p) in
  let targetEntity := resolve (projPath c) target (db p) in
  match sourceEntity, targetEntity with
  | Some s, Some t =>
      let id := uuid d in
      match insert_relationship
              {| r_id := id; r_source_id := e_id s; r_target_id := e_id t;
                 r_relationship_type := relationship; r_metadata := None;
                 r_project_path := projPath c; r_created_at := sql_now d |}
              (db p) with
      | Returns db' =>
          (Returns {| cp_success := true; cp_relationshipId := id;
                      cp_from := source; cp_to := target;
                      cp_type := relationship |}, with_db db' p)
      | Throws e => (Throws e, p)
      end
  | _, _ =>
      (Throws (Error (not_found_message source target sourceEntity targetEntity)), p)
  end.

(** ** [knowledge_graph] *)

Record node := {
  n_id : string;
  n_label : string;
  n_type : string;
  n_metadata : option string
}.

Record edge := {
  g_id : string;
  g_source : string;
  g_target : string;
  g_type : string
}.

Record graph_payload := {
  nodes : list node;
  edges : list edge
}.

Definition to_node (e : entity) : node :=
  {| n_id := e_id e; n_label := e_name e; n_type := e_type e;
     n_metadata := e_metadata e |}.

(** The rows of [relationships r JOIN entities s ON r.source_id = s.id
    JOIN entities t ON r.target_id = t.id] for one [r], already mapped
    to edges. *)
Definition joined (es : list entity) (r : relationship) : list edge :=
  flat_map (fun s =>
    if r_source_id r =? e_id s then
      flat_map (fun t =>
        if r_target_id r =? e_id t then
          [ {| g_id := r_id r; g_source := e_name s; g_target := e_name t;
               g_type := r_relationship_type r |} ]
        else []) es
    else []) es.

Definition graph_edges (project : string) (d : database) : list edge :=
  flat_map (joined (entities d))
    (filter (fun r => r_project_path r =? project) (relationships d)).

Definition knowledge_graph (entityType : option string) (depth : option Z)
           (c : ctx) (p : plugin) : graph_payload :=
  let entities :=
    filter (fun e => (e_project_path e =? projPath c) && type_filter entityType e)
           (entities (db p)) in
  {| nodes := map to_node entities;
     edges := graph_edges (projPath c) (db p) |}.

(** ** [knowledge_sessions] *)

Record session_item := {
  si_id : string;
  si_startTime : string;
  si_endTime : option string;
  si_summary : option string;
  si_keyDecisions : option string;
  si_filesModified : json
}.

Record sessions_payload := {
  ss_count : nat;
  ss_sessions : list session_item
}.

(** [s.files_modified ? JSON.parse(s.files_modified) : []]. *)
Definition files_of (s : session) : outcome json :=
  match s_files_modified s with
  | Some text =>
      if truthy (s_files_modified s) then
        match Json.parse text with
        | Some v => Returns v
        | None => Throws SyntaxError
        end
      else Returns (JArray [])
  | None => Returns (JArray [])
  end.

Definition to_item (s : session) : outcome session_item :=
  match files_of s with
  | Returns files =>
      Returns {| si_id := s_id s; si_startTime := s_start_time s;
                 si_endTime := s_end_time s; si_summary := s_summary s;
                 si_keyDecisions := s_key_decisions s;
                 si_filesModified := files |}
  | Throws e => Throws e
  end.

(** [rows.map(f)] for an [f] that may throw: the first throw wins. *)
Fixpoint map_throwing {A B} (f : A -> outcome B) (l : list A) : outcome (list B) :=
  match l with
  | [] => Returns []
  | x :: l' =>
      match f x with
      | Returns y =>
          match map_throwing f l' with
          | Returns ys => Returns (y :: ys)
          | Throws e => Throws e
          end
      | Throws e => Throws e
      end
  end.

(** The rows of the [SELECT] of [knowledge_sessions] for a limit SQLite
    took as the integer [n]. *)
Definition session_rows (n : Z) (c : ctx) (p : plugin) : list session :=
  Sql.limit n
    (Sql.order_by_desc s_start_time
      (filter (fun s => s_project_path s =? projPath c) (sessions (db p)))).

Definition knowledge_sessions (limit : option js_number) (c : ctx) (p : plugin)
  : outcome sessions_payload :=
  match Sql.must_be_int (or_ten limit) with
  | Throws e => Throws e
  | Returns n =>
      let sessions := session_rows n c p in
      match map_throwing to_item sessions with
      | Returns items =>
          Returns {| ss_count := List.length sessions; ss_sessions := items |}
      | Throws e => Throws e
      end
  end.

(** ** [knowledge_record_decision] *)

Record decision_payload := {
  dp_success : bool;
  dp_decisionId : string;
  dp_decision : string
}.

Definition knowledge_record_decision (d : draw) (decision rationale : string)
           (alternatives : option string) (c : ctx) (p : plugin)
  : outcome decision_payload * plugin :=
  let id := uuid d in
  let content :=
    Json.stringify
      (JObject ([("decision", JString decision); ("rationale", JString rationale)]
                ++ match alternatives with
                   | Some a => [("alternatives", JString a)]
                   | None => []
                   end
                ++ [("recordedAt", JString (iso_now d))])%list) in
  match insert_entity
          {| e_id := id; e_type := "decision";
             e_name := "decision-" ++ decimal (date_now d);
             e_content := Some content; e_metadata := None;
             e_project_path := projPath c;
             e_created_at := sql_now d; e_updated_at := sql_now d |} (db p) with
  | Returns db' =>
      (Returns {| dp_success := true; dp_decisionId := id;
                  dp_decision := substring0 100 decision |}, with_db db' p)
  | Throws e => (Throws e, p)
  end.

(** ** [knowledge_summarize_session] *)

Record summarize_payload := {
  mp_success : bool;
  mp_sessionId : string
}.

(** [JSON.stringify({ summary, decisions })]. *)
Definition context_of (summary decisions : string) : string :=
  Json.stringify
    (JObject [("summary", JString summary); ("decisions", JString decisions)]).

Definition knowledge_summarize_session (d : draw) (summary decisions files : string)
           (c : ctx) (p : plugin) : summarize_payload * plugin :=
  let id := or_else (currentSessionId p) (uuid d) in
  let p1 := with_session_id (Some id) p in
  let db' :=
    upsert_session
      {| s_id := id; s_project_path := projPath c; s_start_time := sql_now d;
         s_end_time := None; s_summary := Some summary;
         s_key_decisions := Some decisions; s_files_modified := Some files;
         s_context := Some (context_of summary decisions) |} (db p1) in
  ({| mp_success := true; mp_sessionId := id |}, with_db db' p1).

(** ** [knowledge_ask]: the audit row.  The answer is assembled from
    reads after this statement. *)
Definition knowledge_ask_log (d : draw) (question : string) (c : ctx) (p : plugin)
  : outcome unit * plugin :=
  match insert_query
          {| q_id := uuid d; q_project_path := projPath c;
             q_query_text := question; q_result_summary := None;
             q_timestamp := sql_now d |} (db p) with
  | Returns db' => (Returns tt, with_db db' p)
  | Throws e => (Throws e, p)
  end.

End Tools.
Import Tools.

(* ===================================================================== *)
(** * Histories of calls                                                  *)
(* ===================================================================== *)

Module History.

(** The calls that can change the state of a plugin instance or of its
    store.  [Reload] is a new instance of the plugin over the same
    store. *)
Inductive call :=
| SessionCreated (d : draw)
| SessionDeleted (d : draw) (output : deleted_output)
| FileEdited (d : draw) (filePath : string)
| ToolExecuteAfter (draws : nat -> draw) (input : tool_input) (result : option string)
| AddEntity (d : draw) (name type : string) (content metadata : option string) (c : ctx)
| Connect (d : draw) (source target relationship : string) (c : ctx)
| RecordDecision (d : draw) (decision rationale : string)
                 (alternatives : option string) (c : ctx)
| SummarizeSession (d : draw) (summary decisions files : string) (c : ctx)
| Ask (d : draw) (question : string) (c : ctx)
| Reload (c : ctx).

Section Run.
Variable normalize : string -> string.

Definition step (x : call) (p : plugin) : plugin :=
  match x with
  | SessionCreated d => session_created d p
  | SessionDeleted d output => snd (session_deleted d output p)
  | FileEdited d filePath => file_edited normalize d filePath p
  | ToolExecuteAfter draws input result =>
      snd (tool_execute_after normalize draws input result p)
  | AddEntity d name type content metadata c =>
      snd (knowledge_add_entity d name type content metadata c p)
  | Connect d source target relationship c =>
      snd (knowledge_connect d source target relationship c p)
  | RecordDecision d decision rationale alternatives c =>
      snd (knowledge_record_decision d decision rationale alternatives c p)
  | SummarizeSession d summary decisions files c =>
      snd (knowledge_summarize_session d summary decisions files c p)
  | Ask d question c => snd (knowledge_ask_log d question c p)
  | Reload c => load (db p) c
  end.

Definition run (xs : list call) (p : plugin) : plugin :=
  fold_left (fun q x => step x q) xs p.
End Run.

(** A fresh project: the plugin loaded over an empty store. *)
Definition fresh (c : ctx) : plugin := load (initDatabase None) c.

End History.
Import History.

(* ===================================================================== *)
(** * Vocabulary of the specification                                     *)
(* ===================================================================== *)

Module Words.

(** [q] is a prefix of [s] up to ASCII case. *)
Fixpoint prefix_nocase (q s : string) : bool :=
  match q, s with
  | EmptyString, _ => true
  | String a q', String c s' => Sql.eq_nocase a c && prefix_nocase q' s'
  | String _ _, EmptyString => false
  end.

(** "Case-insensitive substring": [q] occurs somewhere in [s] up to
    ASCII case. *)
Fixpoint contains_nocase (q s : string) : bool :=
  prefix_nocase q s ||
  match s with
  | EmptyString => false
  | String _ s' => contains_nocase q s'
  end.


(** A character with an ASCII lower-case letter put in upper case. *)
Definition fold (c : N) : N :=
  (if (97 <=? c) && (c <=? 122) then c - 32 else c)%N.

(** The characters [q] stand at the head of [s], up to ASCII case. *)
Fixpoint starts_with_fold (q s : list N) : bool :=
  match q, s with
  | [], _ => true
  | a :: q', c :: s' => (fold a =? fold c)%N && starts_with_fold q' s'
  | _ :: _, [] => false
  end.

(** The characters [q] stand somewhere in [s], one after the other, up
    to ASCII case. *)
Fixpoint occurs_fold (q s : list N) : bool :=
  starts_with_fold q s ||
  match s with
  | [] => false
  | _ :: s' => occurs_fold q s'
  end.

(** "Case-insensitive substring" for the store: the characters of the
    query occur in the text, both read as [LIKE] reads them. *)
Definition occurs_in (query text : string) : bool :=
  occurs_fold (Sql.chars query) (Sql.chars text).


(** The number [v] is the integer [n], and SQLite takes it as a
    [LIMIT]: it lies strictly between the least and the greatest 64-bit
    integer. *)
Definition sqlite_integer (v : js_number) (n : Z) : Prop :=
  v = Integral n /\ (-9223372036854775808 < n < 9223372036854775807)%Z.


Definition is_hex (c : ascii) : bool :=
  let n := N_of_ascii c in
  (((48 <=? n) && (n <=? 57)) || ((97 <=? n) && (n <=? 102)))%N.

Fixpoint shaped (template s : string) : bool :=
  match template, s with
  | EmptyString, EmptyString => true
  | String t template', String c s' =>
      (if (t =? "x")%char then is_hex c
       else if (t =? "y")%char then
         ((c =? "8") || (c =? "9") || (c =? "a") || (c =? "b"))%char
       else (c =? t)%char)
      && shaped template' s'
  | _, _ => false
  end.

(** The shape of what [uuidv4()] returns. *)
Definition is_uuid (s : string) : bool :=
  shaped "xxxxxxxx-xxxx-4xxx-yxxx-xxxxxxxxxxxx" s.

(** [a] may stand before [b] in a list ordered by [key] descending. *)
Definition newer_first {row : Type} (key : row -> string) (a b : row) : Prop :=
  String.leb (key b) (key a) = true.

(** Descending order of a list of keys, adjacent pairs. *)
Definition descending (keys : list string) : Prop :=
  Sorted (fun a b => String.leb b a = true) keys.

End Words.
Import Words.

(* ===================================================================== *)
(** * What histories preserve                                             *)
(* ===================================================================== *)

Module Invariants.

(** A row without its [updated_at], the one column an [UPDATE] of the
    source writes in [entities]. *)
Definition frozen (e : entity) : entity := touch "" e.

Definition ids (d : database) : list string := map e_id (entities d).

(** [d'] comes after [d]: the entities of [d] are still there, in
    place, changed in [updated_at] at most, followed by rows under new
    and distinct ids; the relationships of [d] are still there,
    followed by rows whose two ends are entities of [d']. *)
Definition evolves (d d' : database) : Prop :=
  (exists added,
      map frozen (entities d') = map frozen (entities d ++ added)%list
      /\ NoDup (map e_id added)
      /\ (forall e, In e added -> ~ In (e_id e) (ids d)))
  /\ (exists rs,
        relationships d' = (relationships d ++ rs)%list
        /\ (forall r, In r rs ->
              In (r_source_id r) (ids d') /\ In (r_target_id r) (ids d'))).

(** The primary key of [entities]. *)
Definition unique_ids (d : database) : Prop := NoDup (ids d).

(** The two foreign keys of [relationships]. *)
Definition linked (d : database) : Prop :=
  forall r, In r (relationships d) ->
    In (r_source_id r) (ids d) /\ In (r_target_id r) (ids d).

Definition consistent (d : database) : Prop := unique_ids d /\ linked d.

End Invariants.
Import Invariants.

(* ===================================================================== *)
(** * Concrete stores and calls used in the examples                      *)
(* ===================================================================== *)

Module Fixtures.

Definition ctx0 : ctx :=
  {| directory := Some "/proj"; worktree := None; cwd := "/" |}.

(** One component of project [/proj]. *)
Definition abc_entity : entity :=
  {| e_id := "11111111-1111-4111-8111-111111111111"; e_type := "component";
     e_name := "abc"; e_content := Some "def"; e_metadata := None;
     e_project_path := "/proj";
     e_created_at := "2024-01-01 00:00:00";
     e_updated_at := "2024-01-01 00:00:00" |}.

Definition abc_plugin : plugin :=
  load (with_entities [abc_entity] Store.empty) ctx0.

Definition draw1 : draw :=
  {| uuid := "11111111-1111-4111-8111-111111111111";
     sql_now := "2024-01-01 00:00:00"; date_now := 1704067200000;
     iso_now := "2024-01-01T00:00:00.000Z" |}.

Definition draw2 : draw :=
  {| uuid := "22222222-2222-4222-8222-222222222222";
     sql_now := "2024-01-02 00:00:00"; date_now := 1704153600000;
     iso_now := "2024-01-02T00:00:00.000Z" |}.

Definition draw3 : draw :=
  {| uuid := "33333333-3333-4333-8333-333333333333";
     sql_now := "2024-01-03 00:00:00"; date_now := 1704240000000;
     iso_now := "2024-01-03T00:00:00.000Z" |}.

(** The plugin after [addEntity(UserService)] and
    [addEntity(Database)] in a fresh project. *)
Definition scenario (d1 d2 : draw) (c : ctx) : plugin :=
  snd (knowledge_add_entity d2 "Database" "component" (Some "Postgres store")
         None c
         (snd (knowledge_add_entity d1 "UserService" "component"
                 (Some "Handles auth") None c (fresh c)))).

Definition two_components : plugin := scenario draw1 draw2 ctx0.

(** A session summarized once in a fresh project, with a files
    argument that is not JSON. *)
Definition one_summary (files : string) : plugin :=
  snd (knowledge_summarize_session draw1 "Set up auth" "JWT" files ctx0
         (session_created draw1 (fresh ctx0))).

Definition no_output : deleted_output :=
  {| out_summary := None; out_decisions := None |}.

(** A project in which [src/a.js] was captured on 1 January. *)
Definition file_entity : entity :=
  {| e_id := "11111111-1111-4111-8111-111111111111"; e_type := "javascript";
     e_name := "src/a.js"; e_content := Some "export {}"; e_metadata := None;
     e_project_path := "/proj";
     e_created_at := "2024-01-01 00:00:00";
     e_updated_at := "2024-01-01 00:00:00" |}.

Definition file_plugin : plugin :=
  load (with_entities [file_entity] Store.empty) ctx0.

(** The same project after [src/b.js] was captured on 2 January. *)
Definition newer_file : entity :=
  {| e_id := "22222222-2222-4222-8222-222222222222"; e_type := "javascript";
     e_name := "src/b.js"; e_content := Some "export default 1";
     e_metadata := None; e_project_path := "/proj";
     e_created_at := "2024-01-02 00:00:00";
     e_updated_at := "2024-01-02 00:00:00" |}.

Definition two_files : plugin :=
  load (with_entities [file_entity; newer_file] Store.empty) ctx0.

Definition read_input : tool_input :=
  {| tool := "read";
     args := Some {| filePath := Some "src/a.js"; command := None |} |}.

(** [path.normalize] on paths that are already normal. *)
Definition already_normal (path : string) : string := path.

(** A component added with metadata in a fresh project. *)
Definition meta_plugin : plugin :=
  snd (knowledge_add_entity draw1 "UserService" "component" (Some "Handles auth")
         (Some "[1]") ctx0 (fresh ctx0)).

(** A project whose [README.md] was captured, with one section heading
    and one line that records a decision. *)
Definition readme_entity : entity :=
  {| e_id := "11111111-1111-4111-8111-111111111111"; e_type := "file";
     e_name := "README.md";
     e_content :=
       Some (join (String newline "")
               ["# App"; "## Setup "; "decision: use sqlite"; "run it"]);
     e_metadata := None; e_project_path := "/proj";
     e_created_at := "2024-01-01 00:00:00";
     e_updated_at := "2024-01-01 00:00:00" |}.

Definition readme_plugin : plugin :=
  load (with_entities [readme_entity] Store.empty) ctx0.

Definition git_log : tool_input :=
  {| tool := "bash";
     args := Some {| filePath := None; command := Some "git log --oneline" |} |}.

(** Draws of one handler run on 5 January: the identifiers [id-0],
    [id-1], ... and a clock that advances by a millisecond. *)
Definition capture_draws (k : nat) : draw :=
  {| uuid := "id-" ++ decimal (N.of_nat k);
     sql_now := "2024-01-05 00:00:00";
     date_now := 1704412800000 + N.of_nat k;
     iso_now := "2024-01-05T00:00:00.000Z" |}.

(** The first component of [two_components]. *)
Definition user_service : entity :=
  {| e_id := "11111111-1111-4111-8111-111111111111"; e_type := "component";
     e_name := "UserService"; e_content := Some "Handles auth";
     e_metadata := None; e_project_path := "/proj";
     e_created_at := "2024-01-01 00:00:00";
     e_updated_at := "2024-01-01 00:00:00" |}.

Definition draw4 : draw :=
  {| uuid := "44444444-4444-4444-8444-444444444444";
     sql_now := "2024-01-04 00:00:00"; date_now := 1704326400000;
     iso_now := "2024-01-04T00:00:00.000Z" |}.

(** The calls that lead to [mixed]: two components, connected, and a
    recorded decision. *)
Definition mixed_calls : list call :=
  [ AddEntity draw1 "UserService" "component" (Some "Handles auth") None ctx0;
    AddEntity draw2 "Database" "component" (Some "Postgres store") None ctx0;
    Connect draw3 (uuid draw1) (uuid draw2) "depends_on" ctx0;
    RecordDecision draw4 "Use PostgreSQL" "ACID needed" None ctx0 ].

Definition mixed : plugin := run already_normal mixed_calls (fresh ctx0).

(** Three sessions of [/proj], each summarized once by an instance of
    its own, on 1, 2 and 3 January. *)
Definition three_sessions : plugin :=
  run already_normal
    [ SummarizeSession draw1 "Set up auth" "JWT" "[1]" ctx0;
      Reload ctx0;
      SummarizeSession draw2 "Add cache" "Redis" "" ctx0;
      Reload ctx0;
      SummarizeSession draw3 "Ship" "Tag v1" "[3]" ctx0 ]
    (fresh ctx0).

(** The items of the two latest of them. *)
Definition two_latest : list session_item :=
  [ {| si_id := "33333333-3333-4333-8333-333333333333";
       si_startTime := "2024-01-03 00:00:00"; si_endTime := None;
       si_summary := Some "Ship"; si_keyDecisions := Some "Tag v1";
       si_filesModified := JArray [JNumber "3"] |};
    {| si_id := "22222222-2222-4222-8222-222222222222";
       si_startTime := "2024-01-02 00:00:00"; si_endTime := None;
       si_summary := Some "Add cache"; si_keyDecisions := Some "Redis";
       si_filesModified := JArray [] |} ].

(** The two components of the scenario, connected by their ids. *)
Definition connected : plugin :=
  snd (knowledge_connect draw3 (uuid draw1) (uuid draw2) "depends_on" ctx0
         two_components).

End Fixtures.
Import Fixtures.

(* ===================================================================== *)
(** * The texts the plugin hands back to the host                         *)
(* ===================================================================== *)

Module Answers.

Section SessionContext.

(** The text of
    [Math.floor((Date.now() - new Date(start_time).getTime()) / 86400000)]
    in a template literal, from [Date.now()] and the stored start time. *)
Variable days_ago : N -> string -> string.

(** The [session.created] query for the last sessions of the project. *)
Definition recent_sessions (p : plugin) : list session :=
  Sql.limit 5 (Sql.order_by_desc s_start_time
    (filter (fun s => s_project_path s =? projectPath p) (sessions (db p)))).

(** The [session.created] query for the entities updated last. *)
Definition recent_entities (p : plugin) : list entity :=
  Sql.limit 10 (Sql.order_by_desc e_updated_at
    (filter (fun e => e_project_path e =? projectPath p) (entities (db p)))).

Definition entity_lines (es : list entity) : string :=
  fold_left (fun acc e =>
               acc ++ String newline "" ++ "  - [" ++ e_type e ++ "] " ++ e_name e)
            es "".

(** [contextMessage] of ["session.created"]. *)
Definition context_message (d : draw) (p : plugin) : string :=
  "Project: " ++ projectPath p ++
  match recent_sessions p with
  | [] => ""
  | lastSession :: _ =>
      String newline (String newline "")
        ++ "Last session: " ++ days_ago (date_now d) (s_start_time lastSession)
        ++ " day(s) ago"
        ++ (if truthy (s_summary lastSession)
            then String newline "" ++ "Last summary: " ++ or_else (s_summary lastSession) ""
            else "")
        ++ (if truthy (s_key_decisions lastSession)
            then String newline "" ++ "Key decisions made: "
                   ++ or_else (s_key_decisions lastSession) ""
            else "")
        ++ match recent_entities p with
           | [] => ""
           | es => String newline (String newline "")
                     ++ "Recent entities tracked:" ++ entity_lines es
           end
  end.

(** What ["session.created"] pushes on [output.context]. *)
Definition session_created_context (d : draw) (p : plugin) : string :=
  "## Project Knowledge Context" ++ String newline "" ++ context_message d p.

End SessionContext.

Section Ask.

(** The text JavaScript prints for the number a JSON lexeme denotes. *)
Variable number_to_string : string -> string.

(** The texts of a list of conversions, unless one of them threw. *)
Fixpoint all_texts (l : list (option string)) : option (list string) :=
  match l with
  | [] => Some []
  | Some x :: l' =>
      match all_texts l' with
      | Some xs => Some (x :: xs)
      | None => None
      end
  | None :: _ => None
  end.

(** A parsed JSON value in a template literal; [None] is the
    [TypeError] of the conversion.  An array is joined with commas, its
    [null] elements as empty texts.  An object prints as
    [[object Object]] through the inherited [toString], unless it has a
    member named [toString]: that member is no function, and neither it
    nor [valueOf] then yields a primitive. *)
Fixpoint to_text (v : json) : option string :=
  match v with
  | JNull => Some "null"
  | JBool true => Some "true"
  | JBool false => Some "false"
  | JNumber lexeme => Some (number_to_string lexeme)
  | JString s => Some s
  | JArray l =>
      option_map (join ",")
        (all_texts
           (map (fun x => match x with JNull => Some "" | _ => to_text x end) l))
  | JObject ms =>
      match Json.member "toString" ms with
      | Some _ => None
      | None => Some "[object Object]"
      end
  end.

(** [`${v}`] for a property that may be [undefined]. *)
Definition template (o : option json) : option string :=
  match o with
  | Some v => to_text v
  | None => Some "undefined"
  end.

(** The line [knowledge_ask] writes for one decision row: the parsed
    decision and rationale, or the raw content when the [try] fails. *)
Definition decision_line (content : option string) : string :=
  let text := match content with Some s => s | None => "null" end in
  match Json.parse text with
  | None => "- " ++ text
  | Some parsed =>
      match Json.get "decision" parsed with
      | Throws _ => "- " ++ text
      | Returns dv =>
          match template dv with
          | None => "- " ++ text
          | Some decision =>
              match Json.get "rationale" parsed with
              | Throws _ => "- " ++ text
              | Returns rv =>
                  match template rv with
                  | None => "- " ++ text
                  | Some rationale => "- " ++ decision ++ ": " ++ rationale
                  end
              end
          end
      end
  end.

(** [docs.forEach(...)]: two entries per row, a [TypeError] on a row
    without content. *)
Fixpoint doc_lines (docs : list entity) : outcome (list string) :=
  match docs with
  | [] => Returns []
  | e :: docs' =>
      match e_content e with
      | None => Throws TypeError
      | Some content =>
          match doc_lines docs' with
          | Returns ls => Returns (("### " ++ e_name e) :: substring0 500 content :: ls)
          | Throws x => Throws x
          end
      end
  end.

Definition latest_of_type (type : string) (project : string) (d : database) : list entity :=
  Sql.limit 5 (Sql.order_by_desc e_updated_at
    (filter (fun e => (e_project_path e =? project) && (e_type e =? type)) (entities d))).

Record ask_payload := {
  ak_question : string;
  ak_relevantContext : string;
  ak_searchQuery : string;
  ak_timestamp : string
}.

(** [knowledge_ask]: the audit row first, then the answer. *)
Definition knowledge_ask (d : draw) (question : string) (c : ctx) (p : plugin)
  : outcome ask_payload * plugin :=
  match knowledge_ask_log d question c p with
  | (Throws x, p1) => (Throws x, p1)
  | (Returns _, p1) =>
      let decisions := latest_of_type "decision" (projPath c) (db p1) in
      let docs := latest_of_type "documentation" (projPath c) (db p1) in
      let part1 :=
        match decisions with
        | [] => []
        | _ => "## Architectural Decisions"
                 :: map (fun e => decision_line (e_content e)) decisions
        end in
      match match docs with
            | [] => Returns []
            | _ => match doc_lines docs with
                   | Returns ls => Returns ("## Documentation" :: ls)
                   | Throws x => Throws x
                   end
            end with
      | Throws x => (Throws x, p1)
      | Returns part2 =>
          (Returns {| ak_question := question;
                      ak_relevantContext := join (String newline "") (part1 ++ part2)%list;
                      ak_searchQuery := question;
                      ak_timestamp := iso_now d |}, p1)
      end
  end.

End Ask.

(** The project a call works in: the tool context's, or the plugin
    instance's for a lifecycle handler. *)
Definition scope_of (x : call) (p : plugin) : string :=
  match x with
  | SessionCreated _ | SessionDeleted _ _ | FileEdited _ _ | ToolExecuteAfter _ _ _ =>
      projectPath p
  | AddEntity _ _ _ _ _ c | Connect _ _ _ _ c | RecordDecision _ _ _ _ c
  | SummarizeSession _ _ _ _ c | Ask _ _ c | Reload c => projPath c
  end.

(** The arguments of one [knowledge_summarize_session] call. *)
Record summarize_args := {
  sa_draw : draw;
  sa_summary : string;
  sa_decisions : string;
  sa_files : string;
  sa_ctx : ctx
}.

Definition summarize_with (a : summarize_args) (p : plugin) : plugin :=
  snd (knowledge_summarize_session (sa_draw a) (sa_summary a) (sa_decisions a)
         (sa_files a) (sa_ctx a) p).

(** A string with its ASCII letters in upper case. *)
Fixpoint upcase (s : string) : string :=
  match s with
  | EmptyString => ""
  | String c s' => String (Sql.upper c) (upcase s')
  end.

(** The text of the members of an object of strings, closing brace
    included, in front of [tail]. *)
Fixpoint members_text (kvs : list (string * string)) (tail : string) : string :=
  match kvs with
  | [] => String "}" tail
  | (k, v) :: kvs' =>
      String dquote (esc k ++ String dquote (String ":" (String dquote (esc v ++
        String dquote (match kvs' with
                       | [] => String "}" tail
                       | _ => String "," (members_text kvs' tail)
                       end)))))
  end.

(** [d'] is [d] with entities appended, each satisfying [ok]; the other
    tables are the same. *)
Definition appended (ok : entity -> Prop) (d d' : database) : Prop :=
  (exists added, entities d' = (entities d ++ added)%list /\ Forall ok added)
  /\ relationships d' = relationships d
  /\ sessions d' = sessions d /\ queries d' = queries d.

(** A row as the capture on git commands writes it. *)
Definition captured_row (project : string) (e : entity) : Prop :=
  e_project_path e = project /\ e_metadata e = None
  /\ (e_type e = "decision" \/ e_type e = "documentation").

Definition string_members (kvs : list (string * string)) : list (string * json) :=
  map (fun kv => (fst kv, JString (snd kv))) kvs.

End Answers.
Import Answers.

Unset Implicit Arguments.

(* ===================================================================== *)
(** * Facts about the SQL fragment                                        *)
(* ===================================================================== *)

Section OrderByFacts.
Variable row : Type.
Variable key : row -> string.

Lemma insert_desc_In x y l :
  In y (Sql.insert_desc key x l) <-> y = x \/ In y l.
Proof.
  induction l as [|z l IH]; simpl.
  - intuition.
  - destruct (String.leb (key z) (key x)); simpl; [intuition|].
    rewrite IH. intuition.
Qed.

Lemma insert_desc_length x l :
  List.length (Sql.insert_desc key x l) = S (List.length l).
Proof.
  induction l as [|z l IH]; simpl; [reflexivity|].
  destruct (String.leb (key z) (key x)); simpl; [reflexivity|].
  now rewrite IH.
Qed.

Lemma insert_desc_HdRel a x l :
  (newer_first key) a x -> HdRel (newer_first key) a l -> HdRel (newer_first key) a (Sql.insert_desc key x l).
Proof.
  intros Hax Hal. destruct l as [|z l]; simpl.
  - now constructor.
  - destruct (String.leb (key z) (key x)); constructor; trivial.
    now inversion Hal.
Qed.

Lemma insert_desc_sorted x l :
  Sorted (newer_first key) l -> Sorted (newer_first key) (Sql.insert_desc key x l).
Proof.
  induction l as [|z l IH]; intros Hs; simpl.
  - repeat constructor.
  - destruct (String.leb (key z) (key x)) eqn:E.
    + constructor; [assumption|]. constructor. exact E.
    + apply Sorted_inv in Hs. destruct Hs as [Hs Hhd].
      constructor; [now apply IH|].
      apply insert_desc_HdRel; [|assumption].
      unfold newer_first. destruct (String.leb_total (key x) (key z)) as [H|H];
        [assumption | congruence].
Qed.

Lemma order_by_desc_sorted l : Sorted (newer_first key) (Sql.order_by_desc key l).
Proof.
  induction l as [|x l IH]; simpl; [constructor|].
  now apply insert_desc_sorted.
Qed.

Lemma order_by_desc_In y l : In y (Sql.order_by_desc key l) <-> In y l.
Proof.
  induction l as [|x l IH]; simpl; [tauto|].
  rewrite insert_desc_In, IH. intuition.
Qed.

Lemma order_by_desc_length l :
  List.length (Sql.order_by_desc key l) = List.length l.
Proof.
  induction l as [|x l IH]; simpl; [reflexivity|].
  now rewrite insert_desc_length, IH.
Qed.

Lemma firstn_sorted n l : Sorted (newer_first key) l -> Sorted (newer_first key) (firstn n l).
Proof.
  revert l. induction n as [|n IH]; intros [|x l] Hs; simpl;
    try constructor.
  - apply IH. now apply Sorted_inv in Hs.
  - apply Sorted_inv in Hs. destruct Hs as [_ Hhd].
    destruct n; simpl; [constructor|].
    destruct l; simpl; constructor. now inversion Hhd.
Qed.

Lemma limit_sorted n l : Sorted (newer_first key) l -> Sorted (newer_first key) (Sql.limit n l).
Proof.
  intros Hs. unfold Sql.limit. destruct (n <? 0)%Z; [assumption|].
  now apply firstn_sorted.
Qed.

Lemma limit_In n (y : row) l : In y (Sql.limit n l) -> In y l.
Proof.
  unfold Sql.limit. destruct (n <? 0)%Z; [trivial|]. intros H.
  rewrite <- (firstn_skipn (Z.to_nat n) l). apply in_or_app. now left.
Qed.

Lemma limit_length n (l : list row) :
  (0 <= n)%Z -> (Z.of_nat (List.length (Sql.limit n l)) <= n)%Z.
Proof.
  intros Hn. unfold Sql.limit.
  destruct (n <? 0)%Z eqn:E; [apply Z.ltb_lt in E; lia|].
  pose proof (firstn_le_length (Z.to_nat n) l). lia.
Qed.

Lemma limit_negative n (l : list row) : (n < 0)%Z -> Sql.limit n l = l.
Proof.
  intros Hn. unfold Sql.limit. apply Z.ltb_lt in Hn. now rewrite Hn.
Qed.

Lemma sorted_map_key l :
  Sorted (newer_first key) l -> descending (map key l).
Proof.
  unfold descending. induction 1 as [|a l Hs IH Hhd]; simpl; constructor; trivial.
  destruct Hhd; simpl; constructor. assumption.
Qed.
End OrderByFacts.

Section LikeFacts.

Lemma repair_high c : (128 <= Sql.repair c)%N.
Proof.
  unfold Sql.repair. destruct (N.ltb_spec c 128); simpl; [lia|].
  destruct (_ || _); lia.
Qed.

(** Case analysis on the ranges a character code is tested against. *)
Ltac ranges :=
  repeat match goal with
         | |- context [((?a <=? ?x) && (?x <=? ?b))%N] =>
             let E := fresh "E" in
             destruct ((a <=? x) && (x <=? b))%N eqn:E;
             rewrite ?andb_true_iff, ?andb_false_iff, ?N.leb_le, ?N.leb_gt in E
         | |- context [(?x <? ?b)%N] =>
             let E := fresh "E" in
             destruct (x <? b)%N eqn:E;
             rewrite ?N.ltb_lt, ?N.ltb_ge in E
         end.


Lemma found_fold c c2 : Sql.found c c2 = (fold c =? fold c2)%N.
Proof.
  unfold Sql.found, Sql.tolower, Sql.toupper, fold.
  apply Bool.eq_iff_eq_true. ranges;
    rewrite ?orb_true_iff, ?andb_true_iff, ?N.eqb_eq; lia.
Qed.

Lemma after_percent_end c pattern :
  c <> Sql.percent -> c <> Sql.underscore ->
  Sql.after_percent (c :: pattern) [] = Sql.NoWildcardMatch.
Proof.
  intros H1 H2. simpl.
  destruct (N.eqb_spec c Sql.percent); [contradiction|].
  destruct (N.eqb_spec c Sql.underscore); [contradiction|]. reflexivity.
Qed.

Lemma after_percent_search c pattern c2 subject :
  c <> Sql.percent -> c <> Sql.underscore ->
  Sql.after_percent (c :: pattern) (c2 :: subject)
  = if Sql.found c c2 then
      match Sql.pattern_compare pattern subject with
      | Sql.NoMatch => Sql.after_percent (c :: pattern) subject
      | v => v
      end
    else Sql.after_percent (c :: pattern) subject.
Proof.
  intros H1 H2. simpl.
  destruct (N.eqb_spec c Sql.percent); [contradiction|].
  destruct (N.eqb_spec c Sql.underscore); [contradiction|]. reflexivity.
Qed.








(** The pattern of the empty query matches every text. *)
Lemma like_double_percent s : Sql.like "%%" s = true.
Proof. reflexivity. Qed.

Lemma pattern_length query :
  String.length ("%" ++ query ++ "%") = String.length query + 2.
Proof.
  change ("%" ++ query ++ "%") with (String "%" (query ++ "%")).
  cbn [String.length]. induction query as [|a q IH]; simpl; [reflexivity|].
  simpl in IH. lia.
Qed.

Lemma pattern_accepted query :
  (N.of_nat (String.length query) + 2 <= 50000)%N ->
  Sql.too_complex ("%" ++ query ++ "%") = false.
Proof.
  intros H. unfold Sql.too_complex. rewrite pattern_length.
  apply N.ltb_ge. lia.
Qed.


(** [upper] on a byte: it is [toupper] on the code, and it leaves alone
    every byte that is part of a character of several bytes. *)
Lemma upper_byte a :
  N_of_ascii (Sql.upper a) = Sql.toupper (N_of_ascii a)
  /\ Sql.is_continuation (N_of_ascii (Sql.upper a)) = Sql.is_continuation (N_of_ascii a)
  /\ (N_of_ascii (Sql.upper a) =? 0)%N = (N_of_ascii a =? 0)%N
  /\ (N_of_ascii (Sql.upper a) <? 192)%N = (N_of_ascii a <? 192)%N
  /\ (Sql.is_continuation (N_of_ascii a) = true \/ (N_of_ascii a <? 192)%N = false ->
      Sql.upper a = a).
Proof.
  destruct a as [[] [] [] [] [] [] [] []]; vm_compute;
    (repeat split; try reflexivity; intros [H|H]; try discriminate H; reflexivity).
Qed.

Lemma toupper_repair c : Sql.toupper (Sql.repair c) = Sql.repair c.
Proof.
  pose proof (repair_high c) as H. unfold Sql.toupper.
  destruct ((97 <=? Sql.repair c) && (Sql.repair c <=? 122))%N eqn:E; [|reflexivity].
  rewrite andb_true_iff, !N.leb_le in E. lia.
Qed.

Lemma read_upcase s pending :
  Sql.read pending (upcase s) = map Sql.toupper (Sql.read pending s).
Proof.
  revert pending. induction s as [|a s IH]; intros pending.
  - destruct pending; simpl; [now rewrite toupper_repair | reflexivity].
  - destruct (upper_byte a) as [E1 [E2 [E3 [E4 E5]]]].
    cbn [upcase Sql.read]. rewrite E2, E3, E4.
    assert (Hnext :
      (if (N_of_ascii a =? 0)%N then []
       else if (N_of_ascii a <? 192)%N
            then N_of_ascii (Sql.upper a) :: Sql.read None (upcase s)
            else Sql.read (Some (Sql.trans1 (N_of_ascii (Sql.upper a)))) (upcase s))
      = map Sql.toupper
          (if (N_of_ascii a =? 0)%N then []
           else if (N_of_ascii a <? 192)%N then N_of_ascii a :: Sql.read None s
                else Sql.read (Some (Sql.trans1 (N_of_ascii a))) s)).
    { destruct (N_of_ascii a =? 0)%N; [reflexivity|].
      destruct (N_of_ascii a <? 192)%N eqn:E.
      - simpl. now rewrite E1, IH.
      - rewrite E5 by now right. apply IH. }
    destruct pending as [c|]; [|exact Hnext].
    destruct (Sql.is_continuation (N_of_ascii a)) eqn:E.
    + rewrite E5 by now left. apply IH.
    + cbn [map]. now rewrite toupper_repair, Hnext.
Qed.

Lemma toupper_percent c : (Sql.toupper c =? Sql.percent)%N = (c =? Sql.percent)%N.
Proof.
  unfold Sql.toupper, Sql.percent. apply Bool.eq_iff_eq_true.
  ranges; rewrite ?N.eqb_eq; lia.
Qed.

Lemma toupper_underscore c :
  (Sql.toupper c =? Sql.underscore)%N = (c =? Sql.underscore)%N.
Proof.
  unfold Sql.toupper, Sql.underscore. apply Bool.eq_iff_eq_true.
  ranges; rewrite ?N.eqb_eq; lia.
Qed.

Lemma same_toupper c c2 : Sql.same (Sql.toupper c) c2 = Sql.same c c2.
Proof.
  unfold Sql.same. rewrite toupper_underscore.
  unfold Sql.tolower, Sql.toupper. apply Bool.eq_iff_eq_true.
  ranges; rewrite ?orb_true_iff, ?andb_true_iff, ?N.eqb_eq; lia.
Qed.

Lemma found_toupper c c2 : Sql.found (Sql.toupper c) c2 = Sql.found c c2.
Proof.
  rewrite !found_fold. unfold Sql.toupper, fold. apply Bool.eq_iff_eq_true.
  ranges; rewrite ?N.eqb_eq; lia.
Qed.

(** A pattern reads the same with its ASCII letters in upper case. *)
Lemma compare_toupper pattern :
  (forall s, Sql.pattern_compare (map Sql.toupper pattern) s
             = Sql.pattern_compare pattern s)
  /\ (forall s, Sql.after_percent (map Sql.toupper pattern) s
                = Sql.after_percent pattern s).
Proof.
  induction pattern as [|c pattern [IH1 IH2]]; [split; reflexivity|].
  split; intros s.
  - cbn [map Sql.pattern_compare]. rewrite toupper_percent.
    destruct (c =? Sql.percent)%N; [apply IH2|].
    destruct s as [|c2 s]; [reflexivity|].
    rewrite same_toupper. destruct (Sql.same c c2); [apply IH1 | reflexivity].
  - cbn [map].
    destruct (N.eqb_spec c Sql.percent) as [->|Hp]; [apply IH2|].
    destruct (N.eqb_spec c Sql.underscore) as [->|Hu].
    { simpl. destruct s; [reflexivity | apply IH2]. }
    assert (Hp' : Sql.toupper c <> Sql.percent).
    { intros H. apply N.eqb_eq in H. rewrite toupper_percent in H.
      now apply N.eqb_eq in H. }
    assert (Hu' : Sql.toupper c <> Sql.underscore).
    { intros H. apply N.eqb_eq in H. rewrite toupper_underscore in H.
      now apply N.eqb_eq in H. }
    induction s as [|c2 s IHs].
    + now rewrite !after_percent_end.
    + rewrite !after_percent_search by assumption.
      now rewrite found_toupper, IH1, IHs.
Qed.

Lemma like_upcase p s : Sql.like (upcase p) s = Sql.like p s.
Proof.
  unfold Sql.like, Sql.chars. rewrite read_upcase.
  now rewrite (proj1 (compare_toupper _)).
Qed.

End LikeFacts.

Example like_ex1 : Sql.like "%user%" "UserService" = true.
Proof. reflexivity. Qed.

Example like_ex2 : Sql.like "%a_c%" "xxabcxx" = true /\ occurs_in "a_c" "xxabcxx" = false.
Proof. split; reflexivity. Qed.

(** [LIKE] stops at a NUL: in the pattern, what follows it is not read,
    the closing [%] included; in the subject, what follows it is not
    searched. *)
Example like_ex3 :
  Sql.like ("%c" ++ String "000" "zzz%") "abc" = true
  /\ Sql.like "%cd%" ("ab" ++ String "000" "cd") = false.
Proof. split; reflexivity. Qed.

(** [_] stands for one character, of one byte or of several. *)
Example like_ex4 :
  Sql.like "a_b" ("a" ++ String "195" (String "169" "b")) = true
  /\ Sql.like "a__b" ("a" ++ String "195" (String "169" "b")) = false.
Proof. split; reflexivity. Qed.

(** A limit beyond the 64-bit integers fails the statement. *)
Example search_ex1 :
  knowledge_search "" None (Some (Integral 100000000000000000000)) ctx0 abc_plugin
  = Throws (SqliteError "datatype mismatch")
  /\ knowledge_search "" None (Some NonIntegral) ctx0 abc_plugin
     = Throws (SqliteError "datatype mismatch").
Proof. split; reflexivity. Qed.

(** [trim] removes a no-break space and an ideographic space as it
    removes a blank. *)
Example trim_ex1 :
  trim (" " ++ String "194" (String "160" "a b")
            ++ String "227" (String "128" (String "128" (String "009" ""))))
  = "a b".
Proof. reflexivity. Qed.

Example parse_ex1 :
  Json.parse "[1, 2.5e3 ,true,{}]"
  = Some (JArray [JNumber "1"; JNumber "2.5e3"; JBool true; JObject []]).
Proof. vm_compute. reflexivity. Qed.

Example parse_ex2 :
  Json.parse "" = None /\ Json.parse "not json" = None /\ Json.parse "[1,]" = None
  /\ Json.parse "01" = None /\ Json.parse " null " = Some JNull.
Proof. vm_compute. repeat split. Qed.

(** The two escapes of a surrogate pair are one character of four
    bytes, U+1F600 here. *)
Example parse_ex3 :
  Json.parse (String Json.dquote ("\ud83d\ude00" ++ String Json.dquote ""))
  = Some (JString (String "240" (String "159" (String "152" (String "128" ""))))).
Proof. vm_compute. reflexivity. Qed.

(* ===================================================================== *)
(** * [knowledge_search]                                                  *)
(* ===================================================================== *)

Section SearchFacts.


Lemma must_be_int_returns v n :
  Sql.must_be_int v = Returns n <-> sqlite_integer v n.
Proof.
  unfold Sql.must_be_int, sqlite_integer. destruct v as [z|].
  - destruct (Z.ltb_spec (-9223372036854775808) z);
      destruct (Z.ltb_spec z 9223372036854775807); simpl; split;
      try (intros [= <-]; split; [reflexivity | lia]);
      try (intros [[= <-] Hr]; reflexivity || lia);
      try discriminate.
  - split; [discriminate | intros [[=] _]].
Qed.

Lemma must_be_int_throws v e :
  Sql.must_be_int v = Throws e ->
  e = SqliteError "datatype mismatch" /\ forall n, ~ sqlite_integer v n.
Proof.
  intros H. split.
  - unfold Sql.must_be_int in H. destruct v as [z|]; [|congruence].
    destruct (_ && _); congruence.
  - intros n Hn. apply must_be_int_returns in Hn. congruence.
Qed.



Lemma type_filter_given type t e :
  type = Some t -> t <> "" -> type_filter type e = true -> e_type e = t.
Proof.
  intros -> Ht. unfold type_filter, truthy.
  apply String.eqb_neq in Ht. rewrite Ht. simpl. apply String.eqb_eq.
Qed.


(** When a search returns: the limit is an integer SQLite takes, and the
    pattern is one [LIKE] accepts unless no row is visited. *)
Lemma knowledge_search_accepts query type limit c p n :
  sqlite_integer (or_ten limit) n ->
  n = 0%Z \/ Sql.too_complex ("%" ++ query ++ "%") = false
  \/ (forall e, In e (entities (db p)) -> e_project_path e <> projPath c) ->
  knowledge_search query type limit c p
  = Returns {| sp_query := query;
               sp_count := List.length (search_rows query type n c p);
               sp_results := map to_result (search_rows query type n c p) |}.
Proof.
  intros Hn H. apply must_be_int_returns in Hn.
  unfold knowledge_search. rewrite Hn.
  destruct H as [->|[H|H]].
  - reflexivity.
  - rewrite H. now rewrite andb_false_r.
  - assert (E : existsb (fun e => e_project_path e =? projPath c) (entities (db p))
                = false).
    { apply not_true_is_false. intros Hex. apply existsb_exists in Hex.
      destruct Hex as [e [He Hp]]. apply String.eqb_eq in Hp. now apply (H e). }
    rewrite E. now rewrite andb_false_r.
Qed.

End SearchFacts.




(* ===================================================================== *)
(** * [knowledge_connect]                                                 *)
(* ===================================================================== *)

Section ConnectFacts.

Lemma shaped_length t s : shaped t s = true -> String.length s = String.length t.
Proof.
  revert s. induction t as [|a t IH]; intros [|c s] H; simpl in *;
    try discriminate; trivial.
  apply andb_true_iff in H. destruct H as [_ H]. now rewrite (IH s H).
Qed.

Lemma is_uuid_length s : is_uuid s = true -> String.length s = 36.
Proof. intros H. apply shaped_length in H. exact H. Qed.

Lemma is_uuid_not_short s t :
  is_uuid s = true -> String.length t <> 36 -> (s =? t) = false.
Proof.
  intros Hs Ht. apply String.eqb_neq. intros ->.
  apply is_uuid_length in Hs. contradiction.
Qed.

Lemma resolve_some project identifier d e :
  resolve project identifier d = Some e ->
  In e (entities d) /\ e_project_path e = project
  /\ (e_id e = identifier \/ e_name e = "%" ++ identifier ++ "%").
Proof.
  unfold resolve. intros H. apply find_some in H. destruct H as [Hin H].
  apply andb_true_iff in H. destruct H as [Hp H].
  apply orb_true_iff in H. rewrite !String.eqb_eq in *. tauto.
Qed.

End ConnectFacts.

(** C7: when the source or the target does not resolve in the project
    scope, [connect] throws the not-found error whose message carries the
    identifier of each unresolved side and of no resolved side, and the
    store is left as it was: no relationship row is inserted. *)
Theorem connect_unresolved_throws :
  forall (d : draw) (source target relationship : string) (c : ctx) (p : plugin),
    resolve (projPath c) source (db p) = None
    \/ resolve (projPath c) target (db p) = None ->
    knowledge_connect d source target relationship c p
    = (Throws (Error
         ("Could not find entities: "
            ++ (if is_none (resolve (projPath c) source (db p)) then source else "")
            ++ " "
            ++ (if is_none (resolve (projPath c) target (db p)) then target else ""))),
       p)
    /\ relationships (db (snd (knowledge_connect d source target relationship c p)))
       = relationships (db p).
Proof.
  intros d source target relationship c p H.
  unfold knowledge_connect, not_found_message.
  destruct (resolve (projPath c) source (db p)) as [s|];
    destruct (resolve (projPath c) target (db p)) as [t|]; simpl;
    try (split; reflexivity).
  destruct H; discriminate.
Qed.

Lemma connect_unresolved_throws_witness :
  knowledge_connect draw3 "11111111-1111-4111-8111-111111111111" "Cache" "depends_on"
    ctx0 two_components
  = (Throws (Error "Could not find entities:  Cache"), two_components).
Proof.
  apply (connect_unresolved_throws draw3 "11111111-1111-4111-8111-111111111111"
           "Cache" "depends_on" ctx0 two_components).
  right. reflexivity.
Defined.

(** C1 on the code: after the two [addEntity] calls of the scenario in a
    fresh project, whatever identifiers [uuidv4()] returned,
    [connect("UserService", "Database", "depends_on")] throws the
    not-found error for both names, and the graph export that follows has
    two nodes and no edge. *)
Theorem scenario_connect_by_name_throws :
  forall (d1 d2 d3 : draw) (c : ctx),
    is_uuid (uuid d1) = true -> is_uuid (uuid d2) = true ->
    uuid d1 <> uuid d2 ->
    knowledge_connect d3 "UserService" "Database" "depends_on" c (scenario d1 d2 c)
    = (Throws (Error "Could not find entities: UserService Database"),
       scenario d1 d2 c)
    /\ List.length (nodes (knowledge_graph None None c (scenario d1 d2 c))) = 2
    /\ edges (knowledge_graph None None c (scenario d1 d2 c)) = [].
Proof.
  intros d1 d2 d3 c U1 U2 Hne.
  assert (E12 : (uuid d1 =? uuid d2) = false) by now apply String.eqb_neq.
  unfold scenario, knowledge_add_entity, insert_entity, has_entity, fresh, load.
  simpl. rewrite E12. simpl.
  unfold knowledge_connect, resolve. simpl.
  rewrite String.eqb_refl. simpl.
  rewrite !(is_uuid_not_short _ _ U1), !(is_uuid_not_short _ _ U2) by (simpl; lia).
  simpl. split; [reflexivity|].
  unfold knowledge_graph, graph_edges. simpl. split; reflexivity.
Qed.

Lemma scenario_connect_by_name_throws_witness :
  knowledge_connect draw3 "UserService" "Database" "depends_on" ctx0 two_components
  = (Throws (Error "Could not find entities: UserService Database"), two_components)
  /\ List.length (nodes (knowledge_graph None None ctx0 two_components)) = 2
  /\ edges (knowledge_graph None None ctx0 two_components) = [].
Proof.
  apply (scenario_connect_by_name_throws draw1 draw2 draw3 ctx0);
    try reflexivity.
  vm_compute. discriminate.
Defined.

(** C2 on the code: an identifier resolves only to an entity whose id it
    is or whose name is the literal text [%identifier%]; where no entity
    of the store is either, nothing resolves, whatever names contain the
    identifier. *)
Theorem resolve_needs_id_or_percent_name :
  forall (project identifier : string) (d : database),
    (forall e, In e (entities d) ->
       e_id e <> identifier /\ e_name e <> "%" ++ identifier ++ "%") ->
    resolve project identifier d = None.
Proof.
  intros project identifier d H.
  destruct (resolve project identifier d) as [e|] eqn:E; [|reflexivity].
  apply resolve_some in E. destruct E as [Hin [_ Hor]].
  destruct (H e Hin) as [H1 H2]. tauto.
Qed.

Lemma resolve_needs_id_or_percent_name_witness :
  contains_nocase "User" "UserService" = true
  /\ map e_name (entities (db two_components)) = ["UserService"; "Database"]
  /\ resolve "/proj" "User" (db two_components) = None.
Proof.
  split; [reflexivity|]. split; [reflexivity|].
  apply (resolve_needs_id_or_percent_name "/proj" "User" (db two_components)).
  intros e He. vm_compute in He.
  destruct He as [<-|[<-|[]]]; split; vm_compute; discriminate.
Defined.

(* ===================================================================== *)
(** * [JSON.parse] after [JSON.stringify]                                 *)
(* ===================================================================== *)

Section JsonFacts.

Lemma append_assoc (a b c : string) : (a ++ b) ++ c = a ++ (b ++ c).
Proof. induction a as [|x a IH]; simpl; [reflexivity | now rewrite IH]. Qed.

Lemma append_length (a b : string) :
  String.length (a ++ b) = String.length a + String.length b.
Proof. induction a as [|x a IH]; simpl; [reflexivity | now rewrite IH]. Qed.

(** Reading back one escaped character. *)
Lemma string_body_esc_char c s :
  Json.string_body (Json.esc_char c ++ s)
  = Json.prepend (String c "") (Json.string_body s).
Proof.
  destruct c as [[] [] [] [] [] [] [] []];
    lazy -[Json.string_body]; reflexivity.
Qed.

(** Reading back an escaped string up to its closing quote. *)
Lemma string_body_esc s rest :
  Json.string_body (Json.esc s ++ String Json.dquote rest) = Some (s, rest).
Proof.
  induction s as [|c s IH].
  - reflexivity.
  - simpl Json.esc. rewrite append_assoc, string_body_esc_char, IH.
    reflexivity.
Qed.


Lemma value_string fuel s rest :
  Json.value (S fuel) (String Json.dquote (Json.esc s ++ String Json.dquote rest))
  = Some (JString s, rest).
Proof. simpl. now rewrite string_body_esc. Qed.

Lemma members_last fuel k s v rest :
  Json.value fuel s = Some (v, String "}" rest) ->
  Json.members (S fuel)
    (String Json.dquote (Json.esc k ++ String Json.dquote (String ":" s)))
  = Some ([(k, v)], rest).
Proof. intros H. simpl. rewrite string_body_esc. simpl. now rewrite H. Qed.

Lemma members_more fuel k s v rest ms rest' :
  Json.value fuel s = Some (v, String "," rest) ->
  Json.members fuel rest = Some (ms, rest') ->
  Json.members (S fuel)
    (String Json.dquote (Json.esc k ++ String Json.dquote (String ":" s)))
  = Some ((k, v) :: ms, rest').
Proof.
  intros H1 H2. simpl. rewrite string_body_esc. simpl. rewrite H1. simpl.
  now rewrite H2.
Qed.

Lemma value_object fuel s ms rest :
  Json.members fuel (String Json.dquote s) = Some (ms, rest) ->
  Json.value (S fuel) (String "{" (String Json.dquote s)) = Some (JObject ms, rest).
Proof. intros H. simpl. now rewrite H. Qed.

Lemma context_of_text summary decisions :
  context_of summary decisions
  = String "{" (String Json.dquote (Json.esc "summary" ++ String Json.dquote
      (String ":" (String Json.dquote (Json.esc summary ++ String Json.dquote
      (String "," (String Json.dquote (Json.esc "decisions" ++ String Json.dquote
      (String ":" (String Json.dquote (Json.esc decisions
                                        ++ String Json.dquote "}"))))))))))).
Proof.
  unfold context_of. cbn [Json.stringify map fst snd JS.join]. unfold Json.quote.
  repeat first [rewrite !append_assoc | progress cbn [append]].
  reflexivity.
Qed.

Lemma value_context_of fuel summary decisions :
  Json.value (4 + fuel) (context_of summary decisions)
  = Some (JObject [("summary", JString summary); ("decisions", JString decisions)],
          "").
Proof.
  rewrite context_of_text. change (4 + fuel) with (S (S (S (S fuel)))).
  apply value_object.
  eapply members_more; [apply value_string|].
  apply members_last. apply value_string.
Qed.

(** [JSON.parse(JSON.stringify({ summary, decisions }))] gives the two
    strings back. *)
Lemma parse_context_of summary decisions :
  Json.parse (context_of summary decisions)
  = Some (JObject [("summary", JString summary); ("decisions", JString decisions)]).
Proof.
  unfold Json.parse.
  assert (E : exists n, 2 * String.length (context_of summary decisions) + 2 = 4 + n).
  { rewrite context_of_text. simpl String.length.
    eexists. rewrite Nat.mul_succ_r. simpl. reflexivity. }
  destruct E as [n ->]. now rewrite value_context_of.
Qed.

Lemma context_of_truthy summary decisions :
  truthy (Some (context_of summary decisions)) = true.
Proof. now rewrite context_of_text. Qed.

End JsonFacts.

(* ===================================================================== *)
(** * Sessions                                                            *)
(* ===================================================================== *)

Section SessionFacts.

Lemma has_session_false id d :
  has_session id d = false <-> (forall s, In s (sessions d) -> (s_id s =? id) = false).
Proof.
  unfold has_session. induction (sessions d) as [|x l IH]; simpl.
  - split; [intros _ s [] | reflexivity].
  - rewrite orb_false_iff, IH. split.
    + intros [H1 H2] s [<-|Hs]; auto.
    + intros H. split; [apply H; now left | intros s Hs; apply H; now right].
Qed.

Lemma has_session_true id d :
  has_session id d = true -> exists s, In s (sessions d) /\ s_id s = id.
Proof.
  unfold has_session. intros H. apply existsb_exists in H.
  destruct H as [s [Hs E]]. exists s. split; [assumption|].
  now apply String.eqb_eq.
Qed.

Lemma upsert_has_session row d :
  has_session (s_id row) (upsert_session row d) = true.
Proof.
  unfold upsert_session. destruct (has_session (s_id row) d) eqn:E.
  - unfold has_session in *. simpl. rewrite existsb_exists in *.
    destruct E as [s [Hs E]].
    exists (do_update row s). split.
    + apply in_map_iff. exists s. now rewrite E.
    + exact E.
  - unfold has_session. simpl. rewrite existsb_app. simpl.
    rewrite String.eqb_refl. now rewrite orb_true_r.
Qed.

Lemma filter_map_length {A} (g : A -> bool) (f : A -> A) (l : list A) :
  (forall x, g (f x) = g x) ->
  List.length (filter g (map f l)) = List.length (filter g l).
Proof.
  intros H. induction l as [|x l IH]; simpl; [reflexivity|].
  rewrite H. destruct (g x); simpl; now rewrite IH.
Qed.

Lemma find_app_none {A} (f : A -> bool) (l l' : list A) :
  (forall x, In x l -> f x = false) -> find f (l ++ l')%list = find f l'.
Proof.
  induction l as [|x l IH]; intros H; simpl; [reflexivity|].
  rewrite (H x) by now left. apply IH. intros y Hy. apply H. now right.
Qed.

Lemma map_unchanged {A} (f : A -> A) (l : list A) :
  (forall x, In x l -> f x = x) -> map f l = l.
Proof.
  induction l as [|x l IH]; intros H; simpl; [reflexivity|].
  rewrite (H x) by now left. f_equal. apply IH. intros y Hy. apply H. now right.
Qed.

(** The identifier under which a summarize call files its row. *)
Lemma summarize_current d summary decisions files c p :
  currentSessionId (snd (knowledge_summarize_session d summary decisions files c p))
  = Some (mp_sessionId (fst (knowledge_summarize_session d summary decisions files c p))).
Proof. reflexivity. Qed.

Lemma summarize_has_session d summary decisions files c p :
  has_session
    (mp_sessionId (fst (knowledge_summarize_session d summary decisions files c p)))
    (db (snd (knowledge_summarize_session d summary decisions files c p))) = true.
Proof.
  unfold knowledge_summarize_session. simpl.
  apply (upsert_has_session
           {| s_id := or_else (currentSessionId p) (uuid d);
              s_project_path := projPath c; s_start_time := sql_now d;
              s_end_time := None; s_summary := Some summary;
              s_key_decisions := Some decisions; s_files_modified := Some files;
              s_context := Some (context_of summary decisions) |}).
Qed.

(** A summarize call under an id that already has a row rewrites three
    columns of that row and nothing else. *)
Lemma summarize_on_conflict d summary decisions files c p :
  has_session (or_else (currentSessionId p) (uuid d)) (db p) = true ->
  sessions (db (snd (knowledge_summarize_session d summary decisions files c p)))
  = map (fun s =>
           if s_id s =? or_else (currentSessionId p) (uuid d)
           then {| s_id := s_id s; s_project_path := s_project_path s;
                   s_start_time := s_start_time s; s_end_time := s_end_time s;
                   s_summary := Some summary; s_key_decisions := Some decisions;
                   s_files_modified := Some files; s_context := s_context s |}
           else s)
        (sessions (db p)).
Proof.
  intros H. unfold knowledge_summarize_session, upsert_session. simpl.
  rewrite H. reflexivity.
Qed.

Lemma summarize_first d summary decisions files c p :
  has_session (or_else (currentSessionId p) (uuid d)) (db p) = false ->
  sessions (db (snd (knowledge_summarize_session d summary decisions files c p)))
  = (sessions (db p)
     ++ [ {| s_id := or_else (currentSessionId p) (uuid d);
             s_project_path := projPath c; s_start_time := sql_now d;
             s_end_time := None; s_summary := Some summary;
             s_key_decisions := Some decisions; s_files_modified := Some files;
             s_context := Some (context_of summary decisions) |} ])%list.
Proof.
  intros H. unfold knowledge_summarize_session, upsert_session. simpl.
  rewrite H. reflexivity.
Qed.

End SessionFacts.

(** C5: when [summarizeSession] is called a second time under the same
    ambient session id, the number of session rows does not grow, in the
    whole store and in every project scope, and afterwards the row of
    that id, which exists, holds the summary, key decisions and files of
    the second call. *)
Theorem summarize_twice_upserts :
  forall (d1 d2 : draw) (summary1 decisions1 files1 : string)
         (summary2 decisions2 files2 : string) (c1 c2 : ctx) (p : plugin),
    let r1 := knowledge_summarize_session d1 summary1 decisions1 files1 c1 p in
    let r2 := knowledge_summarize_session d2 summary2 decisions2 files2 c2 (snd r1) in
    mp_sessionId (fst r2) = mp_sessionId (fst r1) ->
    List.length (sessions (db (snd r2))) = List.length (sessions (db (snd r1)))
    /\ (forall project,
          List.length (filter (fun s => s_project_path s =? project)
                              (sessions (db (snd r2))))
          = List.length (filter (fun s => s_project_path s =? project)
                                (sessions (db (snd r1)))))
    /\ (exists s, In s (sessions (db (snd r2))) /\ s_id s = mp_sessionId (fst r2))
    /\ (forall s, In s (sessions (db (snd r2))) -> s_id s = mp_sessionId (fst r2) ->
          s_summary s = Some summary2
          /\ s_key_decisions s = Some decisions2
          /\ s_files_modified s = Some files2).
Proof.
  intros d1 d2 summary1 decisions1 files1 summary2 decisions2 files2 c1 c2 p r1 r2 Hid.
  assert (Hhas : has_session (or_else (currentSessionId (snd r1)) (uuid d2))
                             (db (snd r1)) = true).
  { change (or_else (currentSessionId (snd r1)) (uuid d2)) with (mp_sessionId (fst r2)).
    rewrite Hid. apply summarize_has_session. }
  pose proof (summarize_on_conflict d2 summary2 decisions2 files2 c2 (snd r1) Hhas) as E.
  fold r2 in E.
  change (or_else (currentSessionId (snd r1)) (uuid d2)) with (mp_sessionId (fst r2)) in E.
  rewrite E. split; [|split; [|split]].
  - apply length_map.
  - intros project. apply filter_map_length.
    intros s. now destruct (s_id s =? mp_sessionId (fst r2)).
  - rewrite <- E. apply has_session_true. apply summarize_has_session.
  - intros s Hs Hsid. apply in_map_iff in Hs. destruct Hs as [s0 [Hs0 _]].
    destruct (s_id s0 =? mp_sessionId (fst r2)) eqn:E0.
    + subst s. simpl. auto.
    + subst s. apply String.eqb_neq in E0. contradiction.
Qed.

Lemma summarize_twice_upserts_witness :
  List.length
    (sessions (db (snd (knowledge_summarize_session draw2 "Added tokens" "bcrypt" "[]"
                          ctx0 (one_summary "[1]")))))
  = List.length (sessions (db (one_summary "[1]")))
  /\ map s_summary
       (sessions (db (snd (knowledge_summarize_session draw2 "Added tokens" "bcrypt" "[]"
                             ctx0 (one_summary "[1]")))))
     = [Some "Added tokens"].
Proof.
  split.
  - apply (summarize_twice_upserts draw1 draw2 "Set up auth" "JWT" "[1]"
             "Added tokens" "bcrypt" "[]" ctx0 ctx0 (session_created draw1 (fresh ctx0))).
    reflexivity.
  - reflexivity.
Defined.

Section ContextFacts.

Lemma or_else_some id fallback : id <> "" -> or_else (Some id) fallback = id.
Proof. intros H. simpl. apply String.eqb_neq in H. now rewrite H. Qed.

(** The sessions table after a first summarize call under a new id and
    a second one under the same id. *)
Lemma sessions_after_two d1 d2 summary1 decisions1 files1
      summary2 decisions2 files2 c1 c2 p :
  let id := or_else (currentSessionId p) (uuid d1) in
  id <> "" -> has_session id (db p) = false ->
  sessions (db (snd (knowledge_summarize_session d2 summary2 decisions2 files2 c2
                  (snd (knowledge_summarize_session d1 summary1 decisions1 files1
                          c1 p)))))
  = (sessions (db p)
     ++ [ {| s_id := id; s_project_path := projPath c1; s_start_time := sql_now d1;
             s_end_time := None; s_summary := Some summary2;
             s_key_decisions := Some decisions2; s_files_modified := Some files2;
             s_context := Some (context_of summary1 decisions1) |} ])%list.
Proof.
  intros id Hne Hnew.
  set (p1 := snd (knowledge_summarize_session d1 summary1 decisions1 files1 c1 p)).
  assert (Hcur : or_else (currentSessionId p1) (uuid d2) = id)
    by (apply or_else_some; exact Hne).
  assert (H1 : sessions (db p1)
               = (sessions (db p)
                  ++ [ {| s_id := id; s_project_path := projPath c1;
                          s_start_time := sql_now d1; s_end_time := None;
                          s_summary := Some summary1;
                          s_key_decisions := Some decisions1;
                          s_files_modified := Some files1;
                          s_context := Some (context_of summary1 decisions1) |} ])%list)
    by (apply summarize_first; exact Hnew).
  rewrite summarize_on_conflict.
  - rewrite Hcur, H1, map_app. simpl. rewrite String.eqb_refl. f_equal.
    apply map_unchanged. intros s Hs.
    apply has_session_false with (s := s) in Hnew; [|assumption].
    fold id in Hnew. now rewrite Hnew.
  - rewrite Hcur. apply (summarize_has_session d1 summary1 decisions1 files1 c1 p).
Qed.

Lemma member_context summary decisions :
  Json.member "summary" [("summary", JString summary); ("decisions", JString decisions)]
  = Some (JString summary)
  /\ Json.member "decisions"
       [("summary", JString summary); ("decisions", JString decisions)]
     = Some (JString decisions).
Proof. split; reflexivity. Qed.

End ContextFacts.

(** C6: the upsert does not touch [context].  After a first
    [summarizeSession] that creates the row of a session and a second one
    under the same session id, the [context] column of that row is still
    the serialization of the first call's summary and decisions, and the
    session-deleted handler surfaces the first call's summary and
    decisions, whatever the second call passed. *)
Theorem summarize_conflict_keeps_context :
  forall (d1 d2 d3 : draw) (summary1 decisions1 files1 : string)
         (summary2 decisions2 files2 : string) (c1 c2 : ctx)
         (output : deleted_output) (p : plugin),
    let r1 := knowledge_summarize_session d1 summary1 decisions1 files1 c1 p in
    let r2 := knowledge_summarize_session d2 summary2 decisions2 files2 c2 (snd r1) in
    mp_sessionId (fst r1) <> "" ->
    has_session (mp_sessionId (fst r1)) (db p) = false ->
    mp_sessionId (fst r2) = mp_sessionId (fst r1)
    /\ (exists s, In s (sessions (db (snd r2))) /\ s_id s = mp_sessionId (fst r1))
    /\ (forall s, In s (sessions (db (snd r2))) -> s_id s = mp_sessionId (fst r1) ->
          s_context s = Some (context_of summary1 decisions1)
          /\ s_summary s = Some summary2 /\ s_key_decisions s = Some decisions2)
    /\ fst (session_deleted d3 output (snd r2))
       = {| out_summary := Some (JString summary1);
            out_decisions := Some (JString decisions1) |}.
Proof.
  intros d1 d2 d3 summary1 decisions1 files1 summary2 decisions2 files2 c1 c2
         output p r1 r2 Hne Hnew.
  change (mp_sessionId (fst r1)) with (or_else (currentSessionId p) (uuid d1)) in *.
  set (id := or_else (currentSessionId p) (uuid d1)) in *.
  assert (Hid : mp_sessionId (fst r2) = id).
  { change (mp_sessionId (fst r2)) with (or_else (Some id) (uuid d2)).
    now apply or_else_some. }
  pose proof (sessions_after_two d1 d2 summary1 decisions1 files1
                summary2 decisions2 files2 c1 c2 p Hne Hnew) as E.
  fold r1 in E. fold r2 in E. fold id in E.
  assert (Hold : forall s, In s (sessions (db p)) -> (s_id s =? id) = false)
    by now apply has_session_false.
  split; [exact Hid|]. split; [|split].
  - rewrite E. eexists. split; [apply in_or_app; right; now left | reflexivity].
  - intros s Hs Hsid. rewrite E in Hs. apply in_app_or in Hs.
    destruct Hs as [Hs|[<-|[]]].
    + apply Hold in Hs. apply String.eqb_neq in Hs. contradiction.
    + simpl. auto.
  - unfold session_deleted.
    assert (Hcur : currentSessionId (snd r2) = Some id)
      by (rewrite <- Hid; apply summarize_current).
    rewrite Hcur.
    assert (Ht : truthy (Some id) = true)
      by (simpl; apply String.eqb_neq in Hne; now rewrite Hne).
    rewrite Ht. cbv zeta. cbn [fst].
    unfold session_by_id, end_session. cbn [sessions with_sessions].
    rewrite E, map_app, find_app_none.
    + cbn [map find s_id]. rewrite String.eqb_refl.
      cbn [stamp_end s_id s_context find].
      rewrite ?String.eqb_refl. cbn [stamp_end s_context].
      rewrite context_of_truthy, parse_context_of. reflexivity.
    + intros s Hs. apply in_map_iff in Hs. destruct Hs as [s0 [<- Hs0]].
      apply Hold in Hs0. rewrite Hs0. exact Hs0.
Qed.

Lemma summarize_conflict_keeps_context_witness :
  fst (session_deleted draw3 no_output
         (snd (knowledge_summarize_session draw2 "Added tokens" "bcrypt" "[]" ctx0
                 (one_summary "[1]"))))
  = {| out_summary := Some (JString "Set up auth");
       out_decisions := Some (JString "JWT") |}.
Proof.
  apply (summarize_conflict_keeps_context draw1 draw2 draw3 "Set up auth" "JWT" "[1]"
           "Added tokens" "bcrypt" "[]" ctx0 ctx0 no_output
           (session_created draw1 (fresh ctx0))).
  - vm_compute. discriminate.
  - reflexivity.
Defined.

(* ===================================================================== *)
(** * [knowledge_sessions]                                                *)
(* ===================================================================== *)

Section ListingFacts.

Lemma map_throwing_throws {A B} (f : A -> outcome B) (l : list A) (x : A) (e : exn) :
  In x l -> f x = Throws e ->
  exists e', map_throwing f l = Throws e'
             /\ exists y, In y l /\ f y = Throws e'.
Proof.
  induction l as [|a l IH]; intros Hin Hx; [destruct Hin|].
  simpl. destruct (f a) as [b|e0] eqn:Ea.
  - destruct Hin as [->|Hin]; [congruence|].
    destruct (IH Hin Hx) as [e' [E [y [Hy Ey]]]]. rewrite E.
    exists e'. split; [reflexivity|]. exists y. split; [now right | assumption].
  - exists e0. split; [reflexivity|]. exists a. split; [now left | assumption].
Qed.

Lemma map_throwing_returns {A B} (f : A -> outcome B) (l : list A) :
  (forall x, In x l -> is_returns (f x) = true) ->
  is_returns (map_throwing f l) = true.
Proof.
  induction l as [|a l IH]; intros H; simpl; [reflexivity|].
  pose proof (H a (or_introl eq_refl)) as Ha.
  destruct (f a); [|discriminate].
  assert (Hl : is_returns (map_throwing f l) = true)
    by (apply IH; intros x Hx; apply H; now right).
  now destruct (map_throwing f l).
Qed.

Lemma to_item_throws s e : to_item s = Throws e -> e = SyntaxError.
Proof.
  unfold to_item, files_of.
  destruct (s_files_modified s) as [text|]; [|discriminate].
  destruct (truthy (Some text)); [|discriminate].
  destruct (Json.parse text); [discriminate|]. congruence.
Qed.

Lemma to_item_bad s text :
  s_files_modified s = Some text -> text <> "" -> Json.parse text = None ->
  to_item s = Throws SyntaxError.
Proof.
  intros E Hne Hp. unfold to_item, files_of. rewrite E. simpl.
  apply String.eqb_neq in Hne. now rewrite Hne, Hp.
Qed.

Lemma to_item_good s :
  (forall text, s_files_modified s = Some text -> text <> "" ->
                Json.parse text <> None) ->
  is_returns (to_item s) = true.
Proof.
  intros H. unfold to_item, files_of.
  destruct (s_files_modified s) as [text|]; [|reflexivity].
  simpl. destruct (text =? "") eqn:E; [reflexivity|]. simpl.
  apply String.eqb_neq in E. specialize (H text eq_refl E).
  now destruct (Json.parse text).
Qed.

Lemma session_rows_In n c p s :
  In s (session_rows n c p) ->
  In s (sessions (db p)) /\ s_project_path s = projPath c.
Proof.
  unfold session_rows. intros H. apply limit_In, order_by_desc_In in H.
  apply filter_In in H. now rewrite String.eqb_eq in H.
Qed.

Lemma limit_all {A} n (l : list A) :
  (n < 0 \/ Z.of_nat (List.length l) <= n)%Z -> Sql.limit n l = l.
Proof.
  intros [H|H]; [now apply limit_negative|].
  unfold Sql.limit. destruct (n <? 0)%Z; [reflexivity|].
  apply firstn_all2. lia.
Qed.

(** Where the limit does not cut, every session of the scope is
    selected. *)
Lemma session_rows_all n c p s :
  (n < 0
   \/ Z.of_nat (List.length (filter (fun s => (s_project_path s =? projPath c)%string)
                                   (sessions (db p)))) <= n)%Z ->
  In s (sessions (db p)) -> s_project_path s = projPath c ->
  In s (session_rows n c p).
Proof.
  intros Hb Hin Hp. unfold session_rows.
  rewrite limit_all by (now rewrite order_by_desc_length).
  apply order_by_desc_In, filter_In. split; [assumption|].
  now apply String.eqb_eq.
Qed.

Lemma summarize_stores_files d summary decisions files c p s :
  In s (sessions (db (snd (knowledge_summarize_session d summary decisions files c p)))) ->
  s_id s = mp_sessionId (fst (knowledge_summarize_session d summary decisions files c p)) ->
  s_files_modified s = Some files.
Proof.
  change (mp_sessionId (fst (knowledge_summarize_session d summary decisions files c p)))
    with (or_else (currentSessionId p) (uuid d)).
  destruct (has_session (or_else (currentSessionId p) (uuid d)) (db p)) eqn:E.
  - rewrite (summarize_on_conflict d summary decisions files c p E).
    intros Hs Hid. apply in_map_iff in Hs. destruct Hs as [s0 [<- Hs0]].
    destruct (s_id s0 =? or_else (currentSessionId p) (uuid d)) eqn:E0;
      [reflexivity|].
    apply String.eqb_neq in E0. contradiction.
  - rewrite (summarize_first d summary decisions files c p E).
    intros Hs Hid. apply in_app_or in Hs. destruct Hs as [Hs|[<-|[]]];
      [|reflexivity].
    apply (proj1 (has_session_false _ _) E) in Hs.
    apply String.eqb_neq in Hs. contradiction.
Qed.

End ListingFacts.

(** C10, as stated, fails twice.  A session whose stored files string is
    the empty string, which is not JSON, is listed with an empty file
    list; and a session whose files string is [oops] does not disturb a
    listing with limit 0. *)
Lemma sessions_listing_survives_bad_files :
  (map s_files_modified (sessions (db (one_summary ""))) = [Some ""]
   /\ Json.parse "" = None
   /\ knowledge_sessions None ctx0 (one_summary "")
      = Returns {| ss_count := 1;
                   ss_sessions :=
                     [ {| si_id := "11111111-1111-4111-8111-111111111111";
                          si_startTime := "2024-01-01 00:00:00";
                          si_endTime := None;
                          si_summary := Some "Set up auth";
                          si_keyDecisions := Some "JWT";
                          si_filesModified := JArray [] |} ] |})
  /\ (map s_files_modified (sessions (db (one_summary "oops"))) = [Some "oops"]
      /\ Json.parse "oops" = None
      /\ knowledge_sessions (Some (Integral 0)) ctx0 (one_summary "oops")
         = Returns {| ss_count := 0; ss_sessions := [] |}).
Proof. vm_compute. repeat split. Qed.

(** C10, amended: [summarizeSession] stores the caller's files string
    verbatim in the row of its session.  [listSessions] fails with
    [datatype mismatch] when its limit is no integer SQLite takes;
    otherwise it parses the non-empty files string of every row it
    selects (the sessions of the project scope, most recent first, cut at
    [limit]) without a guard.  So the call throws a syntax error as soon
    as one selected row holds a non-empty files string that is not JSON,
    and returns a payload when no selected row does; every session of the
    scope is selected when the limit is negative or not below their
    number. *)
Theorem sessions_listing_throws_on_selected_bad_files :
  forall (limit : option js_number) (c : ctx) (p : plugin),
    (forall d summary decisions files s,
        In s (sessions (db (snd (knowledge_summarize_session d summary decisions files c p)))) ->
        s_id s = mp_sessionId (fst (knowledge_summarize_session d summary decisions files c p)) ->
        s_files_modified s = Some files)
    /\ ((forall n, ~ sqlite_integer (or_ten limit) n) ->
        knowledge_sessions limit c p = Throws (SqliteError "datatype mismatch"))
    /\ (forall n, sqlite_integer (or_ten limit) n ->
          (forall s text,
              In s (session_rows n c p) ->
              s_files_modified s = Some text -> text <> "" -> Json.parse text = None ->
              knowledge_sessions limit c p = Throws SyntaxError)
          /\ ((forall s text,
                 In s (session_rows n c p) ->
                 s_files_modified s = Some text -> text <> "" ->
                 Json.parse text <> None) ->
              is_returns (knowledge_sessions limit c p) = true)
          /\ (forall s,
                (n < 0
                 \/ Z.of_nat (List.length
                                (filter (fun s => (s_project_path s =? projPath c)%string)
                                        (sessions (db p)))) <= n)%Z ->
                In s (sessions (db p)) -> s_project_path s = projPath c ->
                In s (session_rows n c p))).
Proof.
  intros limit c p. split; [|split].
  - intros d summary decisions files s. apply summarize_stores_files.
  - intros H. unfold knowledge_sessions.
    destruct (Sql.must_be_int (or_ten limit)) as [n|e] eqn:E.
    + apply must_be_int_returns in E. now destruct (H n).
    + apply must_be_int_throws in E. now destruct E as [-> _].
  - intros n Hn. apply must_be_int_returns in Hn.
    split; [|split].
    + intros s text Hs E Hne Hp. unfold knowledge_sessions. rewrite Hn.
      destruct (map_throwing_throws to_item _ s SyntaxError Hs
                  (to_item_bad s text E Hne Hp))
        as [e' [Em [y [_ Ey]]]].
      rewrite Em. apply to_item_throws in Ey. now subst e'.
    + intros H. unfold knowledge_sessions. rewrite Hn.
      assert (Hr : is_returns (map_throwing to_item (session_rows n c p)) = true).
      { apply map_throwing_returns. intros s Hs. apply to_item_good.
        intros text. now apply H. }
      now destruct (map_throwing to_item (session_rows n c p)).
    + intros s. apply session_rows_all.
Qed.

Lemma sessions_listing_throws_on_selected_bad_files_witness :
  knowledge_sessions None ctx0 (one_summary "oops") = Throws SyntaxError
  /\ knowledge_sessions (Some (Integral 100000000000000000000)) ctx0
       (one_summary "[]")
     = Throws (SqliteError "datatype mismatch").
Proof.
  split.
  - apply (proj1 (proj2 (proj2 (sessions_listing_throws_on_selected_bad_files
                                  None ctx0 (one_summary "oops")))
                    10%Z ltac:(split; [reflexivity | lia]))
             {| s_id := "11111111-1111-4111-8111-111111111111";
                s_project_path := "/proj"; s_start_time := "2024-01-01 00:00:00";
                s_end_time := None; s_summary := Some "Set up auth";
                s_key_decisions := Some "JWT"; s_files_modified := Some "oops";
                s_context := Some (context_of "Set up auth" "JWT") |}
             "oops").
    + vm_compute. now left.
    + reflexivity.
    + discriminate.
    + reflexivity.
  - apply (proj1 (proj2 (sessions_listing_throws_on_selected_bad_files
                           (Some (Integral 100000000000000000000)) ctx0
                           (one_summary "[]")))).
    intros n [[= <-] Hr]. lia.
Defined.

(* ===================================================================== *)
(** * Auto-capture of file reads                                          *)
(* ===================================================================== *)

(** C3, as stated, fails in its second half: a read of [src/a.js] two
    days after its capture leaves one row of that name, and the row still
    carries the timestamp of the capture, not the time of the read. *)
Lemma read_of_known_file_keeps_timestamp :
  entity_by_name "/proj" (already_normal "src/a.js") (db file_plugin) = Some file_entity
  /\ map (fun e => (e_name e, e_updated_at e))
         (entities (db (snd (tool_execute_after already_normal (fun _ => draw3)
                               read_input (Some "export {}") file_plugin))))
     = [("src/a.js", "2024-01-01 00:00:00")]
  /\ sql_now draw3 <> "2024-01-01 00:00:00".
Proof. vm_compute. repeat split. discriminate. Qed.

(** C3, amended: a file-read event whose normalized path already names an
    entity of the project scope returns and leaves the plugin and its
    store exactly as they were: no entity row is added, and no column of
    the existing row, [updated_at] included, is written. *)
Theorem read_of_known_file_changes_nothing :
  forall (normalize : string -> string) (draws : nat -> draw)
         (input : tool_input) (a : tool_args) (path : string)
         (result : option string) (existing : entity) (p : plugin),
    tool input = "read" -> args input = Some a -> filePath a = Some path ->
    entity_by_name (projectPath p) (normalize path) (db p) = Some existing ->
    tool_execute_after normalize draws input result p = (Returns tt, p).
Proof.
  intros normalize draws input a path result existing p Ht Ha Hf He.
  unfold tool_execute_after, capture_read, capture_bash.
  rewrite Ht, Ha, Hf, He. simpl.
  destruct result as [text|]; simpl; [|reflexivity].
  destruct (text =? ""); simpl; [reflexivity|].
  destruct (path =? ""); reflexivity.
Qed.

Lemma read_of_known_file_changes_nothing_witness :
  tool_execute_after already_normal (fun _ => draw3) read_input (Some "export {}")
    file_plugin
  = (Returns tt, file_plugin).
Proof.
  apply (read_of_known_file_changes_nothing already_normal (fun _ => draw3) read_input
           {| filePath := Some "src/a.js"; command := None |} "src/a.js"
           (Some "export {}") file_entity file_plugin); reflexivity.
Defined.

(* ===================================================================== *)
(** * Histories                                                           *)
(* ===================================================================== *)

Section EvolutionFacts.

Lemma ids_frozen (l : list entity) : map e_id (map frozen l) = map e_id l.
Proof. rewrite map_map. reflexivity. Qed.

Lemma has_entity_In id d : has_entity id d = true <-> In id (ids d).
Proof.
  unfold has_entity, ids. rewrite existsb_exists, in_map_iff.
  split; intros [e [H1 H2]]; exists e.
  - apply String.eqb_eq in H2. tauto.
  - rewrite String.eqb_eq. tauto.
Qed.

Lemma has_entity_not_In id d : has_entity id d = false <-> ~ In id (ids d).
Proof.
  rewrite <- has_entity_In. destruct (has_entity id d); split; congruence.
Qed.

Lemma evolves_ids d d' :
  evolves d d' -> exists more, ids d' = (ids d ++ more)%list.
Proof.
  intros [[added [E _]] _]. exists (map e_id added).
  unfold ids. rewrite <- (ids_frozen (entities d')), E, ids_frozen.
  apply map_app.
Qed.

Lemma evolves_same d d' :
  entities d' = entities d -> relationships d' = relationships d -> evolves d d'.
Proof.
  intros E R. split.
  - exists []. rewrite E, app_nil_r. repeat split; [constructor | intros e []].
  - exists []. rewrite R, app_nil_r. split; [reflexivity | intros r []].
Qed.

Lemma evolves_refl d : evolves d d.
Proof. now apply evolves_same. Qed.

Lemma evolves_trans d0 d1 d2 : evolves d0 d1 -> evolves d1 d2 -> evolves d0 d2.
Proof.
  intros H01 H12.
  destruct (evolves_ids _ _ H01) as [m1 I1].
  destruct (evolves_ids _ _ H12) as [m2 I2].
  destruct H01 as [[a1 [E1 [N1 F1]]] [rs1 [R1 L1]]].
  destruct H12 as [[a2 [E2 [N2 F2]]] [rs2 [R2 L2]]].
  assert (I1' : ids d1 = (ids d0 ++ map e_id a1)%list).
  { unfold ids. rewrite <- (ids_frozen (entities d1)), E1, ids_frozen.
    apply map_app. }
  split.
  - exists (a1 ++ a2)%list. split; [|split].
    + rewrite E2, map_app, E1, !map_app. now rewrite app_assoc.
    + rewrite map_app. apply NoDup_app; trivial.
      intros x Hx1 Hx2. apply in_map_iff in Hx2. destruct Hx2 as [e [<- He]].
      apply (F2 e He). rewrite I1'. apply in_or_app. now right.
    + intros e He. apply in_app_or in He. destruct He as [He|He].
      * now apply F1.
      * intros Hin. apply (F2 e He). rewrite I1'. apply in_or_app. now left.
  - exists (rs1 ++ rs2)%list. split.
    + rewrite R2, R1. now rewrite app_assoc.
    + intros r Hr. apply in_app_or in Hr. destruct Hr as [Hr|Hr].
      * destruct (L1 r Hr) as [Hs Ht]. rewrite I2.
        split; apply in_or_app; now left.
      * now apply L2.
Qed.

Lemma evolves_append_entity e d :
  has_entity (e_id e) d = false ->
  evolves d (with_entities (entities d ++ [e])%list d).
Proof.
  intros H. split.
  - exists [e]. simpl. split; [reflexivity|]. split.
    + repeat constructor. intros [].
    + intros x [<-|[]]. now apply has_entity_not_In.
  - exists []. simpl. rewrite app_nil_r. split; [reflexivity | intros r []].
Qed.

Lemma evolves_insert_entity e d d' :
  insert_entity e d = Returns d' -> evolves d d'.
Proof.
  unfold insert_entity. destruct (has_entity (e_id e) d) eqn:E; [discriminate|].
  intros H. injection H as <-. now apply evolves_append_entity.
Qed.

Lemma evolves_insert_or_ignore e d : evolves d (insert_or_ignore_entity e d).
Proof.
  unfold insert_or_ignore_entity. destruct (has_entity (e_id e) d) eqn:E.
  - apply evolves_refl.
  - now apply evolves_append_entity.
Qed.

Lemma evolves_touch id now d : evolves d (touch_entity id now d).
Proof.
  split.
  - exists []. rewrite app_nil_r. split; [|split; [constructor | intros e []]].
    unfold touch_entity. simpl. rewrite map_map. apply map_ext.
    intros e. now destruct (e_id e =? id).
  - exists []. simpl. rewrite app_nil_r. split; [reflexivity | intros r []].
Qed.

Lemma evolves_insert_relationship r d d' :
  insert_relationship r d = Returns d' ->
  In (r_source_id r) (ids d) -> In (r_target_id r) (ids d) ->
  evolves d d'.
Proof.
  unfold insert_relationship. destruct (has_relationship (r_id r) d); [discriminate|].
  intros H Hs Ht. injection H as <-. split.
  - exists []. simpl. rewrite app_nil_r. repeat split; [constructor | intros e []].
  - exists [r]. simpl. split; [reflexivity|]. intros x [<-|[]]. now split.
Qed.

Lemma entities_upsert row d : entities (upsert_session row d) = entities d.
Proof. unfold upsert_session. now destruct (has_session (s_id row) d). Qed.

Lemma relationships_upsert row d :
  relationships (upsert_session row d) = relationships d.
Proof. unfold upsert_session. now destruct (has_session (s_id row) d). Qed.

Lemma evolves_capture_decisions draws project lines rest i k d :
  evolves d (snd (capture_decisions draws project lines rest i k d)).
Proof.
  revert i k d. induction rest as [|line rest IH]; intros i k d; simpl.
  - apply evolves_refl.
  - destruct (includes "decision:" line); [|apply IH].
    eapply evolves_trans; [apply evolves_insert_or_ignore | apply IH].
Qed.

Lemma evolves_capture_sections draws project lines rest i k d :
  evolves d (snd (capture_sections draws project lines rest i k d)).
Proof.
  revert i k d. induction rest as [|line rest IH]; intros i k d; simpl.
  - apply evolves_refl.
  - destruct (startsWith "## " line); [|apply IH].
    eapply evolves_trans; [apply evolves_insert_or_ignore | apply IH].
Qed.

Lemma evolves_capture_entity draws project e k d :
  evolves d (snd (snd (capture_entity draws project e k d))).
Proof.
  unfold capture_entity.
  assert (H1 : evolves d (snd (match e_content e with
      | Some content =>
          if truthy (e_content e) && includes "decision:" content
          then capture_decisions draws project (split_lines content)
                 (split_lines content) 0 k d
          else (k, d)
      | None => (k, d)
      end))).
  { destruct (e_content e) as [content|]; [|apply evolves_refl].
    destruct (truthy (Some content) && includes "decision:" content);
      [apply evolves_capture_decisions | apply evolves_refl]. }
  destruct (match e_content e with
      | Some content =>
          if truthy (e_content e) && includes "decision:" content
          then capture_decisions draws project (split_lines content)
                 (split_lines content) 0 k d
          else (k, d)
      | None => (k, d)
      end) as [k1 d1]. simpl in H1.
  destruct (endsWith "README.md" (e_name e) || endsWith "ARCHITECTURE.md" (e_name e));
    [|exact H1].
  destruct (e_content e) as [content|]; [|exact H1]. simpl.
  eapply evolves_trans; [exact H1 | apply evolves_capture_sections].
Qed.

Lemma evolves_capture_entities draws project es k d :
  evolves d (snd (snd (capture_entities draws project es k d))).
Proof.
  revert k d. induction es as [|e es IH]; intros k d; simpl.
  - apply evolves_refl.
  - pose proof (evolves_capture_entity draws project e k d) as H.
    destruct (capture_entity draws project e k d) as [[u|x] [k' d']]; simpl in *.
    + eapply evolves_trans; [exact H | apply IH].
    + exact H.
Qed.

End EvolutionFacts.

Section StepFacts.
Variable normalize : string -> string.

Lemma evolves_session_deleted d output p :
  evolves (db p) (db (snd (session_deleted d output p))).
Proof.
  unfold session_deleted.
  destruct (currentSessionId p) as [id|]; [|apply evolves_refl].
  destruct (truthy (Some id)); [|apply evolves_refl].
  simpl. now apply evolves_same.
Qed.

Lemma evolves_file_edited d path p :
  evolves (db p) (db (file_edited normalize d path p)).
Proof.
  unfold file_edited.
  destruct (entity_by_name (projectPath p) (normalize path) (db p));
    [apply evolves_touch | apply evolves_refl].
Qed.

Lemma evolves_capture_read d input result p :
  evolves (db p) (db (snd (capture_read normalize d input result p))).
Proof.
  unfold capture_read.
  destruct result as [text|]; [|apply evolves_refl].
  destruct ((tool input =? "read") && truthy (Some text)); [|apply evolves_refl].
  destruct (match args input with Some a => filePath a | None => None end)
    as [path|]; [|apply evolves_refl].
  destruct (truthy (Some path)); [|apply evolves_refl].
  destruct (entity_by_name (projectPath p) (normalize path) (db p));
    [apply evolves_refl|].
  match goal with
  | |- context [insert_entity ?e ?d] =>
      destruct (insert_entity e d) as [d'|x] eqn:E
  end; simpl; [eapply evolves_insert_entity; exact E | apply evolves_refl].
Qed.

Lemma evolves_capture_bash draws input result p :
  evolves (db p) (db (snd (capture_bash draws input result p))).
Proof.
  unfold capture_bash.
  destruct ((tool input =? "bash") && truthy result); [|apply evolves_refl].
  match goal with
  | |- context [existsb ?f gitCommands] => destruct (existsb f gitCommands)
  end; [|apply evolves_refl].
  match goal with
  | |- context [capture_entities ?a ?b ?c ?k ?d] =>
      pose proof (evolves_capture_entities a b c k d) as H;
      destruct (capture_entities a b c k d) as [o [k' d']]
  end.
  exact H.
Qed.

Lemma evolves_tool_execute_after draws input result p :
  evolves (db p) (db (snd (tool_execute_after normalize draws input result p))).
Proof.
  unfold tool_execute_after.
  pose proof (evolves_capture_read (draws 0) input result p) as H.
  destruct (capture_read normalize (draws 0) input result p) as [[u|x] p1];
    simpl in H; [|exact H].
  eapply evolves_trans; [exact H | apply evolves_capture_bash].
Qed.

Lemma evolves_add_entity d name type content metadata c p :
  evolves (db p) (db (snd (knowledge_add_entity d name type content metadata c p))).
Proof.
  unfold knowledge_add_entity.
  match goal with
  | |- context [insert_entity ?e ?d] =>
      destruct (insert_entity e d) as [d'|x] eqn:E
  end; simpl; [eapply evolves_insert_entity; exact E | apply evolves_refl].
Qed.

Lemma resolve_In project identifier d e :
  resolve project identifier d = Some e -> In (e_id e) (ids d).
Proof.
  intros H. apply resolve_some in H. destruct H as [H _].
  unfold ids. now apply in_map.
Qed.

Lemma evolves_connect d source target relationship c p :
  evolves (db p) (db (snd (knowledge_connect d source target relationship c p))).
Proof.
  unfold knowledge_connect.
  destruct (resolve (projPath c) source (db p)) as [s|] eqn:Es;
    [|apply evolves_refl].
  destruct (resolve (projPath c) target (db p)) as [t|] eqn:Et;
    [|apply evolves_refl].
  match goal with
  | |- context [insert_relationship ?r ?d] =>
      destruct (insert_relationship r d) as [d'|x] eqn:E
  end; simpl; [|apply evolves_refl].
  eapply evolves_insert_relationship; [exact E | |]; simpl;
    eapply resolve_In; eassumption.
Qed.

Lemma evolves_record_decision d decision rationale alternatives c p :
  evolves (db p)
    (db (snd (knowledge_record_decision d decision rationale alternatives c p))).
Proof.
  unfold knowledge_record_decision.
  match goal with
  | |- context [insert_entity ?e ?d] =>
      destruct (insert_entity e d) as [d'|x] eqn:E
  end; simpl; [eapply evolves_insert_entity; exact E | apply evolves_refl].
Qed.

Lemma evolves_summarize d summary decisions files c p :
  evolves (db p)
    (db (snd (knowledge_summarize_session d summary decisions files c p))).
Proof.
  unfold knowledge_summarize_session. simpl.
  apply evolves_same; [apply entities_upsert | apply relationships_upsert].
Qed.

Lemma evolves_ask d question c p :
  evolves (db p) (db (snd (knowledge_ask_log d question c p))).
Proof.
  unfold knowledge_ask_log, insert_query.
  match goal with
  | |- context [has_query ?i ?d] => destruct (has_query i d)
  end; simpl; [apply evolves_refl | now apply evolves_same].
Qed.

(** Every call leaves a store that comes after the one it found. *)
Lemma step_evolves x p : evolves (db p) (db (step normalize x p)).
Proof.
  destruct x; simpl.
  - apply evolves_refl.
  - apply evolves_session_deleted.
  - apply evolves_file_edited.
  - apply evolves_tool_execute_after.
  - apply evolves_add_entity.
  - apply evolves_connect.
  - apply evolves_record_decision.
  - apply evolves_summarize.
  - apply evolves_ask.
  - apply evolves_refl.
Qed.

Lemma run_evolves xs p : evolves (db p) (db (run normalize xs p)).
Proof.
  revert p. induction xs as [|x xs IH]; intros p; simpl.
  - apply evolves_refl.
  - eapply evolves_trans; [apply step_evolves | apply IH].
Qed.

Lemma consistent_evolves d d' : consistent d -> evolves d d' -> consistent d'.
Proof.
  intros [U L] H.
  destruct (evolves_ids _ _ H) as [more I].
  destruct H as [[added [E [N F]]] [rs [R Lr]]].
  assert (I' : ids d' = (ids d ++ map e_id added)%list).
  { unfold ids. rewrite <- (ids_frozen (entities d')), E, ids_frozen.
    apply map_app. }
  split.
  - unfold unique_ids. rewrite I'. apply NoDup_app; trivial.
    intros x Hx Hx'. apply in_map_iff in Hx'. destruct Hx' as [e [<- He]].
    now apply (F e He).
  - intros r Hr. rewrite R in Hr. apply in_app_or in Hr. destruct Hr as [Hr|Hr].
    + destruct (L r Hr). rewrite I'. split; apply in_or_app; now left.
    + now apply Lr.
Qed.

Lemma consistent_empty : consistent Store.empty.
Proof. split; [constructor | intros r []]. Qed.

(** The store of every history that starts in a fresh project keeps
    its primary and foreign keys. *)
Lemma run_consistent xs c : consistent (db (run normalize xs (fresh c))).
Proof.
  apply (consistent_evolves (db (fresh c))); [apply consistent_empty|].
  apply run_evolves.
Qed.

End StepFacts.

(* ===================================================================== *)
(** * [knowledge_graph]                                                   *)
(* ===================================================================== *)

Section GraphFacts.

Lemma flat_map_no_id {B} (f : entity -> list B) (es : list entity) (x : string) :
  ~ In x (map e_id es) ->
  flat_map (fun s => if x =? e_id s then f s else []) es = [].
Proof.
  induction es as [|a es IH]; intros H; simpl; [reflexivity|].
  simpl in H. destruct (x =? e_id a) eqn:E.
  - apply String.eqb_eq in E. subst x. tauto.
  - apply IH. tauto.
Qed.

Lemma flat_map_one_id {B} (f : entity -> list B) (es : list entity) (s : entity) :
  NoDup (map e_id es) -> In s es ->
  flat_map (fun s' => if e_id s =? e_id s' then f s' else []) es = f s.
Proof.
  induction es as [|a es IH]; intros N Hin; [destruct Hin|].
  simpl in N. apply NoDup_cons_iff in N. destruct N as [Na N]. simpl.
  destruct Hin as [->|Hin].
  - rewrite String.eqb_refl, flat_map_no_id by assumption. apply app_nil_r.
  - destruct (e_id s =? e_id a) eqn:E.
    + apply String.eqb_eq in E. exfalso. apply Na. rewrite <- E. now apply in_map.
    + now apply IH.
Qed.

(** Under the two keys, the join yields one row for a relationship. *)
Lemma joined_one d r :
  consistent d -> In r (relationships d) ->
  exists s t,
    In s (entities d) /\ e_id s = r_source_id r
    /\ In t (entities d) /\ e_id t = r_target_id r
    /\ joined (entities d) r
       = [ {| g_id := r_id r; g_source := e_name s; g_target := e_name t;
              g_type := r_relationship_type r |} ].
Proof.
  intros [U L] Hr. destruct (L r Hr) as [Hs Ht].
  apply in_map_iff in Hs. destruct Hs as [s [Es Hs]].
  apply in_map_iff in Ht. destruct Ht as [t [Et Ht]].
  exists s, t. repeat split; trivial.
  unfold joined. rewrite <- Es, <- Et.
  rewrite (flat_map_one_id _ (entities d) s U Hs).
  now rewrite (flat_map_one_id _ (entities d) t U Ht).
Qed.

Lemma Forall2_flat_map_one {A B} (R : A -> B -> Prop) (f : A -> list B) (l : list A) :
  (forall a, In a l -> exists b, f a = [b] /\ R a b) ->
  Forall2 R l (flat_map f l).
Proof.
  induction l as [|a l IH]; intros H; simpl; [constructor|].
  destruct (H a (or_introl eq_refl)) as [b [-> Hb]]. simpl.
  constructor; [assumption|]. apply IH. intros x Hx. apply H. now right.
Qed.

Lemma unique_ids_inj d x y :
  unique_ids d -> In x (entities d) -> In y (entities d) -> e_id x = e_id y -> x = y.
Proof.
  unfold unique_ids, ids. induction (entities d) as [|a l IH]; intros N Hx Hy E.
  - destruct Hx.
  - simpl in N. apply NoDup_cons_iff in N. destruct N as [Na N].
    destruct Hx as [->|Hx], Hy as [->|Hy]; trivial.
    + exfalso. apply Na. rewrite E. now apply in_map.
    + exfalso. apply Na. rewrite <- E. now apply in_map.
    + now apply IH.
Qed.

Lemma Forall2_In_l {A B} (R : A -> B -> Prop) (l : list A) (l' : list B) (a : A) :
  Forall2 R l l' -> In a l -> exists b, In b l' /\ R a b.
Proof.
  induction 1 as [|x y l l' Hxy _ IH]; intros Hin; [destruct Hin|].
  destruct Hin as [->|Hin].
  - exists y. split; [now left | assumption].
  - destruct (IH Hin) as [b [Hb Hab]]. exists b. split; [now right | assumption].
Qed.

(** The edges of an export: one for each relationship of the scope. *)
Lemma graph_edges_rows (d : database) (project : string) :
  consistent d ->
  Forall2
    (fun r g =>
       g_id g = r_id r /\ g_type g = r_relationship_type r
       /\ (exists s, In s (entities d) /\ e_id s = r_source_id r
                     /\ g_source g = e_name s)
       /\ (exists t, In t (entities d) /\ e_id t = r_target_id r
                     /\ g_target g = e_name t))
    (filter (fun r => r_project_path r =? project) (relationships d))
    (graph_edges project d).
Proof.
  intros C. unfold graph_edges.
  apply Forall2_flat_map_one. intros r Hr.
  apply filter_In in Hr. destruct Hr as [Hr _].
  destruct (joined_one _ r C Hr) as [s [t [Hs [Es [Ht [Et E]]]]]].
  eexists. split; [exact E|]. simpl. repeat split; eauto.
Qed.

End GraphFacts.

(** C9: in the store of every history of a fresh project, the
    [entityType] argument of [exportGraph] restricts the nodes and
    nothing else.  The edges do not depend on it: they are, one for one
    and in order, the relationships of the project scope, each with its
    id and type and with the names of its source and target entities.
    The nodes are entities of the scope, every one of them when no type
    is given, and under a non-empty type exactly those of that type: an
    entity of another type is no node.  So the edge of a relationship is
    returned also when the filter keeps its source or its target out of
    the nodes. *)
Theorem graph_filter_restricts_nodes_not_edges :
  forall (normalize : string -> string) (calls : list call) (c0 : ctx)
         (entityType : option string) (depth : option Z) (c : ctx),
    let p := run normalize calls (fresh c0) in
    let graph := knowledge_graph entityType depth c p in
    edges graph = edges (knowledge_graph None None c p)
    /\ Forall2
         (fun r g =>
            g_id g = r_id r /\ g_type g = r_relationship_type r
            /\ (exists s, In s (entities (db p))
                          /\ e_id s = r_source_id r /\ g_source g = e_name s)
            /\ (exists t, In t (entities (db p))
                          /\ e_id t = r_target_id r /\ g_target g = e_name t))
         (filter (fun r => r_project_path r =? projPath c) (relationships (db p)))
         (edges graph)
    /\ (forall n, In n (nodes graph) ->
          exists e, In e (entities (db p)) /\ e_project_path e = projPath c
                    /\ n = to_node e)
    /\ (forall e, In e (entities (db p)) -> e_project_path e = projPath c ->
          entityType = None \/ entityType = Some "" \/ entityType = Some (e_type e) ->
          In (to_node e) (nodes graph))
    /\ (forall t, entityType = Some t -> t <> "" ->
          (forall n, In n (nodes graph) -> n_type n = t)
          /\ (forall e, In e (entities (db p)) -> e_type e <> t ->
                ~ In (e_id e) (map n_id (nodes graph)))
          /\ (forall r s, In r (relationships (db p)) ->
                r_project_path r = projPath c ->
                In s (entities (db p)) -> e_id s = r_source_id r \/ e_id s = r_target_id r ->
                e_type s <> t ->
                ~ In (e_id s) (map n_id (nodes graph))
                /\ exists g, In g (edges graph) /\ g_id g = r_id r
                             /\ (g_source g = e_name s \/ g_target g = e_name s))).
Proof.
  intros normalize calls c0 entityType depth c p graph.
  pose proof (run_consistent normalize calls c0) as C. fold p in C.
  assert (HE : Forall2
         (fun r g =>
            g_id g = r_id r /\ g_type g = r_relationship_type r
            /\ (exists s, In s (entities (db p))
                          /\ e_id s = r_source_id r /\ g_source g = e_name s)
            /\ (exists t, In t (entities (db p))
                          /\ e_id t = r_target_id r /\ g_target g = e_name t))
         (filter (fun r => r_project_path r =? projPath c) (relationships (db p)))
         (edges graph))
    by (apply graph_edges_rows; exact C).
  assert (HN : forall n, In n (nodes graph) ->
                 exists e, In e (entities (db p)) /\ e_project_path e = projPath c
                           /\ type_filter entityType e = true /\ n = to_node e).
  { intros n Hn. unfold graph, knowledge_graph in Hn. cbn [nodes] in Hn.
    apply in_map_iff in Hn. destruct Hn as [e [<- He]].
    apply filter_In in He. destruct He as [He Hf].
    apply andb_true_iff in Hf. destruct Hf as [Hp Hf].
    apply String.eqb_eq in Hp. now exists e. }
  assert (Hout : forall t e, entityType = Some t -> t <> "" ->
                   In e (entities (db p)) -> e_type e <> t ->
                   ~ In (e_id e) (map n_id (nodes graph))).
  { intros t e Et Hne He Hty Hin.
    apply in_map_iff in Hin. destruct Hin as [n [Hid Hn]].
    destruct (HN n Hn) as [e' [He' [_ [Hf ->]]]]. simpl in Hid.
    assert (e' = e) by (apply (unique_ids_inj (db p)); trivial; apply C).
    subst e'. apply Hty. eapply type_filter_given; eauto. }
  split; [reflexivity|]. split; [exact HE|]. split; [|split].
  - intros n Hn. destruct (HN n Hn) as [e [He [Hp [_ ->]]]]. now exists e.
  - intros e He Hp Hty. unfold graph, knowledge_graph. cbn [nodes].
    apply in_map, filter_In. split; [assumption|].
    apply andb_true_iff. split; [now apply String.eqb_eq|].
    destruct Hty as [-> | [-> | ->]]; try reflexivity.
    unfold type_filter. destruct (truthy _); [apply String.eqb_refl | reflexivity].
  - intros t Et Hne. split; [|split].
    + intros n Hn. destruct (HN n Hn) as [e [_ [_ [Hf ->]]]]. simpl.
      eapply type_filter_given; eauto.
    + intros e. now apply Hout.
    + intros r s Hr Hp Hs Hend Hty. split; [now apply (Hout t)|].
      assert (Hr' : In r (filter (fun r => r_project_path r =? projPath c)
                                 (relationships (db p))))
        by (apply filter_In; split; [assumption | now apply String.eqb_eq]).
      destruct (Forall2_In_l _ _ _ r HE Hr')
        as [g [Hg [Hid [_ [[s' [Hs' [Es' Hn']]] [t' [Ht' [Et' Hm']]]]]]]].
      exists g. split; [assumption|]. split; [assumption|].
      destruct Hend as [Hend|Hend].
      * left. rewrite Hn'. f_equal.
        apply (unique_ids_inj (db p)); trivial; [apply C | congruence].
      * right. rewrite Hm'. f_equal.
        apply (unique_ids_inj (db p)); trivial; [apply C | congruence].
Qed.

Lemma graph_filter_restricts_nodes_not_edges_witness :
  map n_label (nodes (knowledge_graph (Some "component") None ctx0 mixed))
  = ["UserService"; "Database"]
  /\ List.length (nodes (knowledge_graph None None ctx0 mixed)) = 3
  /\ ~ In (e_id user_service)
         (map n_id (nodes (knowledge_graph (Some "decision") None ctx0 mixed)))
  /\ exists g,
       In g (edges (knowledge_graph (Some "decision") None ctx0 mixed))
       /\ g_id g = "33333333-3333-4333-8333-333333333333"
       /\ (g_source g = "UserService" \/ g_target g = "UserService").
Proof.
  split; [reflexivity|]. split; [reflexivity|].
  apply (proj2 (proj2 (proj2 (proj2 (proj2 (proj2
           (graph_filter_restricts_nodes_not_edges already_normal mixed_calls ctx0
              (Some "decision") None ctx0))))
           "decision" eq_refl ltac:(discriminate)))
           {| r_id := "33333333-3333-4333-8333-333333333333";
              r_source_id := "11111111-1111-4111-8111-111111111111";
              r_target_id := "22222222-2222-4222-8222-222222222222";
              r_relationship_type := "depends_on"; r_metadata := None;
              r_project_path := "/proj"; r_created_at := "2024-01-03 00:00:00" |}
           user_service).
  - vm_compute. now left.
  - reflexivity.
  - vm_compute. now left.
  - now left.
  - discriminate.
Defined.

(** Under the filter [decision] the two components of [connected] are
    not nodes, and the edge between them is still returned. *)
Example edge_dangles_under_filter :
  nodes (knowledge_graph (Some "decision") None ctx0 connected) = []
  /\ edges (knowledge_graph (Some "decision") None ctx0 connected)
     = [ {| g_id := "33333333-3333-4333-8333-333333333333";
            g_source := "UserService"; g_target := "Database";
            g_type := "depends_on" |} ].
Proof. vm_compute. split; reflexivity. Qed.

(* ===================================================================== *)
(** * Metadata                                                            *)
(* ===================================================================== *)

Section MetadataFacts.

Lemma add_entity_returns d name type content metadata c p payload p1 :
  knowledge_add_entity d name type content metadata c p = (Returns payload, p1) ->
  ap_entityId payload = uuid d
  /\ ~ In (uuid d) (ids (db p))
  /\ entities (db p1)
     = (entities (db p)
        ++ [ {| e_id := uuid d; e_type := type; e_name := name;
                e_content := content; e_metadata := or_null metadata;
                e_project_path := projPath c;
                e_created_at := sql_now d; e_updated_at := sql_now d |} ])%list.
Proof.
  unfold knowledge_add_entity, insert_entity. simpl.
  destruct (has_entity (uuid d) (db p)) eqn:E; [discriminate|].
  intros H. injection H as <- <-. simpl.
  split; [reflexivity|]. split; [now apply has_entity_not_In | reflexivity].
Qed.

(** In every later store, the rows under the id of an inserted row are
    that row, its [updated_at] apart, and there is one. *)
Lemma inserted_row_stays d1 d2 e :
  entities d1 = (removelast (entities d1) ++ [e])%list ->
  ~ In (e_id e) (map e_id (removelast (entities d1))) ->
  evolves d1 d2 ->
  (forall x, In x (entities d2) -> e_id x = e_id e -> frozen x = frozen e)
  /\ (exists x, In x (entities d2) /\ frozen x = frozen e).
Proof.
  intros E1 Hnew [[added [E [_ F]]] _]. split.
  - intros x Hx Hid.
    assert (Hf : In (frozen x) (map frozen (entities d2))) by now apply in_map.
    rewrite E in Hf. apply in_map_iff in Hf. destruct Hf as [y [Ey Hy]].
    assert (Hyid : e_id y = e_id e).
    { rewrite <- Hid. change (e_id (frozen y) = e_id (frozen x)). now rewrite Ey. }
    apply in_app_or in Hy. destruct Hy as [Hy|Hy].
    + rewrite E1 in Hy. apply in_app_or in Hy. destruct Hy as [Hy|[<-|[]]].
      * exfalso. apply Hnew. rewrite <- Hyid. now apply in_map.
      * now symmetry.
    + exfalso. apply (F y Hy). rewrite Hyid. unfold ids. rewrite E1, map_app.
      apply in_or_app. right. now left.
  - assert (Hf : In (frozen e) (map frozen (entities d2))).
    { rewrite E. apply in_map. apply in_or_app. left. rewrite E1.
      apply in_or_app. right. now left. }
    apply in_map_iff in Hf. destruct Hf as [x [Ex Hx]]. now exists x.
Qed.

Lemma frozen_columns x e :
  frozen x = frozen e ->
  e_id x = e_id e /\ e_type x = e_type e /\ e_name x = e_name e
  /\ e_metadata x = e_metadata e /\ e_project_path x = e_project_path e.
Proof.
  intros H.
  change (e_id (frozen x) = e_id (frozen e) /\ e_type (frozen x) = e_type (frozen e)
          /\ e_name (frozen x) = e_name (frozen e)
          /\ e_metadata (frozen x) = e_metadata (frozen e)
          /\ e_project_path (frozen x) = e_project_path (frozen e)).
  now rewrite H.
Qed.

End MetadataFacts.

(** C4, as stated, fails: the entity was stored with the metadata [[1]],
    a search finds it, and the object returned for it has the five
    properties id, type, name, content and updated, none of which holds
    the metadata. *)
Lemma search_payload_carries_no_metadata :
  map e_metadata (entities (db meta_plugin)) = [Some "[1]"]
  /\ map_outcome (fun payload => map search_result_object (sp_results payload))
       (knowledge_search "User" None None ctx0 meta_plugin)
     = Returns
         [ [ ("id", Some "11111111-1111-4111-8111-111111111111");
             ("type", Some "component"); ("name", Some "UserService");
             ("content", Some "Handles auth");
             ("updated", Some "2024-01-01 00:00:00") ] ]
  /\ exists payload,
       knowledge_search "User" None None ctx0 meta_plugin = Returns payload
       /\ Forall (fun r => ~ In "metadata" (map fst (search_result_object r))
                           /\ ~ In (Some "[1]") (map snd (search_result_object r)))
                 (sp_results payload).
Proof.
  split; [reflexivity|]. split; [reflexivity|].
  eexists. split; [reflexivity|].
  constructor; [|constructor].
  split; intros H; vm_compute in H;
    repeat (destruct H as [H|H]; [discriminate|]); exact H.
Qed.

(** C4, amended: the non-empty metadata string an entity is created with
    is stored as it is and stays so through every later history of
    calls; every later graph export whose nodes include the entity
    returns the identical string in the node's [metadata], and the
    unfiltered export of its project does include it.  A search result
    has no metadata property. *)
Theorem metadata_kept_verbatim_for_graph :
  forall (normalize : string -> string) (d : draw) (name type : string)
         (content : option string) (metadata : string) (c : ctx) (p : plugin)
         (payload : add_payload) (p1 : plugin) (calls : list call),
    metadata <> "" ->
    knowledge_add_entity d name type content (Some metadata) c p
    = (Returns payload, p1) ->
    (forall x, In x (entities (db (run normalize calls p1))) ->
               e_id x = ap_entityId payload -> e_metadata x = Some metadata)
    /\ (forall entityType depth c' n,
          In n (nodes (knowledge_graph entityType depth c' (run normalize calls p1))) ->
          n_id n = ap_entityId payload -> n_metadata n = Some metadata)
    /\ (exists n,
          In n (nodes (knowledge_graph None None c (run normalize calls p1)))
          /\ n_id n = ap_entityId payload /\ n_label n = name
          /\ n_metadata n = Some metadata)
    /\ (forall query type' limit c' found r,
          knowledge_search query type' limit c' (run normalize calls p1)
          = Returns found ->
          In r (sp_results found) ->
          map fst (search_result_object r)
          = ["id"; "type"; "name"; "content"; "updated"]).
Proof.
  intros normalize d name type content metadata c p payload p1 calls Hne Hadd.
  destruct (add_entity_returns _ _ _ _ _ _ _ _ _ Hadd) as [Hid [Hnew E1]].
  set (e := {| e_id := uuid d; e_type := type; e_name := name;
               e_content := content; e_metadata := or_null (Some metadata);
               e_project_path := projPath c;
               e_created_at := sql_now d; e_updated_at := sql_now d |}) in *.
  assert (Hmd : e_metadata e = Some metadata).
  { simpl. unfold or_null, truthy. apply String.eqb_neq in Hne. now rewrite Hne. }
  assert (Hlast : removelast (entities (db p1)) = entities (db p))
    by (rewrite E1; apply removelast_last).
  destruct (inserted_row_stays (db p1) (db (run normalize calls p1)) e) as [Hall Hex].
  { now rewrite Hlast. }
  { now rewrite Hlast. }
  { apply run_evolves. }
  assert (Hrows : forall x, In x (entities (db (run normalize calls p1))) ->
                            e_id x = ap_entityId payload -> e_metadata x = Some metadata).
  { intros x Hx Hx'. rewrite Hid in Hx'.
    destruct (frozen_columns x e (Hall x Hx Hx')) as [_ [_ [_ [Hm _]]]].
    now rewrite Hm. }
  split; [exact Hrows|]. split; [|split].
  - intros entityType depth c' n Hn Hnid.
    unfold knowledge_graph in Hn. cbn [nodes] in Hn.
    apply in_map_iff in Hn. destruct Hn as [x [<- Hx]].
    apply filter_In in Hx. destruct Hx as [Hx _]. now apply Hrows.
  - destruct Hex as [x [Hx Hfx]].
    destruct (frozen_columns x e Hfx) as [Hi [_ [Hn [Hm Hp]]]].
    exists (to_node x). split.
    + unfold knowledge_graph. cbn [nodes]. apply in_map, filter_In.
      split; [assumption|]. rewrite Hp. simpl. now rewrite String.eqb_refl.
    + simpl. rewrite Hid, Hi, Hn, Hm, Hmd. repeat split.
  - intros query type' limit c' found r _ _. reflexivity.
Qed.

Lemma metadata_kept_verbatim_for_graph_witness :
  exists n,
    In n (nodes (knowledge_graph None None ctx0
                   (run already_normal
                      [FileEdited draw2 "src/a.js";
                       SummarizeSession draw3 "Set up auth" "JWT" "[]" ctx0]
                      meta_plugin)))
    /\ n_id n = "11111111-1111-4111-8111-111111111111"
    /\ n_label n = "UserService"
    /\ n_metadata n = Some "[1]".
Proof.
  apply (proj1 (proj2 (proj2
    (metadata_kept_verbatim_for_graph already_normal draw1 "UserService" "component"
       (Some "Handles auth") "[1]" ctx0 (fresh ctx0)
       {| ap_success := true; ap_entityId := "11111111-1111-4111-8111-111111111111";
          ap_name := "UserService"; ap_type := "component" |}
       meta_plugin
       [FileEdited draw2 "src/a.js";
        SummarizeSession draw3 "Set up auth" "JWT" "[]" ctx0]
       ltac:(discriminate) eq_refl)))).
Defined.

(* ===================================================================== *)
(** * Further properties: entities and file capture                       *)
(* ===================================================================== *)

Section CaptureFacts.

Lemma find_last_only {A} (f : A -> bool) (l : list A) (x : A) :
  (forall y, In y l -> f y = false) -> f x = true ->
  find f (l ++ [x])%list = Some x.
Proof.
  intros Hl Hx. rewrite find_app_none by assumption. simpl. now rewrite Hx.
Qed.

Lemma entity_by_name_none project name d :
  entity_by_name project name d = None ->
  forall y, In y (entities d) ->
            (e_project_path y =? project) && (e_name y =? name) = false.
Proof. unfold entity_by_name. intros H y Hy. exact (find_none _ _ H y Hy). Qed.

Lemma eqb_length_differs (a b : string) :
  String.length a <> String.length b -> (a =? b) = false.
Proof. intros H. apply String.eqb_neq. intros ->. now apply H. Qed.

(** A suffix no longer than [q] is looked for in [q] alone. *)
Lemma endsWith_app_short p s q :
  String.length p <= String.length q -> endsWith p (s ++ q) = endsWith p q.
Proof.
  intros H. induction s as [|c s IH]; [reflexivity|].
  change (endsWith p (String c s ++ q))
    with ((String c (s ++ q) =? p) || endsWith p (s ++ q)).
  rewrite IH, eqb_length_differs; [reflexivity|].
  simpl. rewrite append_length. lia.
Qed.

Lemma endsWith_suffix p s : endsWith p s = true -> exists a, s = a ++ p.
Proof.
  induction s as [|c s IH]; intros H.
  - destruct p; [now exists "" | discriminate].
  - change ((String c s =? p) || endsWith p s = true) in H.
    apply orb_true_iff in H. destruct H as [H|H].
    + apply String.eqb_eq in H. subst p. now exists "".
    + destruct (IH H) as [a ->]. now exists (String c a).
Qed.

Lemma append_last_inj a b c d :
  a ++ String c "" = b ++ String d "" -> c = d.
Proof.
  revert b. induction a as [|x a IH]; intros [|y b] H; simpl in H.
  - now injection H.
  - injection H as _ H. now destruct b.
  - injection H as _ H. now destruct a.
  - injection H as _ H. now apply (IH b).
Qed.

(** A suffix is not found where the last characters differ. *)
Lemma endsWith_last_differs p q c d s :
  c <> d -> endsWith (p ++ String c "") (s ++ q ++ String d "") = false.
Proof.
  intros Hne. destruct (endsWith _ _) eqn:E; [|reflexivity].
  apply endsWith_suffix in E. destruct E as [a E].
  rewrite <- !append_assoc in E. apply append_last_inj in E. congruence.
Qed.

End CaptureFacts.

(** Two [addEntity] calls under the same name, with identifiers the
    store does not hold yet, leave two rows of that name at the end of the
    table, one per call; nothing is merged and no earlier row changes. *)
Theorem add_entity_twice_keeps_both :
  forall (d1 d2 : draw) (name type1 type2 : string)
         (content1 content2 metadata1 metadata2 : option string) (c : ctx) (p : plugin),
    ~ In (uuid d1) (ids (db p)) -> ~ In (uuid d2) (ids (db p)) ->
    uuid d1 <> uuid d2 ->
    entities (db (snd (knowledge_add_entity d2 name type2 content2 metadata2 c
                    (snd (knowledge_add_entity d1 name type1 content1 metadata1 c p)))))
    = (entities (db p)
       ++ [ {| e_id := uuid d1; e_type := type1; e_name := name;
               e_content := content1; e_metadata := or_null metadata1;
               e_project_path := projPath c;
               e_created_at := sql_now d1; e_updated_at := sql_now d1 |};
            {| e_id := uuid d2; e_type := type2; e_name := name;
               e_content := content2; e_metadata := or_null metadata2;
               e_project_path := projPath c;
               e_created_at := sql_now d2; e_updated_at := sql_now d2 |} ])%list.
Proof.
  intros d1 d2 name type1 type2 content1 content2 metadata1 metadata2 c p H1 H2 Hne.
  apply has_entity_not_In in H1. apply has_entity_not_In in H2.
  unfold knowledge_add_entity at 2. unfold insert_entity. simpl. rewrite H1. simpl.
  unfold knowledge_add_entity, insert_entity. simpl.
  unfold has_entity in *. simpl. rewrite existsb_app, H2. simpl.
  apply String.eqb_neq in Hne. rewrite Hne. simpl.
  now rewrite <- app_assoc.
Qed.

Lemma add_entity_twice_keeps_both_witness :
  map e_name (entities (db (snd (knowledge_add_entity draw2 "Cache" "component"
      (Some "Redis") None ctx0
      (snd (knowledge_add_entity draw1 "Cache" "concept" None None ctx0 (fresh ctx0)))))))
  = ["Cache"; "Cache"].
Proof.
  rewrite (add_entity_twice_keeps_both draw1 draw2 "Cache" "concept" "component"
             None (Some "Redis") None None ctx0 (fresh ctx0)).
  - reflexivity.
  - intros [].
  - intros [].
  - vm_compute. discriminate.
Defined.



(** Reading is idempotent: after a [read] event that returned, the same
    event again, whatever it draws, returns and changes nothing. *)
Theorem read_capture_idempotent :
  forall (normalize : string -> string) (draws draws' : nat -> draw)
         (input : tool_input) (result : option string) (p p1 : plugin),
    tool input = "read" ->
    tool_execute_after normalize draws input result p = (Returns tt, p1) ->
    tool_execute_after normalize draws' input result p1 = (Returns tt, p1).
Proof.
  intros normalize draws draws' input result p p1 Ht.
  unfold tool_execute_after, capture_read, capture_bash. rewrite Ht. simpl.
  destruct result as [text|]; simpl; [|now intros [= <-]].
  destruct (text =? "") eqn:Etx; simpl; [now intros [= <-]|].
  destruct (match args input with Some a => filePath a | None => None end)
    as [path|]; [|now intros [= <-]].
  simpl. destruct (path =? "") eqn:Ep; simpl; [now intros [= <-]|].
  destruct (entity_by_name (projectPath p) (normalize path) (db p)) as [e|] eqn:En.
  - intros [= <-]. now rewrite En.
  - unfold insert_entity. simpl.
    destruct (has_entity (uuid (draws 0)) (db p)); simpl; [discriminate|].
    intros [= <-]. simpl.
    unfold entity_by_name at 1. simpl.
    rewrite find_last_only; [reflexivity | now apply entity_by_name_none |].
    simpl. now rewrite !String.eqb_refl.
Qed.

Lemma read_capture_idempotent_witness :
  tool_execute_after already_normal (fun _ => draw3) read_input (Some "export {}")
    (snd (tool_execute_after already_normal (fun _ => draw2) read_input
            (Some "export {}") (fresh ctx0)))
  = (Returns tt,
     snd (tool_execute_after already_normal (fun _ => draw2) read_input
            (Some "export {}") (fresh ctx0))).
Proof.
  apply (read_capture_idempotent already_normal (fun _ => draw2) (fun _ => draw3)
           read_input (Some "export {}") (fresh ctx0)); reflexivity.
Defined.

(** The type of a captured file follows the end of its path, whatever
    comes before: [.ts] and [.tsx] give [typescript], [.js] and [.jsx]
    give [javascript], [.json] gives [config] (and not [javascript]), and
    the test is case-sensitive: [.TS] and [.md] give [file]. *)
Theorem file_type_by_extension :
  forall stem : string,
    file_type (stem ++ ".ts") = "typescript"
    /\ file_type (stem ++ ".tsx") = "typescript"
    /\ file_type (stem ++ ".js") = "javascript"
    /\ file_type (stem ++ ".jsx") = "javascript"
    /\ file_type (stem ++ ".json") = "config"
    /\ file_type (stem ++ ".TS") = "file"
    /\ file_type (stem ++ ".md") = "file".
Proof.
  intros stem. unfold file_type.
  pose proof (endsWith_last_differs ".ts" ".j" "x" "s" stem ltac:(discriminate)) as T1.
  pose proof (endsWith_last_differs ".ts" ".T" "x" "S" stem ltac:(discriminate)) as T2.
  pose proof (endsWith_last_differs ".js" ".T" "x" "S" stem ltac:(discriminate)) as T3.
  pose proof (endsWith_last_differs ".jso" ".T" "n" "S" stem ltac:(discriminate)) as T4.
  pose proof (endsWith_last_differs ".ts" ".m" "x" "d" stem ltac:(discriminate)) as T5.
  pose proof (endsWith_last_differs ".js" ".m" "x" "d" stem ltac:(discriminate)) as T6.
  pose proof (endsWith_last_differs ".jso" ".m" "n" "d" stem ltac:(discriminate)) as T7.
  cbn [append] in T1, T2, T3, T4, T5, T6, T7.
  repeat split;
    rewrite ?T1, ?T2, ?T3, ?T4, ?T5, ?T6, ?T7;
    rewrite ?endsWith_app_short by (simpl; lia); reflexivity.
Qed.

(** ["file.edited"] writes nothing but [updated_at]: the entities keep
    their number, order and every other column, the other tables and the
    current session are untouched; the rows under the id of the first
    entity of that name in the plugin's project get the time of the
    event, every row under another id stays as it is, and without such an
    entity nothing changes at all. *)
Theorem file_edited_touches_timestamp_only :
  forall (normalize : string -> string) (d : draw) (path : string) (p : plugin),
    map frozen (entities (db (file_edited normalize d path p)))
    = map frozen (entities (db p))
    /\ relationships (db (file_edited normalize d path p)) = relationships (db p)
    /\ sessions (db (file_edited normalize d path p)) = sessions (db p)
    /\ queries (db (file_edited normalize d path p)) = queries (db p)
    /\ currentSessionId (file_edited normalize d path p) = currentSessionId p
    /\ (forall e,
          entity_by_name (projectPath p) (normalize path) (db p) = Some e ->
          entities (db (file_edited normalize d path p))
          = map (fun x => if e_id x =? e_id e then touch (sql_now d) x else x)
                (entities (db p)))
    /\ (entity_by_name (projectPath p) (normalize path) (db p) = None ->
        file_edited normalize d path p = p).
Proof.
  intros normalize d path p. unfold file_edited.
  destruct (entity_by_name (projectPath p) (normalize path) (db p)) as [e|] eqn:E.
  - simpl. repeat split; trivial.
    + rewrite map_map. apply map_ext. intros x. now destruct (e_id x =? e_id e).
    + intros e0 [= <-]. reflexivity.
    + discriminate.
  - repeat split; trivial. discriminate.
Qed.

(* ===================================================================== *)
(** * Further properties: the session life cycle                          *)
(* ===================================================================== *)

Section LifecycleFacts.

Lemma find_map_kept {A} (f : A -> bool) (g : A -> A) (l : list A) :
  (forall x, f (g x) = f x) -> find f (map g l) = option_map g (find f l).
Proof.
  intros H. induction l as [|x l IH]; simpl; [reflexivity|].
  rewrite H. now destruct (f x).
Qed.

Lemma session_by_id_end id now d :
  session_by_id id (end_session id now d)
  = option_map (stamp_end now) (session_by_id id d).
Proof.
  unfold session_by_id, end_session. simpl.
  rewrite find_map_kept
    by (intros x; destruct (s_id x =? id) eqn:E; simpl; exact E).
  destruct (find (fun s => s_id s =? id) (sessions d)) as [s|] eqn:E; [|reflexivity].
  simpl. apply find_some in E. destruct E as [_ E]. now rewrite E.
Qed.

Lemma has_session_find id d :
  has_session id d = true ->
  exists s, session_by_id id d = Some s /\ s_id s = id.
Proof.
  unfold has_session, session_by_id. intros H.
  destruct (find (fun s => s_id s =? id) (sessions d)) as [s|] eqn:E.
  - exists s. split; [reflexivity|]. apply find_some in E.
    now apply String.eqb_eq.
  - apply existsb_exists in H. destruct H as [s [Hs Hid]].
    now rewrite (find_none _ _ E s Hs) in Hid.
Qed.

(** The row a lookup by id finds after a summarize call. *)
Lemma session_by_id_after_summarize d summary decisions files c p :
  exists row,
    session_by_id (or_else (currentSessionId p) (uuid d))
      (db (snd (knowledge_summarize_session d summary decisions files c p)))
    = Some row
    /\ s_id row = or_else (currentSessionId p) (uuid d)
    /\ s_summary row = Some summary /\ s_key_decisions row = Some decisions
    /\ s_files_modified row = Some files.
Proof.
  set (id := or_else (currentSessionId p) (uuid d)).
  destruct (has_session id (db p)) eqn:E.
  - destruct (has_session_find id (db p) E) as [s [Hs Hid]].
    unfold session_by_id in *.
    rewrite (summarize_on_conflict d summary decisions files c p E). fold id.
    rewrite find_map_kept
      by (intros x; destruct (s_id x =? id) eqn:E0; simpl; exact E0).
    rewrite Hs. simpl. rewrite Hid, String.eqb_refl.
    eexists. split; [reflexivity|]. simpl. auto.
  - unfold session_by_id.
    rewrite (summarize_first d summary decisions files c p E). fold id.
    rewrite find_last_only.
    + eexists. split; [reflexivity|]. simpl. auto.
    + now apply has_session_false.
    + simpl. apply String.eqb_refl.
Qed.

Lemma map_throwing_Forall2 {A B} (f : A -> outcome B) (l : list A) (ys : list B) :
  map_throwing f l = Returns ys -> Forall2 (fun x y => f x = Returns y) l ys.
Proof.
  revert ys. induction l as [|x l IH]; intros ys; simpl.
  - intros [= <-]. constructor.
  - destruct (f x) as [y|e] eqn:E; [|discriminate].
    destruct (map_throwing f l) as [zs|e]; [|discriminate].
    intros [= <-]. constructor; [assumption | now apply IH].
Qed.

Lemma last_cons {A} (a : A) (l : list A) (d : A) : last (a :: l) d = last l a.
Proof.
  revert a d. induction l as [|b l IH]; intros a d; [reflexivity|].
  change (last (a :: b :: l) d) with (last (b :: l) d).
  now rewrite !IH.
Qed.

Lemma to_item_returns s it :
  to_item s = Returns it ->
  si_id it = s_id s /\ si_startTime it = s_start_time s
  /\ si_endTime it = s_end_time s /\ si_summary it = s_summary s
  /\ si_keyDecisions it = s_key_decisions s
  /\ files_of s = Returns (si_filesModified it).
Proof.
  unfold to_item. destruct (files_of s) as [v|e]; [|discriminate].
  intros [= <-]. simpl. repeat split; reflexivity.
Qed.

Lemma session_deleted_rows d output p id :
  currentSessionId p = Some id -> id <> "" ->
  sessions (db (snd (session_deleted d output p)))
  = map (fun s => if s_id s =? id then stamp_end (sql_now d) s else s)
        (sessions (db p))
  /\ currentSessionId (snd (session_deleted d output p)) = Some id.
Proof.
  intros Hc Hne. unfold session_deleted. rewrite Hc.
  apply String.eqb_neq in Hne. simpl. rewrite Hne. simpl. now split.
Qed.

Lemma listing_rows_items limit c p payload :
  knowledge_sessions limit c p = Returns payload ->
  exists n,
    sqlite_integer (or_ten limit) n
    /\ ss_count payload = List.length (session_rows n c p)
    /\ Forall2 (fun s it => to_item s = Returns it)
               (session_rows n c p) (ss_sessions payload).
Proof.
  unfold knowledge_sessions.
  destruct (Sql.must_be_int (or_ten limit)) as [n|e0] eqn:En; [|discriminate].
  apply must_be_int_returns in En.
  destruct (map_throwing to_item (session_rows n c p)) as [items|e] eqn:E;
    [|discriminate].
  intros [= <-]. simpl. exists n. split; [assumption|]. split; [reflexivity|].
  now apply map_throwing_Forall2.
Qed.

Lemma to_item_files s it :
  to_item s = Returns it ->
  match s_files_modified s with
  | Some text =>
      if text =? "" then si_filesModified it = JArray []
      else Json.parse text = Some (si_filesModified it)
  | None => si_filesModified it = JArray []
  end.
Proof.
  intros H. apply to_item_returns in H.
  destruct H as [_ [_ [_ [_ [_ Hf]]]]].
  unfold files_of in Hf. destruct (s_files_modified s) as [text|].
  - simpl in Hf. destruct (text =? ""); simpl in Hf.
    + now injection Hf.
    + destruct (Json.parse text); [now injection Hf as -> | discriminate].
  - now injection Hf.
Qed.

End LifecycleFacts.

(** ["session.deleted"] with a current session: the rows of that id get
    the time of the event as [end_time] and no other column of any table
    changes.  The current session id is kept, not cleared. *)
Theorem session_deleted_stamps_end_time :
  forall (d : draw) (output : deleted_output) (p : plugin) (id : string),
    currentSessionId p = Some id -> id <> "" ->
    sessions (db (snd (session_deleted d output p)))
    = map (fun s => if s_id s =? id then stamp_end (sql_now d) s else s)
          (sessions (db p))
    /\ entities (db (snd (session_deleted d output p))) = entities (db p)
    /\ relationships (db (snd (session_deleted d output p))) = relationships (db p)
    /\ queries (db (snd (session_deleted d output p))) = queries (db p)
    /\ currentSessionId (snd (session_deleted d output p)) = Some id.
Proof.
  intros d output p id Hc Hne. unfold session_deleted. rewrite Hc.
  apply String.eqb_neq in Hne. simpl. rewrite Hne. simpl.
  repeat split; assumption.
Qed.

Lemma session_deleted_stamps_end_time_witness :
  map s_end_time
      (sessions (db (snd (session_deleted draw3 no_output (one_summary "[]")))))
  = [Some "2024-01-03 00:00:00"].
Proof.
  rewrite (proj1 (session_deleted_stamps_end_time draw3 no_output (one_summary "[]")
                    "11111111-1111-4111-8111-111111111111" eq_refl
                    ltac:(discriminate))).
  reflexivity.
Defined.

(** What ["session.deleted"] does to [output].  It is left as it came
    when there is no current session, no row for it, no context text, a
    context that is not JSON, or a context that is the JSON [null].  For
    any other parsed context both properties are assigned, from the
    members of an object and as [undefined] from any other value. *)
Theorem session_deleted_output :
  forall (d : draw) (output : deleted_output) (p : plugin),
    (forall id s text v,
        currentSessionId p = Some id -> id <> "" ->
        session_by_id id (db p) = Some s ->
        s_context s = Some text -> text <> "" ->
        Json.parse text = Some v -> v <> JNull ->
        fst (session_deleted d output p)
        = {| out_summary := match v with
                            | JObject ms => Json.member "summary" ms
                            | _ => None
                            end;
             out_decisions := match v with
                              | JObject ms => Json.member "decisions" ms
                              | _ => None
                              end |})
    /\ (match currentSessionId p with
        | Some id =>
            id = ""
            \/ match session_by_id id (db p) with
               | Some s =>
                   match s_context s with
                   | Some text =>
                       text = "" \/ Json.parse text = None
                       \/ Json.parse text = Some JNull
                   | None => True
                   end
               | None => True
               end
        | None => True
        end ->
        fst (session_deleted d output p) = output).
Proof.
  intros d output p. split.
  - intros id s text v Hc Hne Hs Hctx Htx Hp Hv.
    unfold session_deleted. rewrite Hc.
    apply String.eqb_neq in Hne. apply String.eqb_neq in Htx.
    simpl. rewrite Hne. simpl.
    rewrite session_by_id_end, Hs. simpl. rewrite Hctx. simpl. rewrite Htx, Hp.
    simpl. destruct v; try reflexivity. now contradiction Hv.
  - unfold session_deleted.
    destruct (currentSessionId p) as [id|]; [|reflexivity].
    simpl. destruct (id =? "") eqn:Eid; [reflexivity|]. simpl.
    intros [H|H]; [apply String.eqb_neq in Eid; contradiction|].
    rewrite session_by_id_end.
    destruct (session_by_id id (db p)) as [s|]; [|reflexivity]. simpl.
    destruct (s_context s) as [text|]; [|reflexivity]. simpl.
    destruct (text =? "") eqn:Etx; [reflexivity|]. simpl.
    destruct H as [H|[H|H]].
    + apply String.eqb_neq in Etx. contradiction.
    + now rewrite H.
    + now rewrite H.
Qed.

Lemma session_deleted_output_witness :
  fst (session_deleted draw3 no_output (session_created draw1 (fresh ctx0))) = no_output
  /\ fst (session_deleted draw3 no_output (one_summary "[1]"))
     = {| out_summary := Some (JString "Set up auth");
          out_decisions := Some (JString "JWT") |}.
Proof.
  split.
  - apply (proj2 (session_deleted_output draw3 no_output
                    (session_created draw1 (fresh ctx0)))).
    simpl. right. exact I.
  - apply (proj1 (session_deleted_output draw3 no_output (one_summary "[1]"))
             "11111111-1111-4111-8111-111111111111"
             {| s_id := "11111111-1111-4111-8111-111111111111";
                s_project_path := "/proj"; s_start_time := "2024-01-01 00:00:00";
                s_end_time := None; s_summary := Some "Set up auth";
                s_key_decisions := Some "JWT"; s_files_modified := Some "[1]";
                s_context := Some (context_of "Set up auth" "JWT") |}
             (context_of "Set up auth" "JWT")
             (JObject [("summary", JString "Set up auth");
                       ("decisions", JString "JWT")])).
    + reflexivity.
    + discriminate.
    + reflexivity.
    + reflexivity.
    + discriminate.
    + vm_compute. reflexivity.
    + discriminate.
Defined.

(** After a [summarizeSession] call, ["session.compacted"] pushes the
    summary and the decisions of that call, or the two fallback texts
    where the call passed empty strings; this holds whether the call
    created the row or updated it. *)
Theorem compacted_after_summarize :
  forall (d : draw) (summary decisions files : string) (c : ctx) (p : plugin),
    session_compacted (snd (knowledge_summarize_session d summary decisions files c p))
    = [ "## Previous Session Summary" ++ String newline ""
          ++ (if summary =? "" then "No summary available" else summary);
        "## Key Decisions" ++ String newline ""
          ++ (if decisions =? "" then "No decisions recorded" else decisions) ].
Proof.
  intros d summary decisions files c p.
  destruct (session_by_id_after_summarize d summary decisions files c p)
    as [row [Hrow [_ [Hs [Hk _]]]]].
  unfold session_compacted. rewrite summarize_current.
  change (mp_sessionId (fst (knowledge_summarize_session d summary decisions files c p)))
    with (or_else (currentSessionId p) (uuid d)).
  rewrite Hrow, Hs, Hk. reflexivity.
Qed.

(** One session, any number of summaries: after ["session.created"]
    under an id without a row, one or more [summarizeSession] calls leave
    exactly one more row.  It keeps the project, start time and context
    of the first call and holds the summary, decisions and files of the
    last one; the current id is still the one created. *)
Theorem repeated_summaries_keep_one_row :
  forall (d0 : draw) (first : summarize_args) (rest : list summarize_args) (p : plugin),
    uuid d0 <> "" -> has_session (uuid d0) (db p) = false ->
    sessions (db (fold_left (fun q a => summarize_with a q) rest
                    (summarize_with first (session_created d0 p))))
    = (sessions (db p)
       ++ [ {| s_id := uuid d0;
               s_project_path := projPath (sa_ctx first);
               s_start_time := sql_now (sa_draw first);
               s_end_time := None;
               s_summary := Some (sa_summary (last rest first));
               s_key_decisions := Some (sa_decisions (last rest first));
               s_files_modified := Some (sa_files (last rest first));
               s_context :=
                 Some (context_of (sa_summary first) (sa_decisions first)) |} ])%list
    /\ currentSessionId (fold_left (fun q a => summarize_with a q) rest
                           (summarize_with first (session_created d0 p)))
       = Some (uuid d0).
Proof.
  intros d0 first rest p Hne Hnew.
  set (mk := fun cur : summarize_args =>
               {| s_id := uuid d0;
                  s_project_path := projPath (sa_ctx first);
                  s_start_time := sql_now (sa_draw first);
                  s_end_time := None;
                  s_summary := Some (sa_summary cur);
                  s_key_decisions := Some (sa_decisions cur);
                  s_files_modified := Some (sa_files cur);
                  s_context :=
                    Some (context_of (sa_summary first) (sa_decisions first)) |}).
  assert (Hold : forall s, In s (sessions (db p)) -> (s_id s =? uuid d0) = false)
    by now apply has_session_false.
  assert (Hstep : forall q cur a,
             currentSessionId q = Some (uuid d0) ->
             sessions (db q) = (sessions (db p) ++ [mk cur])%list ->
             currentSessionId (summarize_with a q) = Some (uuid d0)
             /\ sessions (db (summarize_with a q)) = (sessions (db p) ++ [mk a])%list).
  { intros q cur a Hc Hs. unfold summarize_with.
    assert (Hid : or_else (currentSessionId q) (uuid (sa_draw a)) = uuid d0)
      by (rewrite Hc; now apply or_else_some).
    split.
    - rewrite summarize_current. simpl. now rewrite Hid.
    - rewrite summarize_on_conflict.
      + rewrite Hid, Hs, map_app. simpl. rewrite String.eqb_refl. f_equal.
        apply map_unchanged. intros s Hin. now rewrite (Hold s Hin).
      + rewrite Hid. unfold has_session. rewrite Hs, existsb_app. simpl.
        rewrite String.eqb_refl. now rewrite orb_true_r. }
  assert (Hfirst : currentSessionId (summarize_with first (session_created d0 p))
                   = Some (uuid d0)
                   /\ sessions (db (summarize_with first (session_created d0 p)))
                      = (sessions (db p) ++ [mk first])%list).
  { unfold summarize_with. split.
    - rewrite summarize_current. simpl. apply String.eqb_neq in Hne. now rewrite Hne.
    - rewrite summarize_first.
      + simpl. apply String.eqb_neq in Hne. now rewrite Hne.
      + simpl. apply String.eqb_neq in Hne. now rewrite Hne. }
  assert (Hgen : forall rest' cur q,
             currentSessionId q = Some (uuid d0) ->
             sessions (db q) = (sessions (db p) ++ [mk cur])%list ->
             sessions (db (fold_left (fun q a => summarize_with a q) rest' q))
             = (sessions (db p) ++ [mk (last rest' cur)])%list
             /\ currentSessionId (fold_left (fun q a => summarize_with a q) rest' q)
                = Some (uuid d0)).
  { induction rest' as [|a rest' IH]; intros cur q Hc Hs.
    - simpl. split; assumption.
    - destruct (Hstep q cur a Hc Hs) as [Hc' Hs'].
      destruct (IH a (summarize_with a q) Hc' Hs') as [E1 E2].
      simpl fold_left. split; [|exact E2]. now rewrite E1, last_cons. }
  destruct Hfirst as [Hc Hs]. exact (Hgen rest first _ Hc Hs).
Qed.

Lemma repeated_summaries_keep_one_row_witness :
  map s_summary
      (sessions (db (fold_left (fun q a => summarize_with a q)
         [ {| sa_draw := draw3; sa_summary := "Added tokens"; sa_decisions := "bcrypt";
              sa_files := "[]"; sa_ctx := ctx0 |} ]
         (summarize_with
            {| sa_draw := draw2; sa_summary := "Set up auth"; sa_decisions := "JWT";
               sa_files := "[1]"; sa_ctx := ctx0 |}
            (session_created draw1 (fresh ctx0))))))
  = [Some "Added tokens"].
Proof.
  rewrite (proj1 (repeated_summaries_keep_one_row draw1
             {| sa_draw := draw2; sa_summary := "Set up auth"; sa_decisions := "JWT";
                sa_files := "[1]"; sa_ctx := ctx0 |}
             [ {| sa_draw := draw3; sa_summary := "Added tokens";
                  sa_decisions := "bcrypt"; sa_files := "[]"; sa_ctx := ctx0 |} ]
             (fresh ctx0) ltac:(discriminate) eq_refl)).
  reflexivity.
Defined.

(** The ended session stays current.  A [summarizeSession] call that
    follows ["session.deleted"] mints no new session: it rewrites the
    summary, decisions and files of the ended session's row, which keeps
    its [end_time], and the table keeps its size. *)
Theorem summarize_after_deleted_reuses_row :
  forall (d1 d2 : draw) (output : deleted_output)
         (summary decisions files : string) (c : ctx) (p : plugin) (id : string),
    currentSessionId p = Some id -> id <> "" -> has_session id (db p) = true ->
    let p2 := snd (knowledge_summarize_session d2 summary decisions files c
                     (snd (session_deleted d1 output p))) in
    currentSessionId p2 = Some id
    /\ List.length (sessions (db p2)) = List.length (sessions (db p))
    /\ (exists s, In s (sessions (db p2)) /\ s_id s = id)
    /\ (forall s, In s (sessions (db p2)) -> s_id s = id ->
          s_end_time s = Some (sql_now d1)
          /\ s_summary s = Some summary /\ s_key_decisions s = Some decisions
          /\ s_files_modified s = Some files).
Proof.
  intros d1 d2 output summary decisions files c p id Hc Hne Hhas p2.
  destruct (session_deleted_rows d1 output p id Hc Hne) as [Hs Hc1].
  set (p1 := snd (session_deleted d1 output p)) in *.
  assert (Hid : or_else (currentSessionId p1) (uuid d2) = id)
    by (rewrite Hc1; now apply or_else_some).
  assert (Hhas1 : has_session (or_else (currentSessionId p1) (uuid d2)) (db p1) = true).
  { rewrite Hid. unfold has_session in *. rewrite Hs.
    apply existsb_exists in Hhas. destruct Hhas as [s [Hin E]].
    apply existsb_exists. exists (stamp_end (sql_now d1) s). split; [|exact E].
    apply in_map_iff. exists s. now rewrite E. }
  pose proof (summarize_on_conflict d2 summary decisions files c p1 Hhas1) as E2.
  fold p2 in E2. rewrite Hid in E2.
  split; [|split; [|split]].
  - unfold p2. rewrite summarize_current. simpl. now rewrite Hid.
  - now rewrite E2, Hs, !length_map.
  - apply has_session_true. rewrite <- Hid. unfold p2.
    apply (summarize_has_session d2 summary decisions files c p1).
  - intros s Hin Hsid. rewrite E2, Hs in Hin.
    apply in_map_iff in Hin. destruct Hin as [s1 [<- Hin]].
    apply in_map_iff in Hin. destruct Hin as [s0 [<- _]].
    destruct (s_id s0 =? id) eqn:E0.
    + simpl. rewrite E0. simpl. auto.
    + rewrite E0 in Hsid |- *. apply String.eqb_neq in E0. contradiction.
Qed.

Lemma summarize_after_deleted_reuses_row_witness :
  List.length
    (sessions (db (snd (knowledge_summarize_session draw2 "Wrap up" "none" "[]" ctx0
                          (snd (session_deleted draw3 no_output (one_summary "[]")))))))
  = List.length (sessions (db (one_summary "[]"))).
Proof.
  apply (proj1 (proj2 (summarize_after_deleted_reuses_row draw3 draw2 no_output
           "Wrap up" "none" "[]" ctx0 (one_summary "[]")
           "11111111-1111-4111-8111-111111111111"
           eq_refl ltac:(discriminate) eq_refl))).
Defined.

(** The payload of [listSessions], when the call returns: the limit
    was an integer SQLite takes; the count is the number of items, at
    most [limit] when [limit] is not negative; the items are the selected
    rows in order, start times descending, all of the project scope, each
    with the columns of its row and the parsed files list, which is empty
    for a row without files text. *)
Theorem sessions_listing_shape :
  forall (limit : option js_number) (c : ctx) (p : plugin) (payload : sessions_payload),
    knowledge_sessions limit c p = Returns payload ->
    exists n,
      sqlite_integer (or_ten limit) n
      /\ ss_count payload = List.length (ss_sessions payload)
      /\ ((0 <= n)%Z -> (Z.of_nat (ss_count payload) <= n)%Z)
      /\ descending (map si_startTime (ss_sessions payload))
      /\ Forall2
           (fun s it =>
              In s (sessions (db p)) /\ s_project_path s = projPath c
              /\ si_id it = s_id s /\ si_startTime it = s_start_time s
              /\ si_endTime it = s_end_time s /\ si_summary it = s_summary s
              /\ si_keyDecisions it = s_key_decisions s
              /\ match s_files_modified s with
                 | Some text =>
                     if text =? "" then si_filesModified it = JArray []
                     else Json.parse text = Some (si_filesModified it)
                 | None => si_filesModified it = JArray []
                 end)
           (session_rows n c p) (ss_sessions payload).
Proof.
  intros limit c p payload H.
  destruct (listing_rows_items _ _ _ _ H) as [n [Hn [Hc E]]].
  exists n. split; [assumption|].
  assert (Hlen : List.length (ss_sessions payload)
                 = List.length (session_rows n c p))
    by (symmetry; eapply Forall2_length; exact E).
  assert (Hstart : map si_startTime (ss_sessions payload)
                   = map s_start_time (session_rows n c p)).
  { clear Hlen Hc. induction E as [|s it l l' Hi _ IH]; [reflexivity|].
    simpl. apply to_item_returns in Hi. destruct Hi as [_ [-> _]]. now rewrite IH. }
  split; [congruence|]. split; [|split].
  - intros Hb. rewrite Hc. unfold session_rows. now apply limit_length.
  - rewrite Hstart. unfold session_rows.
    apply (sorted_map_key _ s_start_time), limit_sorted, order_by_desc_sorted.
  - assert (Hin : forall s, In s (session_rows n c p) ->
                            In s (sessions (db p)) /\ s_project_path s = projPath c)
      by (intros s; apply session_rows_In).
    revert Hin. clear Hlen Hstart Hc.
    induction E as [|s it l l' Hi _ IH]; intros Hin; constructor.
    + destruct (Hin s (or_introl eq_refl)) as [H1 H2].
      pose proof (to_item_files _ _ Hi) as Hf.
      apply to_item_returns in Hi.
      destruct Hi as [Hi [Hst [He [Hsu [Hk _]]]]].
      repeat split; trivial.
    + apply IH. intros x Hx. apply Hin. now right.
Qed.

Lemma sessions_listing_shape_witness :
  List.length (sessions (db three_sessions)) = 3
  /\ exists n,
       sqlite_integer (Integral 2) n
       /\ 2 = 2
       /\ ((0 <= n)%Z -> (Z.of_nat 2 <= n)%Z)
       /\ descending ["2024-01-03 00:00:00"; "2024-01-02 00:00:00"]
       /\ Forall2
            (fun s it =>
               In s (sessions (db three_sessions)) /\ s_project_path s = "/proj"
               /\ si_id it = s_id s /\ si_startTime it = s_start_time s
               /\ si_endTime it = s_end_time s /\ si_summary it = s_summary s
               /\ si_keyDecisions it = s_key_decisions s
               /\ match s_files_modified s with
                  | Some text =>
                      if text =? "" then si_filesModified it = JArray []
                      else Json.parse text = Some (si_filesModified it)
                  | None => si_filesModified it = JArray []
                  end)
            (session_rows n ctx0 three_sessions) two_latest.
Proof.
  split; [reflexivity|].
  exact (sessions_listing_shape (Some (Integral 2)) ctx0 three_sessions
           {| ss_count := 2; ss_sessions := two_latest |} eq_refl).
Defined.

(** Summaries come back through the listing: in every listing that
    returns after a [summarizeSession] call, each item under the session
    id of that call shows its summary and decisions, and as files the
    parsed value of its files string, the empty list for the empty
    string. *)
Theorem listing_shows_last_summary :
  forall (d : draw) (summary decisions files : string) (c c' : ctx) (p : plugin)
         (limit : option js_number) (payload : sessions_payload) (it : session_item),
    knowledge_sessions limit c'
      (snd (knowledge_summarize_session d summary decisions files c p))
    = Returns payload ->
    In it (ss_sessions payload) ->
    si_id it = mp_sessionId (fst (knowledge_summarize_session d summary decisions files c p)) ->
    si_summary it = Some summary /\ si_keyDecisions it = Some decisions
    /\ (if files =? "" then si_filesModified it = JArray []
        else Json.parse files = Some (si_filesModified it)).
Proof.
  intros d summary decisions files c c' p limit payload it Hl Hin Hid.
  destruct (listing_rows_items _ _ _ _ Hl) as [n [_ [_ HF]]].
  assert (Hex : exists s,
             In s (sessions (db (snd (knowledge_summarize_session d summary decisions
                                        files c p))))
             /\ si_id it = s_id s /\ si_summary it = s_summary s
             /\ si_keyDecisions it = s_key_decisions s
             /\ match s_files_modified s with
                | Some text =>
                    if text =? "" then si_filesModified it = JArray []
                    else Json.parse text = Some (si_filesModified it)
                | None => si_filesModified it = JArray []
                end).
  { assert (Hrow : exists s, In s (session_rows n c'
                                 (snd (knowledge_summarize_session d summary decisions
                                         files c p)))
                             /\ to_item s = Returns it).
    { revert Hin. clear Hl Hid.
      induction HF as [|s x l l' H _ IH]; intros Hin; [destruct Hin|].
      destruct Hin as [->|Hin].
      - exists s. split; [now left | exact H].
      - destruct (IH Hin) as [s' [H1 H2]]. exists s'. split; [now right | exact H2]. }
    destruct Hrow as [s [Hs H]]. exists s.
    apply session_rows_In in Hs. destruct Hs as [Hs _].
    pose proof (to_item_files _ _ H) as Hf.
    apply to_item_returns in H. destruct H as [Hi [_ [_ [Hsu [Hk _]]]]].
    repeat split; assumption. }
  destruct Hex as [s [Hs [Hi [Hsu [Hk Hf]]]]].
  rewrite Hi in Hid.
  rewrite (summarize_stores_files d summary decisions files c p s Hs Hid) in Hf.
  change (mp_sessionId (fst (knowledge_summarize_session d summary decisions files c p)))
    with (or_else (currentSessionId p) (uuid d)) in Hid.
  assert (Hcols : s_summary s = Some summary /\ s_key_decisions s = Some decisions).
  { destruct (has_session (or_else (currentSessionId p) (uuid d)) (db p)) eqn:E.
    - rewrite (summarize_on_conflict d summary decisions files c p E) in Hs.
      apply in_map_iff in Hs. destruct Hs as [s0 [<- _]].
      destruct (s_id s0 =? or_else (currentSessionId p) (uuid d)) eqn:E0.
      + simpl. auto.
      + apply String.eqb_neq in E0. contradiction.
    - rewrite (summarize_first d summary decisions files c p E) in Hs.
      apply in_app_or in Hs. destruct Hs as [Hs|[<-|[]]]; [|simpl; auto].
      apply (proj1 (has_session_false _ _) E) in Hs.
      apply String.eqb_neq in Hs. contradiction. }
  destruct Hcols as [H1 H2]. rewrite Hsu, Hk, H1, H2. auto.
Qed.

Lemma listing_shows_last_summary_witness :
  Json.parse "[1]"
  = Some (si_filesModified
            {| si_id := "11111111-1111-4111-8111-111111111111";
            si_startTime := "2024-01-01 00:00:00"; si_endTime := None;
            si_summary := Some "Set up auth"; si_keyDecisions := Some "JWT";
            si_filesModified := JArray [JNumber "1"] |}).
Proof.
  apply (proj2 (proj2 (listing_shows_last_summary draw1 "Set up auth" "JWT" "[1]"
           ctx0 ctx0 (session_created draw1 (fresh ctx0)) None
           {| ss_count := 1;
              ss_sessions :=
                [ {| si_id := "11111111-1111-4111-8111-111111111111";
            si_startTime := "2024-01-01 00:00:00"; si_endTime := None;
            si_summary := Some "Set up auth"; si_keyDecisions := Some "JWT";
            si_filesModified := JArray [JNumber "1"] |} ] |}
           {| si_id := "11111111-1111-4111-8111-111111111111";
            si_startTime := "2024-01-01 00:00:00"; si_endTime := None;
            si_summary := Some "Set up auth"; si_keyDecisions := Some "JWT";
            si_filesModified := JArray [JNumber "1"] |}
           ltac:(vm_compute; reflexivity) ltac:(left; reflexivity) eq_refl))).
Defined.

(* ===================================================================== *)
(** * Further properties: search                                          *)
(* ===================================================================== *)

Section MoreSearchFacts.

Lemma upcase_app a b : upcase (a ++ b) = upcase a ++ upcase b.
Proof. induction a as [|x a IH]; simpl; [reflexivity | now rewrite IH]. Qed.

Lemma upcase_length s : String.length (upcase s) = String.length s.
Proof. induction s as [|x s IH]; simpl; [reflexivity | now rewrite IH]. Qed.

Lemma filter_andb {A} (f g : A -> bool) (l : list A) :
  filter (fun x => f x && g x) l = filter g (filter f l).
Proof.
  induction l as [|x l IH]; simpl; [reflexivity|].
  destruct (f x); simpl; [destruct (g x)|]; now rewrite IH.
Qed.

(** [LIKE] does not see the ASCII case of the query it is built from. *)
Lemma existsb_filter {A} (f : A -> bool) (l : list A) :
  existsb f l = negb (Nat.eqb (List.length (filter f l)) 0).
Proof.
  induction l as [|x l IH]; simpl; [reflexivity|].
  destruct (f x); simpl; [reflexivity | exact IH].
Qed.

Lemma search_where_upcase project query type e :
  search_where project (upcase query) type e = search_where project query type e.
Proof.
  unfold search_where.
  change ("%" ++ upcase query ++ "%") with (upcase "%" ++ upcase query ++ upcase "%").
  rewrite <- !upcase_app.
  unfold Sql.like_opt. rewrite like_upcase.
  destruct (e_content e); [now rewrite like_upcase | reflexivity].
Qed.

Lemma too_complex_upcase query :
  Sql.too_complex ("%" ++ upcase query ++ "%") = Sql.too_complex ("%" ++ query ++ "%").
Proof. unfold Sql.too_complex. now rewrite !pattern_length, upcase_length. Qed.

(** With the empty query the [WHERE] clause keeps the scope and the
    type filter. *)
Lemma search_where_empty project type e :
  search_where project "" type e
  = (e_project_path e =? project) && type_filter type e.
Proof.
  unfold search_where. change ("%" ++ "" ++ "%") with "%%".
  rewrite like_double_percent. simpl. now rewrite andb_true_r.
Qed.

(** Where the limit does not cut, the rows are the matching rows. *)
Lemma search_rows_all query type n c p :
  (n < 0
   \/ Z.of_nat (List.length
                  (filter (search_where (projPath c) query type) (entities (db p))))
      <= n)%Z ->
  List.length (search_rows query type n c p)
  = List.length (filter (search_where (projPath c) query type) (entities (db p)))
  /\ forall e, In e (entities (db p)) ->
               search_where (projPath c) query type e = true ->
               In e (search_rows query type n c p).
Proof.
  intros Hb. unfold search_rows.
  rewrite limit_all by (now rewrite order_by_desc_length).
  split; [apply order_by_desc_length|].
  intros e He Hw. apply order_by_desc_In, filter_In. now split.
Qed.

End MoreSearchFacts.

(** Search loses nothing.  For a limit that is an integer SQLite takes,
    negative or not below the number of matching entities, and a query
    whose pattern [LIKE] accepts, the search returns, the count is that
    number, and every stored entity of the scope that matches
    [LIKE '%query%'] on name or content, and the type filter, is among
    the results. *)
Theorem search_returns_every_match :
  forall (query : string) (type : option string) (limit : option js_number)
         (c : ctx) (p : plugin) (n : Z),
    let matching := filter (search_where (projPath c) query type) (entities (db p)) in
    sqlite_integer (or_ten limit) n ->
    (N.of_nat (String.length query) + 2 <= 50000)%N ->
    (n < 0 \/ Z.of_nat (List.length matching) <= n)%Z ->
    exists payload,
      knowledge_search query type limit c p = Returns payload
      /\ sp_count payload = List.length matching
      /\ (forall e, In e (entities (db p)) ->
                    search_where (projPath c) query type e = true ->
                    In (to_result e) (sp_results payload)).
Proof.
  intros query type limit c p n matching Hn Hlen Hb.
  eexists. split.
  - apply (knowledge_search_accepts query type limit c p n Hn).
    right. left. now apply pattern_accepted.
  - destruct (search_rows_all query type n c p Hb) as [H1 H2]. simpl.
    split; [exact H1|]. intros e He Hw. now apply in_map, H2.
Qed.

Lemma search_returns_every_match_witness :
  exists payload,
    knowledge_search "a" None None ctx0 two_components = Returns payload
    /\ sp_count payload = 2
    /\ (forall e, In e (entities (db two_components)) ->
                  search_where "/proj" "a" None e = true ->
                  In (to_result e) (sp_results payload)).
Proof.
  apply (search_returns_every_match "a" None None ctx0 two_components 10%Z).
  - split; [reflexivity | lia].
  - vm_compute. discriminate.
  - right. vm_compute. discriminate.
Defined.

(** The empty query matches everything that has a name: with the query
    [''] and a limit that is an integer SQLite takes, negative or not
    below the number of entities of the scope that pass the type filter,
    the search returns every one of these, rows without content
    included. *)
Theorem search_empty_query_lists_scope :
  forall (type : option string) (limit : option js_number) (c : ctx) (p : plugin)
         (e : entity) (n : Z),
    let scope :=
      filter (fun e => (e_project_path e =? projPath c) && type_filter type e)
             (entities (db p)) in
    sqlite_integer (or_ten limit) n ->
    (n < 0 \/ Z.of_nat (List.length scope) <= n)%Z ->
    In e (entities (db p)) -> e_project_path e = projPath c ->
    type_filter type e = true ->
    exists payload,
      knowledge_search "" type limit c p = Returns payload
      /\ sp_count payload = List.length scope
      /\ In (to_result e) (sp_results payload).
Proof.
  intros type limit c p e n scope Hn Hb He Hp Ht.
  assert (Es : filter (search_where (projPath c) "" type) (entities (db p)) = scope).
  { apply filter_ext. intros x. apply search_where_empty. }
  eexists. split.
  - apply (knowledge_search_accepts "" type limit c p n Hn).
    right. left. reflexivity.
  - destruct (search_rows_all "" type n c p) as [H1 H2]; [now rewrite Es|].
    simpl. split; [now rewrite H1, Es|].
    apply in_map, H2; [assumption|].
    rewrite search_where_empty, Hp, String.eqb_refl. exact Ht.
Qed.

Lemma search_empty_query_lists_scope_witness :
  exists payload,
    knowledge_search "" (Some "component") (Some (Integral (-1))) ctx0 mixed
    = Returns payload
    /\ sp_count payload = 2
    /\ In (to_result user_service) (sp_results payload).
Proof.
  apply (search_empty_query_lists_scope (Some "component") (Some (Integral (-1)))
           ctx0 mixed user_service (-1)%Z).
  - split; [reflexivity | lia].
  - left. lia.
  - now left.
  - reflexivity.
  - reflexivity.
Defined.

(** Search does not see the ASCII case of the query: with the query in
    upper case it throws the same error or returns the same results, in
    the same order, and the same count. *)
Theorem search_ignores_query_case :
  forall (query : string) (type : option string) (limit : option js_number)
         (c : ctx) (p : plugin),
    map_outcome sp_results (knowledge_search (upcase query) type limit c p)
    = map_outcome sp_results (knowledge_search query type limit c p)
    /\ map_outcome sp_count (knowledge_search (upcase query) type limit c p)
       = map_outcome sp_count (knowledge_search query type limit c p).
Proof.
  intros query type limit c p.
  unfold knowledge_search.
  destruct (Sql.must_be_int (or_ten limit)) as [n|e]; [|split; reflexivity].
  rewrite too_complex_upcase.
  destruct (_ && _); [split; reflexivity|].
  assert (E : search_rows (upcase query) type n c p = search_rows query type n c p).
  { unfold search_rows. do 2 f_equal. apply filter_ext. intros e.
    apply search_where_upcase. }
  simpl. now rewrite E.
Qed.

(* ===================================================================== *)
(** * Further properties: capture on git commands, projects, edges        *)
(* ===================================================================== *)

Section AppendFacts.

Lemma appended_refl ok d : appended ok d d.
Proof.
  split; [|repeat split]. exists []. split; [now rewrite app_nil_r | constructor].
Qed.

Lemma appended_trans ok d0 d1 d2 :
  appended ok d0 d1 -> appended ok d1 d2 -> appended ok d0 d2.
Proof.
  intros [[a1 [E1 F1]] [R1 [S1 Q1]]] [[a2 [E2 F2]] [R2 [S2 Q2]]].
  split; [|repeat split; congruence].
  exists (a1 ++ a2)%list. split.
  - rewrite E2, E1. now rewrite app_assoc.
  - apply Forall_app. now split.
Qed.

Lemma appended_insert_or_ignore (ok : entity -> Prop) e d :
  ok e -> appended ok d (insert_or_ignore_entity e d).
Proof.
  intros H. unfold insert_or_ignore_entity.
  destruct (has_entity (e_id e) d); [apply appended_refl|].
  split; [|repeat split]. exists [e]. split; [reflexivity | now constructor].
Qed.

Lemma appended_capture_decisions draws project lines rest i k d :
  appended (captured_row project) d
           (snd (capture_decisions draws project lines rest i k d)).
Proof.
  revert i k d. induction rest as [|line rest IH]; intros i k d; simpl.
  - apply appended_refl.
  - destruct (includes "decision:" line); [|apply IH].
    eapply appended_trans; [|apply IH].
    apply appended_insert_or_ignore. repeat split; auto.
Qed.

Lemma appended_capture_sections draws project lines rest i k d :
  appended (captured_row project) d
           (snd (capture_sections draws project lines rest i k d)).
Proof.
  revert i k d. induction rest as [|line rest IH]; intros i k d; simpl.
  - apply appended_refl.
  - destruct (startsWith "## " line); [|apply IH].
    eapply appended_trans; [|apply IH].
    apply appended_insert_or_ignore. repeat split; auto.
Qed.

Lemma appended_capture_entity draws project e k d :
  appended (captured_row project) d (snd (snd (capture_entity draws project e k d))).
Proof.
  unfold capture_entity.
  assert (H1 : appended (captured_row project) d (snd (match e_content e with
      | Some content =>
          if truthy (e_content e) && includes "decision:" content
          then capture_decisions draws project (split_lines content)
                 (split_lines content) 0 k d
          else (k, d)
      | None => (k, d)
      end))).
  { destruct (e_content e) as [content|]; [|apply appended_refl].
    destruct (truthy (Some content) && includes "decision:" content);
      [apply appended_capture_decisions | apply appended_refl]. }
  destruct (match e_content e with
      | Some content =>
          if truthy (e_content e) && includes "decision:" content
          then capture_decisions draws project (split_lines content)
                 (split_lines content) 0 k d
          else (k, d)
      | None => (k, d)
      end) as [k1 d1]. simpl in H1.
  destruct (endsWith "README.md" (e_name e) || endsWith "ARCHITECTURE.md" (e_name e));
    [|exact H1].
  destruct (e_content e) as [content|]; [|exact H1]. simpl.
  eapply appended_trans; [exact H1 | apply appended_capture_sections].
Qed.

Lemma appended_capture_entities draws project es k d :
  appended (captured_row project) d
           (snd (snd (capture_entities draws project es k d))).
Proof.
  revert k d. induction es as [|e es IH]; intros k d; simpl.
  - apply appended_refl.
  - pose proof (appended_capture_entity draws project e k d) as H.
    destruct (capture_entity draws project e k d) as [[u|x] [k' d']]; simpl in *.
    + eapply appended_trans; [exact H | apply IH].
    + exact H.
Qed.

Lemma appended_capture_bash draws input result p :
  appended (captured_row (projectPath p)) (db p)
           (db (snd (capture_bash draws input result p)))
  /\ currentSessionId (snd (capture_bash draws input result p)) = currentSessionId p
  /\ projectPath (snd (capture_bash draws input result p)) = projectPath p.
Proof.
  unfold capture_bash.
  destruct ((tool input =? "bash") && truthy result);
    [|split; [apply appended_refl | split; reflexivity]].
  match goal with
  | |- context [existsb ?f gitCommands] => destruct (existsb f gitCommands)
  end; [|split; [apply appended_refl | split; reflexivity]].
  match goal with
  | |- context [capture_entities ?a ?b ?c ?k ?d] =>
      pose proof (appended_capture_entities a b c k d) as H;
      destruct (capture_entities a b c k d) as [o [k' d']]
  end.
  split; [exact H | split; reflexivity].
Qed.

End AppendFacts.

(** The capture on shell commands only appends.  Whatever a [bash] event
    carries, and whether the handler returns or throws, the entities
    that were there stay as they are, in place; each appended row is a
    [decision] or a [documentation] row of the plugin's project without
    metadata; relationships, sessions, queries and the current session
    are untouched.  Nothing at all changes unless the result is non-empty
    and the command contains [git log], [git diff], [git status] or
    [git show]. *)
Theorem bash_capture_appends_only :
  forall (normalize : string -> string) (draws : nat -> draw) (input : tool_input)
         (result : option string) (p : plugin),
    tool input = "bash" ->
    appended (captured_row (projectPath p)) (db p)
             (db (snd (tool_execute_after normalize draws input result p)))
    /\ currentSessionId (snd (tool_execute_after normalize draws input result p))
       = currentSessionId p
    /\ (truthy result = false
        \/ existsb (fun g => includes g
                      (or_else (match args input with
                                | Some a => command a
                                | None => None
                                end) ""))
                   gitCommands = false ->
        tool_execute_after normalize draws input result p = (Returns tt, p)).
Proof.
  intros normalize draws input result p Ht.
  assert (E : tool_execute_after normalize draws input result p
              = capture_bash (fun k => draws (S k)) input result p).
  { unfold tool_execute_after, capture_read. rewrite Ht. simpl.
    now destruct result. }
  rewrite E.
  destruct (appended_capture_bash (fun k => draws (S k)) input result p) as [H1 [H2 _]].
  split; [exact H1|]. split; [exact H2|].
  unfold capture_bash. rewrite Ht. simpl.
  intros [H|H]; [now rewrite H | rewrite H; now destruct (truthy result)].
Qed.

Lemma bash_capture_appends_only_witness :
  map (fun e => (e_type e, e_name e, e_content e))
      (entities (db (snd (tool_execute_after already_normal capture_draws git_log
                            (Some "a1b2c3 first commit") readme_plugin))))
  = [ ("file", "README.md", e_content readme_entity);
      ("decision", "decision-1704412800001",
       Some (join (String newline "")
               ["# App"; "## Setup "; "decision: use sqlite"; "run it"]));
      ("documentation", "Setup",
       Some (join (String newline "")
               ["## Setup "; "decision: use sqlite"; "run it"])) ]
  /\ appended (captured_row "/proj") (db readme_plugin)
       (db (snd (tool_execute_after already_normal capture_draws git_log
                   (Some "a1b2c3 first commit") readme_plugin)))
  /\ tool_execute_after already_normal capture_draws
       {| tool := "bash";
          args := Some {| filePath := None; command := Some "ls -la" |} |}
       (Some "total 0") readme_plugin
     = (Returns tt, readme_plugin).
Proof.
  split; [reflexivity|]. split.
  - exact (proj1 (bash_capture_appends_only already_normal capture_draws git_log
                    (Some "a1b2c3 first commit") readme_plugin eq_refl)).
  - apply (proj2 (proj2 (bash_capture_appends_only already_normal capture_draws
             {| tool := "bash";
                args := Some {| filePath := None; command := Some "ls -la" |} |}
             (Some "total 0") readme_plugin eq_refl))).
    right. reflexivity.
Defined.

Section IsolationFacts.

Lemma filter_map_fixed {A} (f : A -> bool) (g : A -> A) (l : list A) :
  (forall x, In x l -> f (g x) = f x /\ (f x = true -> g x = x)) ->
  filter f (map g l) = filter f l.
Proof.
  induction l as [|x l IH]; intros H; simpl; [reflexivity|].
  destruct (H x (or_introl eq_refl)) as [H1 H2]. rewrite H1.
  rewrite IH by (intros y Hy; apply H; now right).
  destruct (f x); [now rewrite H2 | reflexivity].
Qed.

Lemma filter_app_out {A} (f : A -> bool) (l added : list A) :
  Forall (fun x => f x = false) added -> filter f (l ++ added) = filter f l.
Proof.
  intros H. rewrite filter_app.
  assert (E : filter f added = []).
  { induction H as [|x added Hx _ IH]; simpl; [reflexivity | now rewrite Hx]. }
  rewrite E. apply app_nil_r.
Qed.

Variable normalize : string -> string.
Variable P : string.

Lemma insert_entity_elsewhere e d :
  e_project_path e <> P ->
  match insert_entity e d with
  | Returns d' => filter (fun e : entity => e_project_path e =? P) (entities d') = filter (fun e : entity => e_project_path e =? P) (entities d)
                  /\ relationships d' = relationships d
  | Throws _ => True
  end.
Proof.
  intros H. unfold insert_entity. destruct (has_entity (e_id e) d); [exact I|].
  simpl. split; [|reflexivity]. apply filter_app_out. constructor; [|constructor].
  simpl. now apply String.eqb_neq.
Qed.

Lemma capture_read_elsewhere d input result p :
  projectPath p <> P ->
  filter (fun e : entity => e_project_path e =? P) (entities (db (snd (capture_read normalize d input result p))))
  = filter (fun e : entity => e_project_path e =? P) (entities (db p))
  /\ relationships (db (snd (capture_read normalize d input result p)))
     = relationships (db p)
  /\ projectPath (snd (capture_read normalize d input result p)) = projectPath p.
Proof.
  intros H. unfold capture_read.
  destruct result as [text|]; [|repeat split].
  destruct ((tool input =? "read") && truthy (Some text)); [|repeat split].
  destruct (match args input with Some a => filePath a | None => None end)
    as [path|]; [|repeat split].
  destruct (truthy (Some path)); [|repeat split].
  destruct (entity_by_name (projectPath p) (normalize path) (db p)); [repeat split|].
  match goal with
  | |- context [insert_entity ?e ?d] =>
      pose proof (insert_entity_elsewhere e d H) as Hi;
      destruct (insert_entity e d) as [d'|x]
  end; simpl; [|repeat split].
  destruct Hi as [H1 H2]. repeat split; assumption.
Qed.

Lemma capture_bash_elsewhere draws input result p :
  projectPath p <> P ->
  filter (fun e : entity => e_project_path e =? P) (entities (db (snd (capture_bash draws input result p))))
  = filter (fun e : entity => e_project_path e =? P) (entities (db p))
  /\ relationships (db (snd (capture_bash draws input result p)))
     = relationships (db p).
Proof.
  intros H.
  destruct (appended_capture_bash draws input result p)
    as [[[added [E F]] [R _]] _].
  split; [|exact R]. rewrite E. apply filter_app_out.
  eapply Forall_impl; [|exact F].
  intros e [He _]. simpl. rewrite He. now apply String.eqb_neq.
Qed.

(** A call made in another project leaves the entities and the
    relationships of project [P] as they are. *)
Lemma step_elsewhere x p :
  unique_ids (db p) -> scope_of x p <> P ->
  filter (fun e : entity => e_project_path e =? P) (entities (db (step normalize x p))) = filter (fun e : entity => e_project_path e =? P) (entities (db p))
  /\ filter (fun r : relationship => r_project_path r =? P) (relationships (db (step normalize x p)))
     = filter (fun r : relationship => r_project_path r =? P) (relationships (db p)).
Proof.
  intros U H.
  destruct x as [d|d output|d path|draws input result|d name type content metadata c
                |d source target relationship c|d decision rationale alternatives c
                |d summary decisions files c|d question c|c];
    simpl in H; simpl step.
  - split; reflexivity.
  - unfold session_deleted. destruct (currentSessionId p) as [id|]; [|now split].
    destruct (truthy (Some id)); now split.
  - unfold file_edited.
    destruct (entity_by_name (projectPath p) (normalize path) (db p))
      as [e|] eqn:E; [|now split].
    simpl. split; [|reflexivity].
    apply find_some in E. destruct E as [Hin E].
    apply andb_true_iff in E. destruct E as [E _]. apply String.eqb_eq in E.
    apply filter_map_fixed. intros x Hx.
    destruct (e_id x =? e_id e) eqn:Eid; [|now split].
    apply String.eqb_eq in Eid.
    rewrite (unique_ids_inj (db p) x e U Hx Hin Eid).
    split; [reflexivity|]. simpl. rewrite E.
    intros Hm. apply String.eqb_eq in Hm. contradiction.
  - unfold tool_execute_after.
    destruct (capture_read_elsewhere (draws 0) input result p H) as [H1 [H2 H3]].
    destruct (capture_read normalize (draws 0) input result p) as [[u|e] p1];
      simpl in *; [|split; [exact H1 | now rewrite H2]].
    rewrite <- H3 in H.
    destruct (capture_bash_elsewhere (fun k => draws (S k)) input result p1 H)
      as [H4 H5].
    split; [now rewrite H4 | now rewrite H5, H2].
  - unfold knowledge_add_entity.
    match goal with
    | |- context [insert_entity ?e ?d] =>
        pose proof (insert_entity_elsewhere e d H) as Hi;
        destruct (insert_entity e d) as [d'|x]
    end; simpl; [|now split].
    destruct Hi as [H1 H2]. split; [exact H1 | now rewrite H2].
  - unfold knowledge_connect.
    destruct (resolve (projPath c) source (db p)); [|now split].
    destruct (resolve (projPath c) target (db p)); [|now split].
    unfold insert_relationship.
    match goal with
    | |- context [has_relationship ?i ?d] => destruct (has_relationship i d)
    end; simpl; [now split|].
    split; [reflexivity|]. apply filter_app_out. constructor; [|constructor].
    simpl. now apply String.eqb_neq.
  - unfold knowledge_record_decision.
    match goal with
    | |- context [insert_entity ?e ?d] =>
        pose proof (insert_entity_elsewhere e d H) as Hi;
        destruct (insert_entity e d) as [d'|x]
    end; simpl; [|now split].
    destruct Hi as [H1 H2]. split; [exact H1 | now rewrite H2].
  - unfold knowledge_summarize_session. simpl.
    now rewrite entities_upsert, relationships_upsert.
  - unfold knowledge_ask_log, insert_query.
    match goal with
    | |- context [has_query ?i ?d] => destruct (has_query i d)
    end; now split.
  - now split.
Qed.

End IsolationFacts.

(** Projects do not see each other's entities.  In a store whose entity
    ids are unique, a call made in one project, whatever it is and
    whether it returns or throws, leaves the entities and relationships
    of every other project as they are, and with them the results of
    every search and the nodes of every graph export asked for in those
    projects. *)
Theorem other_projects_unchanged :
  forall (normalize : string -> string) (x : call) (p : plugin) (c : ctx),
    unique_ids (db p) -> scope_of x p <> projPath c ->
    filter (fun e => e_project_path e =? projPath c) (entities (db (step normalize x p)))
    = filter (fun e => e_project_path e =? projPath c) (entities (db p))
    /\ filter (fun r => r_project_path r =? projPath c)
              (relationships (db (step normalize x p)))
       = filter (fun r => r_project_path r =? projPath c) (relationships (db p))
    /\ (forall query type limit,
          knowledge_search query type limit c (step normalize x p)
          = knowledge_search query type limit c p)
    /\ (forall entityType depth,
          nodes (knowledge_graph entityType depth c (step normalize x p))
          = nodes (knowledge_graph entityType depth c p)).
Proof.
  intros normalize x p c U H.
  destruct (step_elsewhere normalize (projPath c) x p U H) as [HE HR].
  split; [exact HE|]. split; [exact HR|]. split.
  - intros query type limit.
    assert (E : forall n, search_rows query type n c (step normalize x p)
                          = search_rows query type n c p).
    { intros n. unfold search_rows. do 2 f_equal.
      transitivity
        (filter (fun e => (Sql.like ("%" ++ query ++ "%") (e_name e)
                           || Sql.like_opt ("%" ++ query ++ "%") (e_content e))
                          && type_filter type e)
                (filter (fun e => e_project_path e =? projPath c)
                        (entities (db (step normalize x p))))).
      - rewrite <- filter_andb. apply filter_ext. intros e. unfold search_where.
        now rewrite andb_assoc.
      - rewrite HE, <- filter_andb. apply filter_ext. intros e. unfold search_where.
        now rewrite andb_assoc. }
    unfold knowledge_search.
    rewrite (existsb_filter _ (entities (db (step normalize x p)))), HE,
      <- existsb_filter.
    destruct (Sql.must_be_int (or_ten limit)) as [n|e]; [|reflexivity].
    now rewrite E.
  - intros entityType depth. unfold knowledge_graph. cbn [nodes]. f_equal.
    rewrite !filter_andb. now rewrite HE.
Qed.

Lemma other_projects_unchanged_witness :
  knowledge_search "" None None ctx0
    (step already_normal
       (AddEntity draw3 "Billing" "component" None None
          {| directory := Some "/other"; worktree := None; cwd := "/" |})
       two_components)
  = knowledge_search "" None None ctx0 two_components.
Proof.
  apply (other_projects_unchanged already_normal
           (AddEntity draw3 "Billing" "component" None None
              {| directory := Some "/other"; worktree := None; cwd := "/" |})
           two_components ctx0).
  - unfold unique_ids. vm_compute. repeat constructor; simpl; intuition discriminate.
  - vm_compute. discriminate.
Defined.

(** What [connect] does when both sides resolve.  In a store that keeps
    its keys, with a free relationship id, the call returns its success
    payload, appends one relationship between the two resolved entities
    in the caller's project and changes nothing else; the next graph
    export of that project has the edges it had, followed by the new one
    under the names of the two entities. *)
Theorem connect_resolved_adds_edge :
  forall (d : draw) (source target relationship : string) (c : ctx) (p : plugin)
         (s t : entity) (entityType : option string) (depth : option Z),
    consistent (db p) ->
    resolve (projPath c) source (db p) = Some s ->
    resolve (projPath c) target (db p) = Some t ->
    has_relationship (uuid d) (db p) = false ->
    fst (knowledge_connect d source target relationship c p)
    = Returns {| cp_success := true; cp_relationshipId := uuid d;
                 cp_from := source; cp_to := target; cp_type := relationship |}
    /\ relationships (db (snd (knowledge_connect d source target relationship c p)))
       = (relationships (db p)
          ++ [ {| r_id := uuid d; r_source_id := e_id s; r_target_id := e_id t;
                  r_relationship_type := relationship; r_metadata := None;
                  r_project_path := projPath c; r_created_at := sql_now d |} ])%list
    /\ entities (db (snd (knowledge_connect d source target relationship c p)))
       = entities (db p)
    /\ edges (knowledge_graph entityType depth c
                (snd (knowledge_connect d source target relationship c p)))
       = (edges (knowledge_graph entityType depth c p)
          ++ [ {| g_id := uuid d; g_source := e_name s; g_target := e_name t;
                  g_type := relationship |} ])%list.
Proof.
  intros d source target relationship c p s t entityType depth [U _] Hs Ht Hfree.
  unfold knowledge_connect. rewrite Hs, Ht. unfold insert_relationship. simpl.
  rewrite Hfree. simpl. repeat split.
  unfold graph_edges. simpl. rewrite filter_app, flat_map_app. simpl.
  rewrite String.eqb_refl. simpl. rewrite app_nil_r. f_equal.
  apply resolve_some in Hs. apply resolve_some in Ht.
  destruct Hs as [Hs _], Ht as [Ht _].
  unfold joined. simpl.
  rewrite (flat_map_one_id _ (entities (db p)) s U Hs).
  now rewrite (flat_map_one_id _ (entities (db p)) t U Ht).
Qed.

Lemma connect_resolved_adds_edge_witness :
  edges (knowledge_graph None None ctx0 connected)
  = [ {| g_id := "33333333-3333-4333-8333-333333333333";
         g_source := "UserService"; g_target := "Database";
         g_type := "depends_on" |} ].
Proof.
  apply (proj2 (proj2 (proj2 (connect_resolved_adds_edge draw3 (uuid draw1) (uuid draw2)
           "depends_on" ctx0 two_components
           {| e_id := uuid draw1; e_type := "component"; e_name := "UserService";
              e_content := Some "Handles auth"; e_metadata := None;
              e_project_path := "/proj"; e_created_at := sql_now draw1;
              e_updated_at := sql_now draw1 |}
           {| e_id := uuid draw2; e_type := "component"; e_name := "Database";
              e_content := Some "Postgres store"; e_metadata := None;
              e_project_path := "/proj"; e_created_at := sql_now draw2;
              e_updated_at := sql_now draw2 |}
           None None
           (run_consistent already_normal
              [AddEntity draw1 "UserService" "component" (Some "Handles auth") None ctx0;
               AddEntity draw2 "Database" "component" (Some "Postgres store") None ctx0]
              ctx0)
           eq_refl eq_refl eq_refl)))).
Defined.

(* ===================================================================== *)
(** * Further properties: decisions, questions and the session context    *)
(* ===================================================================== *)

Section FlatObjectFacts.

Lemma members_text_join kvs tail :
  join "," (map (fun kv => Json.quote (fst kv) ++ ":" ++ Json.stringify (snd kv))
                (string_members kvs))
  ++ String "}" tail
  = members_text kvs tail.
Proof.
  induction kvs as [|[k v] kvs IH]; [reflexivity|].
  destruct kvs as [|kv2 kvs].
  - simpl. unfold Json.quote.
    repeat first [rewrite !append_assoc | progress cbn [append]]. reflexivity.
  - change (members_text ((k, v) :: kv2 :: kvs) tail)
      with (String dquote (esc k ++ String dquote (String ":" (String dquote (esc v ++
              String dquote (String "," (members_text (kv2 :: kvs) tail))))))).
    rewrite <- IH.
    change (string_members ((k, v) :: kv2 :: kvs))
      with ((k, JString v) :: string_members (kv2 :: kvs)).
    set (rest := string_members (kv2 :: kvs)).
    assert (Hrest : exists x r, rest = x :: r) by (unfold rest; simpl; eauto).
    destruct Hrest as [x [r ->]].
    cbn [map join fst snd Json.stringify]. unfold Json.quote.
    repeat first [rewrite !append_assoc | progress cbn [append]]. reflexivity.
Qed.

Lemma stringify_flat kvs :
  Json.stringify (JObject (string_members kvs)) = String "{" (members_text kvs "").
Proof.
  rewrite <- members_text_join. reflexivity.
Qed.

Lemma members_text_parses kvs :
  kvs <> [] ->
  forall fuel tail,
    List.length kvs < fuel ->
    Json.members fuel (members_text kvs tail) = Some (string_members kvs, tail).
Proof.
  induction kvs as [|[k v] kvs IH]; intros Hne fuel tail Hf; [contradiction|].
  destruct fuel as [|fuel]; [lia|].
  destruct kvs as [|kv2 kvs].
  - destruct fuel as [|fuel]; [simpl in Hf; lia|].
    apply members_last. apply value_string.
  - destruct fuel as [|fuel]; [simpl in Hf; lia|].
    change (members_text ((k, v) :: kv2 :: kvs) tail)
      with (String dquote (esc k ++ String dquote (String ":" (String dquote (esc v ++
              String dquote (String "," (members_text (kv2 :: kvs) tail))))))).
    change (string_members ((k, v) :: kv2 :: kvs))
      with ((k, JString v) :: string_members (kv2 :: kvs)).
    eapply members_more; [apply value_string|].
    apply IH; [discriminate | simpl in *; lia].
Qed.

Lemma members_text_length kvs tail :
  List.length kvs <= String.length (members_text kvs tail).
Proof.
  induction kvs as [|[k v] kvs IH]; [simpl; lia|].
  destruct kvs as [|kv2 kvs]; [simpl; lia|].
  change (members_text ((k, v) :: kv2 :: kvs) tail)
    with (String dquote (esc k ++ String dquote (String ":" (String dquote (esc v ++
            String dquote (String "," (members_text (kv2 :: kvs) tail))))))).
  cbn [String.length]. rewrite append_length. cbn [String.length].
  rewrite append_length. cbn [String.length]. simpl List.length in *. lia.
Qed.

(** An object of strings survives [JSON.stringify] and [JSON.parse],
    whatever characters its keys and values hold. *)
Lemma parse_stringify_flat kvs :
  Json.parse (Json.stringify (JObject (string_members kvs)))
  = Some (JObject (string_members kvs)).
Proof.
  rewrite stringify_flat. unfold Json.parse.
  pose proof (members_text_length kvs "") as Hl.
  cbn [String.length].
  destruct kvs as [|kv kvs].
  - reflexivity.
  - remember (2 * S (String.length (members_text (kv :: kvs) "")) + 2) as fuel eqn:Ef.
    destruct fuel as [|fuel]; [lia|].
    assert (Hm : Json.members fuel (members_text (kv :: kvs) "")
                 = Some (string_members (kv :: kvs), ""))
      by (apply members_text_parses; [discriminate | simpl List.length in *; lia]).
    destruct kv as [k v].
    assert (Hv : Json.value (S fuel) (String "{" (members_text ((k, v) :: kvs) ""))
                 = Some (JObject (string_members ((k, v) :: kvs)), "")).
    { destruct kvs; apply value_object; exact Hm. }
    now rewrite Hv.
Qed.

Lemma filter_nil {A} (f : A -> bool) (l : list A) :
  (forall x, In x l -> f x = false) -> filter f l = [].
Proof.
  induction l as [|x l IH]; intros H; simpl; [reflexivity|].
  rewrite (H x) by now left. apply IH. intros y Hy. apply H. now right.
Qed.

Lemma record_decision_stores d decision rationale alternatives c p payload p1 :
  knowledge_record_decision d decision rationale alternatives c p
  = (Returns payload, p1) ->
  exists text,
    entities (db p1)
    = (entities (db p)
       ++ [ {| e_id := uuid d; e_type := "decision";
               e_name := "decision-" ++ decimal (date_now d);
               e_content := Some text; e_metadata := None;
               e_project_path := projPath c;
               e_created_at := sql_now d; e_updated_at := sql_now d |} ])%list
    /\ Json.parse text
       = Some (JObject
                 ([("decision", JString decision); ("rationale", JString rationale)]
                  ++ match alternatives with
                     | Some a => [("alternatives", JString a)]
                     | None => []
                     end
                  ++ [("recordedAt", JString (iso_now d))])%list).
Proof.
  unfold knowledge_record_decision, insert_entity. simpl.
  destruct (has_entity (uuid d) (db p)); [discriminate|].
  intros [= <- <-]. eexists. split; [reflexivity|].
  destruct alternatives as [a|].
  - apply (parse_stringify_flat
             [("decision", decision); ("rationale", rationale);
              ("alternatives", a); ("recordedAt", iso_now d)]).
  - apply (parse_stringify_flat
             [("decision", decision); ("rationale", rationale);
              ("recordedAt", iso_now d)]).
Qed.

End FlatObjectFacts.



(** [ask] answers with what [recordDecision] stored, whatever is asked.
    In a project without decision or documentation entities, after a
    [recordDecision] call that returns, [ask] (under a free query id)
    returns the heading and the line [- decision: rationale] as its
    relevant context, for every question, echoes the question, and
    appends the question to the query log. *)
Theorem ask_after_record_decision :
  forall (number_to_string : string -> string) (d1 d2 : draw)
         (decision rationale question : string) (alternatives : option string)
         (c : ctx) (p : plugin) (payload : decision_payload) (p1 : plugin),
    (forall e, In e (entities (db p)) -> e_project_path e = projPath c ->
               e_type e <> "decision" /\ e_type e <> "documentation") ->
    has_query (uuid d2) (db p) = false ->
    knowledge_record_decision d1 decision rationale alternatives c p
    = (Returns payload, p1) ->
    knowledge_ask number_to_string d2 question c p1
    = (Returns {| ak_question := question;
                  ak_relevantContext :=
                    "## Architectural Decisions" ++ String newline ""
                      ++ "- " ++ decision ++ ": " ++ rationale;
                  ak_searchQuery := question;
                  ak_timestamp := iso_now d2 |},
       with_db (with_queries
                  (queries (db p1)
                   ++ [ {| q_id := uuid d2; q_project_path := projPath c;
                           q_query_text := question; q_result_summary := None;
                           q_timestamp := sql_now d2 |} ])%list (db p1)) p1).
Proof.
  intros nts d1 d2 decision rationale question alternatives c p payload p1 Hnone Hq Hrec.
  destruct (record_decision_stores _ _ _ _ _ _ _ _ Hrec) as [text [He Hp]].
  assert (Hq1 : has_query (uuid d2) (db p1) = false).
  { revert Hrec. unfold knowledge_record_decision, insert_entity. simpl.
    destruct (has_entity (uuid d1) (db p)); intros [= _ <-]; exact Hq. }
  unfold knowledge_ask, knowledge_ask_log, insert_query. cbn [q_id].
  rewrite Hq1. cbv zeta.
  unfold latest_of_type. cbn [db with_db entities with_queries]. rewrite He.
  rewrite !filter_app. cbn [filter e_project_path e_type].
  rewrite String.eqb_refl. cbn [andb].
  rewrite !filter_nil.
  - change ("decision" =? "documentation") with false.
    change ("decision" =? "decision") with true.
    cbn [app Sql.order_by_desc fold_right Sql.insert_desc].
    rewrite !limit_all by (right; simpl; lia).
    cbn [map e_content app]. unfold decision_line. rewrite Hp.
    destruct alternatives; reflexivity.
  - intros e Hin. cbv beta.
    destruct (e_project_path e =? projPath c) eqn:E; [|reflexivity].
    apply String.eqb_eq in E. destruct (Hnone e Hin E) as [H1 H2].
    apply String.eqb_neq in H1. apply String.eqb_neq in H2.
    now rewrite ?H1, ?H2.
  - intros e Hin. cbv beta.
    destruct (e_project_path e =? projPath c) eqn:E; [|reflexivity].
    apply String.eqb_eq in E. destruct (Hnone e Hin E) as [H1 H2].
    apply String.eqb_neq in H1. apply String.eqb_neq in H2.
    now rewrite ?H1, ?H2.
Qed.

Lemma ask_after_record_decision_witness :
  fst (knowledge_ask (fun lexeme => lexeme) draw2 "database choice" ctx0
         (snd (knowledge_record_decision draw1 "Use PostgreSQL" "ACID needed" None ctx0
                 (fresh ctx0))))
  = Returns {| ak_question := "database choice";
               ak_relevantContext :=
                 "## Architectural Decisions" ++ String newline ""
                   ++ "- Use PostgreSQL: ACID needed";
               ak_searchQuery := "database choice";
               ak_timestamp := iso_now draw2 |}.
Proof.
  exact (f_equal fst
           (ask_after_record_decision (fun lexeme => lexeme) draw1 draw2
              "Use PostgreSQL" "ACID needed" "database choice" None ctx0 (fresh ctx0)
              _ _ (fun e (H : In e []) => match H with end) eq_refl eq_refl)).
Defined.

Section AskFacts.

Lemma append_empty_r (s : string) : s ++ "" = s.
Proof. induction s as [|c s IH]; simpl; [reflexivity | now rewrite IH]. Qed.

Lemma doc_lines_returns docs :
  (forall e, In e docs -> e_content e <> None) -> is_returns (doc_lines docs) = true.
Proof.
  induction docs as [|e docs IH]; intros H; simpl; [reflexivity|].
  destruct (e_content e) eqn:E; [|now destruct (H e (or_introl eq_refl))].
  assert (Hr : is_returns (doc_lines docs) = true)
    by (apply IH; intros x Hx; apply H; now right).
  now destruct (doc_lines docs).
Qed.

Lemma doc_lines_throws docs e :
  In e docs -> e_content e = None -> doc_lines docs = Throws TypeError.
Proof.
  induction docs as [|x docs IH]; intros Hin He; [destruct Hin|].
  simpl. destruct Hin as [->|Hin]; [now rewrite He|].
  destruct (e_content x); [|reflexivity]. now rewrite (IH Hin He).
Qed.

End AskFacts.

(** The line of a decision.  An array prints as its elements joined by
    commas and an object as [[object Object]]; an object with a member
    named [toString] cannot be printed, and the line falls back to the
    raw content. *)
Example decision_line_ex1 :
  forall number_to_string : string -> string,
    decision_line number_to_string
      (Some (Json.stringify
               (JObject [("decision", JArray [JString "a"; JNull; JString "b"]);
                         ("rationale", JObject [])])))
    = "- a,,b: [object Object]"
    /\ decision_line number_to_string
         (Some (Json.stringify
                  (JObject [("decision", JObject [("toString", JNumber "1")]);
                            ("rationale", JString "r")])))
       = "- " ++ Json.stringify
                   (JObject [("decision", JObject [("toString", JNumber "1")]);
                             ("rationale", JString "r")]).
Proof. intros number_to_string. split; vm_compute; reflexivity. Qed.

(** [ask] logs first and is hard to break.  Under a free query id the
    question is appended to the query log and no other table changes,
    whether the call then returns or throws.  Decision content that is
    not JSON never makes it throw; it throws, a type error, exactly when
    one of the five latest documentation entities of the project has no
    content.  Under a query id already in the log it throws and changes
    nothing. *)
Theorem ask_logs_then_answers :
  forall (number_to_string : string -> string) (d : draw) (question : string)
         (c : ctx) (p : plugin),
    (has_query (uuid d) (db p) = false ->
     snd (knowledge_ask number_to_string d question c p)
     = with_db (with_queries
                  (queries (db p)
                   ++ [ {| q_id := uuid d; q_project_path := projPath c;
                           q_query_text := question; q_result_summary := None;
                           q_timestamp := sql_now d |} ])%list (db p)) p
     /\ ((forall e, In e (latest_of_type "documentation" (projPath c) (db p)) ->
                    e_content e <> None) ->
         is_returns (fst (knowledge_ask number_to_string d question c p)) = true)
     /\ (forall e, In e (latest_of_type "documentation" (projPath c) (db p)) ->
                   e_content e = None ->
                   fst (knowledge_ask number_to_string d question c p)
                   = Throws TypeError))
    /\ (has_query (uuid d) (db p) = true ->
        knowledge_ask number_to_string d question c p
        = (Throws (SqliteError "UNIQUE constraint failed: queries.id"), p)).
Proof.
  intros nts d question c p. split.
  - intros Hq. unfold knowledge_ask, knowledge_ask_log, insert_query. cbn [q_id].
    rewrite Hq. cbv zeta.
    change (latest_of_type "documentation" (projPath c) (db (with_db _ p)))
      with (latest_of_type "documentation" (projPath c) (db p)).
    set (docs := latest_of_type "documentation" (projPath c) (db p)).
    split; [|split].
    + destruct docs; [reflexivity|]. now destruct (doc_lines (e :: docs)).
    + intros H. pose proof (doc_lines_returns docs H) as Hr.
      destruct docs; [reflexivity|]. now destruct (doc_lines (e :: docs)).
    + intros e Hin He. pose proof (doc_lines_throws docs e Hin He) as Ht.
      destruct docs; [destruct Hin|]. now rewrite Ht.
  - intros Hq. unfold knowledge_ask, knowledge_ask_log, insert_query. cbn [q_id].
    now rewrite Hq.
Qed.

Lemma ask_logs_then_answers_witness :
  map q_query_text
      (queries (db (snd (knowledge_ask (fun lexeme => lexeme) draw1 "why postgres?"
                           ctx0 two_components))))
  = ["why postgres?"].
Proof.
  rewrite (proj1 (proj1 (ask_logs_then_answers (fun lexeme => lexeme) draw1
                           "why postgres?" ctx0 two_components) eq_refl)).
  reflexivity.
Defined.

(** The first session of a project is told the project path and nothing
    else: while no stored session belongs to the plugin's project, the
    context ["session.created"] pushes is the heading and the project
    line, even if the project already has entities. *)
Theorem first_session_context :
  forall (days_ago : N -> string -> string) (d : draw) (p : plugin),
    (forall s, In s (sessions (db p)) -> s_project_path s <> projectPath p) ->
    session_created_context days_ago d p
    = "## Project Knowledge Context" ++ String newline ""
        ++ "Project: " ++ projectPath p.
Proof.
  intros days_ago d p H.
  unfold session_created_context, context_message, recent_sessions.
  rewrite filter_nil.
  - simpl. now rewrite append_empty_r.
  - intros s Hs. apply String.eqb_neq. now apply H.
Qed.

Lemma first_session_context_witness :
  session_created_context (fun _ _ => "0") draw1 file_plugin
  = "## Project Knowledge Context" ++ String newline "" ++ "Project: /proj".
Proof.
  apply (first_session_context (fun _ _ => "0") draw1 file_plugin).
  intros s [].
Defined.

(** Continuity across a restart.  A project's only session was created,
    summarized with a non-empty summary and non-empty decisions, and the
    plugin was loaded again over the same store; while the project has no
    entities, the context pushed for the next session is the project
    line, the age of that session, its summary and its decisions. *)
Theorem next_session_context_recalls_summary :
  forall (days_ago : N -> string -> string) (d0 d1 d2 : draw)
         (summary decisions files : string) (c : ctx),
    uuid d0 <> "" -> summary <> "" -> decisions <> "" ->
    session_created_context days_ago d2
      (load (db (snd (knowledge_summarize_session d1 summary decisions files c
                        (session_created d0 (fresh c))))) c)
    = "## Project Knowledge Context" ++ String newline ""
        ++ "Project: " ++ projPath c
        ++ String newline (String newline "")
        ++ "Last session: " ++ days_ago (date_now d2) (sql_now d1) ++ " day(s) ago"
        ++ String newline "" ++ "Last summary: " ++ summary
        ++ String newline "" ++ "Key decisions made: " ++ decisions.
Proof.
  intros days_ago d0 d1 d2 summary decisions files c H0 Hs Hd.
  apply String.eqb_neq in H0. apply String.eqb_neq in Hs. apply String.eqb_neq in Hd.
  unfold session_created_context, context_message, recent_sessions, recent_entities.
  unfold knowledge_summarize_session, upsert_session. simpl.
  rewrite H0. simpl. rewrite String.eqb_refl. simpl. rewrite Hs, Hd. simpl.
  repeat first [rewrite !append_assoc | rewrite !append_empty_r
               | progress cbn [append]].
  reflexivity.
Qed.

Lemma next_session_context_recalls_summary_witness :
  session_created_context (fun _ _ => "3") draw3
    (load (db (one_summary "[]")) ctx0)
  = "## Project Knowledge Context" ++ String newline ""
      ++ "Project: /proj" ++ String newline (String newline "")
      ++ "Last session: 3 day(s) ago"
      ++ String newline "" ++ "Last summary: Set up auth"
      ++ String newline "" ++ "Key decisions made: JWT".
Proof.
  apply (next_session_context_recalls_summary (fun _ _ => "3") draw1 draw1 draw3
           "Set up auth" "JWT" "[]" ctx0); discriminate.
Defined.

(* ===================================================================== *)
(** * Further properties: what every history keeps                        *)
(* ===================================================================== *)

Section KeyFacts.
Variable normalize : string -> string.

Lemma session_ids_map (g : session -> session) (l : list session) :
  (forall s, s_id (g s) = s_id s) -> map s_id (map g l) = map s_id l.
Proof. intros H. rewrite map_map. apply map_ext. exact H. Qed.

Lemma session_ids_upsert row d :
  NoDup (map s_id (sessions d)) ->
  NoDup (map s_id (sessions (upsert_session row d))).
Proof.
  intros N. unfold upsert_session. destruct (has_session (s_id row) d) eqn:E; simpl.
  - rewrite session_ids_map; [assumption|].
    intros s. now destruct (s_id s =? s_id row).
  - rewrite map_app. simpl. apply NoDup_app; trivial.
    + repeat constructor. intros [].
    + intros x Hx [<-|[]]. apply in_map_iff in Hx. destruct Hx as [s [Hid Hs]].
      apply (proj1 (has_session_false _ _) E) in Hs.
      apply String.eqb_neq in Hs. contradiction.
Qed.

Lemma sessions_capture_read d input result p :
  sessions (db (snd (capture_read normalize d input result p))) = sessions (db p).
Proof.
  unfold capture_read.
  destruct result as [text|]; [|reflexivity].
  destruct ((tool input =? "read") && truthy (Some text)); [|reflexivity].
  destruct (match args input with Some a => filePath a | None => None end)
    as [path|]; [|reflexivity].
  destruct (truthy (Some path)); [|reflexivity].
  destruct (entity_by_name (projectPath p) (normalize path) (db p)); [reflexivity|].
  unfold insert_entity.
  match goal with
  | |- context [has_entity ?i ?d] => destruct (has_entity i d)
  end; reflexivity.
Qed.

(** Every call keeps the session ids distinct. *)
Lemma step_session_ids x p :
  NoDup (map s_id (sessions (db p))) ->
  NoDup (map s_id (sessions (db (step normalize x p)))).
Proof.
  intros N.
  destruct x as [d|d output|d path|draws input result|d name type content metadata c
                |d source target relationship c|d decision rationale alternatives c
                |d summary decisions files c|d question c|c];
    simpl step.
  - exact N.
  - unfold session_deleted. destruct (currentSessionId p) as [id|]; [|exact N].
    destruct (truthy (Some id)); [|exact N]. simpl.
    rewrite session_ids_map; [assumption|].
    intros s. now destruct (s_id s =? id).
  - unfold file_edited.
    now destruct (entity_by_name (projectPath p) (normalize path) (db p)).
  - unfold tool_execute_after.
    pose proof (sessions_capture_read (draws 0) input result p) as H1.
    destruct (capture_read normalize (draws 0) input result p) as [[u|e] p1];
      simpl in *; [|now rewrite H1].
    destruct (appended_capture_bash (fun k => draws (S k)) input result p1)
      as [[_ [_ [S1 _]]] _].
    now rewrite S1, H1.
  - unfold knowledge_add_entity, insert_entity.
    match goal with
    | |- context [has_entity ?i ?d] => destruct (has_entity i d)
    end; exact N.
  - unfold knowledge_connect.
    destruct (resolve (projPath c) source (db p)); [|exact N].
    destruct (resolve (projPath c) target (db p)); [|exact N].
    unfold insert_relationship.
    match goal with
    | |- context [has_relationship ?i ?d] => destruct (has_relationship i d)
    end; exact N.
  - unfold knowledge_record_decision, insert_entity.
    match goal with
    | |- context [has_entity ?i ?d] => destruct (has_entity i d)
    end; exact N.
  - unfold knowledge_summarize_session. simpl. now apply session_ids_upsert.
  - unfold knowledge_ask_log, insert_query.
    match goal with
    | |- context [has_query ?i ?d] => destruct (has_query i d)
    end; exact N.
  - exact N.
Qed.

Lemma run_session_ids xs p :
  NoDup (map s_id (sessions (db p))) ->
  NoDup (map s_id (sessions (db (run normalize xs p)))).
Proof.
  revert p. induction xs as [|x xs IH]; intros p N; [exact N|].
  simpl. apply IH. now apply step_session_ids.
Qed.

End KeyFacts.

(** Nothing is ever deleted or rewritten.  Through every history of
    calls, the entities that were stored are still there, in place and in
    order, changed in [updated_at] at most, and the relationships that
    were stored are still there, unchanged, in place and in order. *)
Theorem histories_never_delete :
  forall (normalize : string -> string) (calls : list call) (p : plugin),
    exists added_entities added_relationships,
      map frozen (entities (db (run normalize calls p)))
      = map frozen (entities (db p) ++ added_entities)%list
      /\ relationships (db (run normalize calls p))
         = (relationships (db p) ++ added_relationships)%list.
Proof.
  intros normalize calls p.
  destruct (run_evolves normalize calls p) as [[added [E _]] [rs [R _]]].
  now exists added, rs.
Qed.

(** The keys hold through every history.  From a store whose entity ids
    and session ids are distinct and whose relationships join existing
    entities, every history of calls leads to a store with distinct
    entity ids, distinct session ids, and relationships whose source and
    target are both ids of stored entities. *)
Theorem histories_keep_keys :
  forall (normalize : string -> string) (calls : list call) (p : plugin),
    NoDup (map e_id (entities (db p))) ->
    NoDup (map s_id (sessions (db p))) ->
    (forall r, In r (relationships (db p)) ->
               In (r_source_id r) (map e_id (entities (db p)))
               /\ In (r_target_id r) (map e_id (entities (db p)))) ->
    NoDup (map e_id (entities (db (run normalize calls p))))
    /\ NoDup (map s_id (sessions (db (run normalize calls p))))
    /\ (forall r, In r (relationships (db (run normalize calls p))) ->
          In (r_source_id r) (map e_id (entities (db (run normalize calls p))))
          /\ In (r_target_id r) (map e_id (entities (db (run normalize calls p))))).
Proof.
  intros normalize calls p U S L.
  destruct (consistent_evolves (db p) (db (run normalize calls p)) (conj U L)
              (run_evolves normalize calls p)) as [U' L'].
  split; [exact U'|]. split; [now apply run_session_ids | exact L'].
Qed.

Lemma histories_keep_keys_witness :
  NoDup (map e_id (entities (db (run already_normal
           [AddEntity draw1 "UserService" "component" None None ctx0;
            AddEntity draw1 "Database" "component" None None ctx0;
            SummarizeSession draw2 "s" "k" "[]" ctx0] (fresh ctx0))))).
Proof.
  apply (histories_keep_keys already_normal
           [AddEntity draw1 "UserService" "component" None None ctx0;
            AddEntity draw1 "Database" "component" None None ctx0;
            SummarizeSession draw2 "s" "k" "[]" ctx0] (fresh ctx0)).
  - constructor.
  - constructor.
  - intros r [].
Defined.

(* ===================================================================== *)
(** * Further properties: recency                                         *)
(* ===================================================================== *)

Section RecencyFacts.

Lemma ltb_leb a b :
  String.ltb a b = true -> String.leb a b = true /\ String.leb b a = false.
Proof.
  unfold String.ltb, String.leb. rewrite (String.compare_antisym a b).
  destruct (String.compare b a); simpl; intros H; try discriminate. now split.
Qed.

Lemma leb_refl a : String.leb a a = true.
Proof.
  unfold String.leb. pose proof (String.compare_antisym a a) as H.
  destruct (String.compare a a); simpl in H; try discriminate; reflexivity.
Qed.

Variable row : Type.
Variable key : row -> string.

(** A row whose key is above every other comes out first. *)
Lemma order_by_desc_head (l : list row) (m : row) :
  In m l ->
  (forall y, In y l -> y = m \/ String.ltb (key y) (key m) = true) ->
  exists rest, Sql.order_by_desc key l = m :: rest.
Proof.
  induction l as [|a l IH]; intros Hin Hmax; [destruct Hin|].
  simpl.
  assert (Hl : forall y, In y l -> y = m \/ String.ltb (key y) (key m) = true)
    by (intros y Hy; apply Hmax; now right).
  destruct (Sql.order_by_desc key l) as [|y rest] eqn:E.
  - destruct l as [|b l].
    + destruct Hin as [->|[]]. now exists [].
    + exfalso. assert (Hb : In b (Sql.order_by_desc key (b :: l)))
        by (apply order_by_desc_In; now left).
      rewrite E in Hb. destruct Hb.
  - assert (Hy : In y l) by (apply (order_by_desc_In _ key); rewrite E; now left).
    destruct (Hmax a (or_introl eq_refl)) as [->|Ha].
    + simpl. destruct (Hl y Hy) as [->|Hlt].
      * rewrite leb_refl. eauto.
      * apply ltb_leb in Hlt. destruct Hlt as [Hle _]. rewrite Hle. eauto.
    + assert (Hm : In m l) by (destruct Hin as [->|Hin]; [|assumption];
        apply ltb_leb in Ha; destruct Ha as [_ Ha]; now rewrite leb_refl in Ha).
      destruct (IH Hm Hl) as [rest' E']. rewrite ?E in E'. injection E' as -> ->.
      simpl. apply ltb_leb in Ha. destruct Ha as [_ Ha]. rewrite Ha. eauto.
Qed.

Lemma limit_head n (m : row) rest :
  (n < 0 \/ 1 <= n)%Z -> exists rest', Sql.limit n (m :: rest) = m :: rest'.
Proof.
  intros H. unfold Sql.limit. destruct (n <? 0)%Z eqn:E; [eauto|].
  apply Z.ltb_ge in E. destruct H as [H|H]; [lia|].
  destruct (Z.to_nat n) as [|k] eqn:Ek; [lia|]. simpl. eauto.
Qed.

End RecencyFacts.

Section EditedFacts.

Lemma filter_map_comm {A} (f : A -> bool) (g : A -> A) (l : list A) :
  (forall x, f (g x) = f x) -> filter f (map g l) = map g (filter f l).
Proof.
  intros H. induction l as [|x l IH]; simpl; [reflexivity|].
  rewrite H. destruct (f x); simpl; now rewrite IH.
Qed.

End EditedFacts.

Lemma file_edited_entities (normalize : string -> string) d path p e :
  entity_by_name (projectPath p) (normalize path) (db p) = Some e ->
  entities (db (file_edited normalize d path p))
  = map (fun x => if e_id x =? e_id e then touch (sql_now d) x else x)
        (entities (db p)).
Proof. intros E. unfold file_edited. rewrite E. reflexivity. Qed.

(** An edited file comes first.  After ["file.edited"] found the entity
    of a path, in a store with distinct entity ids, a search that this
    entity matches returns and lists it first, with the time of the edit,
    provided that time is above the [updated_at] of the other matching
    entities, the limit is an integer SQLite takes, negative or at least
    1, and the pattern of the query is one [LIKE] accepts. *)
Theorem edited_file_comes_first :
  forall (normalize : string -> string) (d : draw) (path query : string)
         (type : option string) (limit : option js_number) (c : ctx) (p : plugin)
         (e : entity) (n : Z),
    unique_ids (db p) ->
    entity_by_name (projectPath p) (normalize path) (db p) = Some e ->
    search_where (projPath c) query type e = true ->
    (forall x, In x (entities (db p)) -> e_id x <> e_id e ->
               search_where (projPath c) query type x = true ->
               String.ltb (e_updated_at x) (sql_now d) = true) ->
    sqlite_integer (or_ten limit) n -> (n < 0 \/ 1 <= n)%Z ->
    (N.of_nat (String.length query) + 2 <= 50000)%N ->
    exists rest,
      map_outcome sp_results
        (knowledge_search query type limit c (file_edited normalize d path p))
      = Returns (to_result (touch (sql_now d) e) :: rest).
Proof.
  intros normalize d path query type limit c p e n U He Hw Hmax Hn Hlim Hlen.
  pose proof (file_edited_entities normalize d path p e He) as Hent.
  assert (Hin : In e (entities (db p))) by (apply find_some in He; tauto).
  rewrite (knowledge_search_accepts query type limit c _ n Hn)
    by (right; left; now apply pattern_accepted).
  unfold search_rows. cbn [map_outcome sp_results]. rewrite Hent.
  set (g := fun x => if e_id x =? e_id e then touch (sql_now d) x else x).
  rewrite (filter_map_comm _ g)
    by (intros x; unfold g; now destruct (e_id x =? e_id e)).
  assert (Hge : g e = touch (sql_now d) e) by (unfold g; now rewrite String.eqb_refl).
  destruct (order_by_desc_head _ e_updated_at
              (map g (filter (search_where (projPath c) query type) (entities (db p))))
              (touch (sql_now d) e)) as [rest E].
  - rewrite <- Hge. apply in_map, filter_In. now split.
  - intros y Hy. apply in_map_iff in Hy. destruct Hy as [x [<- Hx]].
    apply filter_In in Hx. destruct Hx as [Hx Hwx]. unfold g.
    destruct (e_id x =? e_id e) eqn:Eid.
    + left. apply String.eqb_eq in Eid.
      now rewrite (unique_ids_inj (db p) x e U Hx Hin Eid).
    + right. apply String.eqb_neq in Eid. simpl. now apply Hmax.
  - rewrite E. destruct (limit_head _ n (touch (sql_now d) e) rest Hlim) as [rest' ->].
    simpl. eauto.
Qed.

Lemma edited_file_comes_first_witness :
  map_outcome (fun found => map sr_name (sp_results found))
    (knowledge_search "src" None None ctx0 two_files)
  = Returns ["src/b.js"; "src/a.js"]
  /\ exists rest,
       map_outcome sp_results
         (knowledge_search "src" None None ctx0
            (file_edited already_normal draw3 "src/a.js" two_files))
       = Returns (to_result (touch (sql_now draw3) file_entity) :: rest).
Proof.
  split; [reflexivity|].
  apply (edited_file_comes_first already_normal draw3 "src/a.js" "src" None None ctx0
           two_files file_entity 10%Z).
  - unfold unique_ids. vm_compute. repeat constructor; simpl; intuition discriminate.
  - reflexivity.
  - reflexivity.
  - intros x [<-|[<-|[]]] H _; [now contradiction H | reflexivity].
  - split; [reflexivity | lia].
  - right. lia.
  - vm_compute. discriminate.
Defined.

Lemma file_edited_touches_timestamp_only_witness :
  entities (db (file_edited already_normal draw3 "src/a.js" file_plugin))
  = map (fun x => if e_id x =? e_id file_entity then touch (sql_now draw3) x else x)
        (entities (db file_plugin)).
Proof.
  apply (proj1 (proj2 (proj2 (proj2 (proj2 (proj2
           (file_edited_touches_timestamp_only already_normal draw3 "src/a.js"
              file_plugin)))))) file_entity eq_refl).
Defined.
